(** * Space Invaders: the simulation core of [src/model.c]

    A shallow embedding of the game model ([include/model.h]), of the input
    state machine [model_handle_input], of the fixed-step simulation
    [model_update] and of the save/load codec, followed by the properties
    proved about them.

    Conventions of the embedding:
    - a C [int] is a [Z]; every arithmetic result goes through [wrap_int]
      (32-bit two's complement);
    - a C [float] is an IEEE-754 binary32 value and a [double] a binary64
      value, both carried by [spec_float] with round-to-nearest-even
      operations; mixed [float]/[double] expressions are evaluated in
      binary64 and rounded once on assignment, as the C conversions do;
    - fixed-size arrays are lists, read and written by index;
    - [rand()] reads an oracle that is threaded through the step;
    - the save directory is an explicit file-system value;
    - [exit(0)] and a loop that never ends are outcomes of their own. *)

From Stdlib Require Import ZArith String Ascii List Bool Lia.
From Stdlib Require Import Floats.SpecFloat DecimalString.
From stdpp Require Import gmap strings list.

Open Scope Z_scope.

(** ** Machine integers *)

Definition INT_MIN : Z := - 2 ^ 31.
Definition INT_MAX : Z := 2 ^ 31 - 1.

Definition wrap_int (z : Z) : Z := (z + 2 ^ 31) mod 2 ^ 32 - 2 ^ 31.

Definition is_int (z : Z) : Prop := INT_MIN <= z <= INT_MAX.

(** [!e] on an [int]. *)
Definition int_not (z : Z) : Z := if z =? 0 then 1 else 0.

(** ** Floating point *)

Definition f32 : Type := spec_float.
Definition f64 : Type := spec_float.

Module F32.
Definition prec : Z := 24.
Definition emax : Z := 128.
Definition of_Z (z : Z) : f32 := binary_normalize prec emax z 0 false.
Definition add : f32 -> f32 -> f32 := SFadd prec emax.
Definition sub : f32 -> f32 -> f32 := SFsub prec emax.
Definition mul : f32 -> f32 -> f32 := SFmul prec emax.
Definition div : f32 -> f32 -> f32 := SFdiv prec emax.
Definition neg : f32 -> f32 := SFopp.
Definition ltb : f32 -> f32 -> bool := SFltb.
Definition leb : f32 -> f32 -> bool := SFleb.
Definition gtb (a b : f32) : bool := SFltb b a.
Definition geb (a b : f32) : bool := SFleb b a.
Definition is_nan (a : f32) : bool :=
  match a with S754_nan => true | _ => false end.
(** The conversion of a [double] to [float]: rounding to nearest even. *)
Definition of_f64 (a : f64) : f32 :=
  match a with
  | S754_finite s m e => binary_round prec emax s m e
  | _ => a
  end.
(** A decimal literal with the [f] suffix, [n / 10 ^ k]: the nearest
    binary32 value, which the correctly rounded quotient of two exactly
    represented integers gives. *)
Definition lit (n : Z) (k : Z) : f32 := div (of_Z n) (of_Z (10 ^ k)).
End F32.

Module F64.
Definition prec : Z := 53.
Definition emax : Z := 1024.
Definition of_Z (z : Z) : f64 := binary_normalize prec emax z 0 false.
Definition add : f64 -> f64 -> f64 := SFadd prec emax.
Definition sub : f64 -> f64 -> f64 := SFsub prec emax.
Definition mul : f64 -> f64 -> f64 := SFmul prec emax.
Definition div : f64 -> f64 -> f64 := SFdiv prec emax.
(** The promotion of a [float] to [double] is exact. *)
Definition of_f32 (a : f32) : f64 :=
  match a with
  | S754_finite s m e => binary_round prec emax s m e
  | _ => a
  end.
End F64.

(** [a += b * dt], [a += dt], [a -= dt] with [a], [b] of type [float] and
    [dt] of type [double]: computed in binary64, stored as binary32. *)
Definition f32_add_scaled (a b : f32) (dt : f64) : f32 :=
  F32.of_f64 (F64.add (F64.of_f32 a) (F64.mul (F64.of_f32 b) dt)).
Definition f32_add_f64 (a : f32) (dt : f64) : f32 :=
  F32.of_f64 (F64.add (F64.of_f32 a) dt).
Definition f32_sub_f64 (a : f32) (dt : f64) : f32 :=
  F32.of_f64 (F64.sub (F64.of_f32 a) dt).

(** ** Constants of [common.h] and [model.h] *)

Definition GAME_WIDTH : Z := 100.
Definition GAME_HEIGHT : Z := 50.
Definition MAX_ENEMIES : Z := 60.
Definition MAX_BULLETS : Z := 100.
Definition TARGET_FPS : Z := 60.

Definition PLAYER_SPEED : f32 := F32.of_Z 40.
Definition BULLET_SPEED : f32 := F32.of_Z 60.
Definition ENEMY_SPEED_BASE : f32 := F32.of_Z 10.
Definition ENEMY_DROP_HEIGHT : f32 := F32.of_Z 2.
Definition PLAYER_WIDTH : Z := 5.
Definition PLAYER_HEIGHT : Z := 3.
Definition ENEMY_WIDTH : Z := 4.
Definition ENEMY_HEIGHT : Z := 3.
Definition BULLET_WIDTH : Z := 1.
Definition BULLET_HEIGHT : Z := 1.
Definition MAX_SAVE_FILES : Z := 10.
Definition MAX_FILENAME_LEN : Z := 32.
Definition MAX_SHIELDS : Z := 4.
Definition SHIELD_MAX_HEALTH : Z := 10.
Definition MAX_LIVES_NORMAL : Z := 3.
Definition UFO_POINTS : Z := 60.
Definition UFO_SPEED : f32 := F32.of_Z 10.
Definition UFO_WIDTH : Z := 4.
Definition UFO_HEIGHT : Z := 2.

(** ** Enumerations *)

Inductive EntityType : Type :=
| ENTITY_PLAYER
| ENTITY_BULLET_PLAYER
| ENTITY_BULLET_ENEMY
| ENTITY_ENEMY_TYPE_1
| ENTITY_ENEMY_TYPE_2
| ENTITY_ENEMY_TYPE_3
| ENTITY_UFO.

Inductive GameStateEnum : Type :=
| STATE_MENU
| STATE_PLAYING
| STATE_PAUSED
| STATE_TUTORIAL
| STATE_GAME_OVER
| STATE_VICTORY
| STATE_CONFIRM_QUIT
| STATE_SAVE_INPUT
| STATE_LOAD_MENU
| STATE_OVERWRITE_CONFIRM
| STATE_SAVE_SELECT
| STATE_SAVE_SUCCESS.

Inductive GameCommand : Type :=
| CMD_NONE
| CMD_PAUSE
| CMD_EXIT
| CMD_MOVE_LEFT
| CMD_MOVE_RIGHT
| CMD_SHOOT
| CMD_UP
| CMD_DOWN
| CMD_LEFT
| CMD_RIGHT
| CMD_RETURN
| CMD_BACKSPACE.

#[global] Instance EntityType_eq_dec : EqDecision EntityType.
Proof. solve_decision. Defined.
#[global] Instance GameStateEnum_eq_dec : EqDecision GameStateEnum.
Proof. solve_decision. Defined.
#[global] Instance GameCommand_eq_dec : EqDecision GameCommand.
Proof. solve_decision. Defined.

(** ** The data model *)

Module Entity.
Record t : Type := Build {
  x : f32;  (* top-left corner, logical units *)
  y : f32;
  width : Z;  (* hitbox *)
  height : Z;
  dx : f32;  (* velocity *)
  dy : f32;
  active : bool;  (* false: free slot *)
  type : EntityType;
  shoot_timer : f32;  (* cooldown *)
  anim_timer : f32;
  anim_frame : Z;
  exploding : bool;
  explode_timer : f32
}.

Definition set_x (v : f32) (r : t) : t :=
  Build v (y r) (width r) (height r) (dx r) (dy r) (active r) (type r) (shoot_timer r)
  (anim_timer r) (anim_frame r) (exploding r) (explode_timer r).
Definition set_y (v : f32) (r : t) : t :=
  Build (x r) v (width r) (height r) (dx r) (dy r) (active r) (type r) (shoot_timer r)
  (anim_timer r) (anim_frame r) (exploding r) (explode_timer r).
Definition set_width (v : Z) (r : t) : t :=
  Build (x r) (y r) v (height r) (dx r) (dy r) (active r) (type r) (shoot_timer r)
  (anim_timer r) (anim_frame r) (exploding r) (explode_timer r).
Definition set_height (v : Z) (r : t) : t :=
  Build (x r) (y r) (width r) v (dx r) (dy r) (active r) (type r) (shoot_timer r)
  (anim_timer r) (anim_frame r) (exploding r) (explode_timer r).
Definition set_dx (v : f32) (r : t) : t :=
  Build (x r) (y r) (width r) (height r) v (dy r) (active r) (type r) (shoot_timer r)
  (anim_timer r) (anim_frame r) (exploding r) (explode_timer r).
Definition set_dy (v : f32) (r : t) : t :=
  Build (x r) (y r) (width r) (height r) (dx r) v (active r) (type r) (shoot_timer r)
  (anim_timer r) (anim_frame r) (exploding r) (explode_timer r).
Definition set_active (v : bool) (r : t) : t :=
  Build (x r) (y r) (width r) (height r) (dx r) (dy r) v (type r) (shoot_timer r)
  (anim_timer r) (anim_frame r) (exploding r) (explode_timer r).
Definition set_type (v : EntityType) (r : t) : t :=
  Build (x r) (y r) (width r) (height r) (dx r) (dy r) (active r) v (shoot_timer r)
  (anim_timer r) (anim_frame r) (exploding r) (explode_timer r).
Definition set_shoot_timer (v : f32) (r : t) : t :=
  Build (x r) (y r) (width r) (height r) (dx r) (dy r) (active r) (type r) v (anim_timer r)
  (anim_frame r) (exploding r) (explode_timer r).
Definition set_anim_timer (v : f32) (r : t) : t :=
  Build (x r) (y r) (width r) (height r) (dx r) (dy r) (active r) (type r) (shoot_timer r) v
  (anim_frame r) (exploding r) (explode_timer r).
Definition set_anim_frame (v : Z) (r : t) : t :=
  Build (x r) (y r) (width r) (height r) (dx r) (dy r) (active r) (type r) (shoot_timer r)
  (anim_timer r) v (exploding r) (explode_timer r).
Definition set_exploding (v : bool) (r : t) : t :=
  Build (x r) (y r) (width r) (height r) (dx r) (dy r) (active r) (type r) (shoot_timer r)
  (anim_timer r) (anim_frame r) v (explode_timer r).
Definition set_explode_timer (v : f32) (r : t) : t :=
  Build (x r) (y r) (width r) (height r) (dx r) (dy r) (active r) (type r) (shoot_timer r)
  (anim_timer r) (anim_frame r) (exploding r) v.
End Entity.

Module Ufo.
Record t : Type := Build {
  x : f32;
  y : f32;
  width : f32;
  height : f32;
  dx : f32;
  active : bool;
  hasSpawnedThisLevel : bool;  (* at most one flyer per level *)
  exploding : bool;
  explode_timer : f32;
  type : EntityType
}.

Definition set_x (v : f32) (r : t) : t :=
  Build v (y r) (width r) (height r) (dx r) (active r) (hasSpawnedThisLevel r) (exploding r)
  (explode_timer r) (type r).
Definition set_y (v : f32) (r : t) : t :=
  Build (x r) v (width r) (height r) (dx r) (active r) (hasSpawnedThisLevel r) (exploding r)
  (explode_timer r) (type r).
Definition set_width (v : f32) (r : t) : t :=
  Build (x r) (y r) v (height r) (dx r) (active r) (hasSpawnedThisLevel r) (exploding r)
  (explode_timer r) (type r).
Definition set_height (v : f32) (r : t) : t :=
  Build (x r) (y r) (width r) v (dx r) (active r) (hasSpawnedThisLevel r) (exploding r)
  (explode_timer r) (type r).
Definition set_dx (v : f32) (r : t) : t :=
  Build (x r) (y r) (width r) (height r) v (active r) (hasSpawnedThisLevel r) (exploding r)
  (explode_timer r) (type r).
Definition set_active (v : bool) (r : t) : t :=
  Build (x r) (y r) (width r) (height r) (dx r) v (hasSpawnedThisLevel r) (exploding r)
  (explode_timer r) (type r).
Definition set_hasSpawnedThisLevel (v : bool) (r : t) : t :=
  Build (x r) (y r) (width r) (height r) (dx r) (active r) v (exploding r) (explode_timer r)
  (type r).
Definition set_exploding (v : bool) (r : t) : t :=
  Build (x r) (y r) (width r) (height r) (dx r) (active r) (hasSpawnedThisLevel r) v
  (explode_timer r) (type r).
Definition set_explode_timer (v : f32) (r : t) : t :=
  Build (x r) (y r) (width r) (height r) (dx r) (active r) (hasSpawnedThisLevel r)
  (exploding r) v (type r).
Definition set_type (v : EntityType) (r : t) : t :=
  Build (x r) (y r) (width r) (height r) (dx r) (active r) (hasSpawnedThisLevel r)
  (exploding r) (explode_timer r) v.
End Ufo.

Module Shield.
Record t : Type := Build {
  x : f32;
  y : f32;
  width : f32;
  height : f32;
  health : Z;  (* 0 to SHIELD_MAX_HEALTH *)
  active : bool
}.

Definition set_x (v : f32) (r : t) : t :=
  Build v (y r) (width r) (height r) (health r) (active r).
Definition set_y (v : f32) (r : t) : t :=
  Build (x r) v (width r) (height r) (health r) (active r).
Definition set_width (v : f32) (r : t) : t :=
  Build (x r) (y r) v (height r) (health r) (active r).
Definition set_height (v : f32) (r : t) : t :=
  Build (x r) (y r) (width r) v (health r) (active r).
Definition set_health (v : Z) (r : t) : t :=
  Build (x r) (y r) (width r) (height r) v (active r).
Definition set_active (v : bool) (r : t) : t :=
  Build (x r) (y r) (width r) (height r) (health r) v.
End Shield.

Record SoundState : Type := Build_SoundState {
  play_shoot : bool;
  play_invader_killed : bool;
  play_player_explosion : bool;
  play_select_sound : bool;
  play_game_over : bool;
  play_level_up : bool;
  play_beat : bool;
  beat_index : Z;  (* current note of the rhythm, 0 to 3 *)
  ufo_loopING : bool  (* continuous flag *)
}.

Definition set_play_shoot (v : bool) (r : SoundState) : SoundState :=
  Build_SoundState v (play_invader_killed r) (play_player_explosion r) (play_select_sound r)
  (play_game_over r) (play_level_up r) (play_beat r) (beat_index r) (ufo_loopING r).
Definition set_play_invader_killed (v : bool) (r : SoundState) : SoundState :=
  Build_SoundState (play_shoot r) v (play_player_explosion r) (play_select_sound r)
  (play_game_over r) (play_level_up r) (play_beat r) (beat_index r) (ufo_loopING r).
Definition set_play_player_explosion (v : bool) (r : SoundState) : SoundState :=
  Build_SoundState (play_shoot r) (play_invader_killed r) v (play_select_sound r)
  (play_game_over r) (play_level_up r) (play_beat r) (beat_index r) (ufo_loopING r).
Definition set_play_select_sound (v : bool) (r : SoundState) : SoundState :=
  Build_SoundState (play_shoot r) (play_invader_killed r) (play_player_explosion r) v
  (play_game_over r) (play_level_up r) (play_beat r) (beat_index r) (ufo_loopING r).
Definition set_play_game_over (v : bool) (r : SoundState) : SoundState :=
  Build_SoundState (play_shoot r) (play_invader_killed r) (play_player_explosion r)
  (play_select_sound r) v (play_level_up r) (play_beat r) (beat_index r) (ufo_loopING r).
Definition set_play_level_up (v : bool) (r : SoundState) : SoundState :=
  Build_SoundState (play_shoot r) (play_invader_killed r) (play_player_explosion r)
  (play_select_sound r) (play_game_over r) v (play_beat r) (beat_index r) (ufo_loopING r).
Definition set_play_beat (v : bool) (r : SoundState) : SoundState :=
  Build_SoundState (play_shoot r) (play_invader_killed r) (play_player_explosion r)
  (play_select_sound r) (play_game_over r) (play_level_up r) v (beat_index r) (ufo_loopING r).
Definition set_beat_index (v : Z) (r : SoundState) : SoundState :=
  Build_SoundState (play_shoot r) (play_invader_killed r) (play_player_explosion r)
  (play_select_sound r) (play_game_over r) (play_level_up r) (play_beat r) v (ufo_loopING r).
Definition set_ufo_loopING (v : bool) (r : SoundState) : SoundState :=
  Build_SoundState (play_shoot r) (play_invader_killed r) (play_player_explosion r)
  (play_select_sound r) (play_game_over r) (play_level_up r) (play_beat r) (beat_index r) v.
Record GameModel : Type := Build_GameModel {
  state : GameStateEnum;
  previous_state : GameStateEnum;
  player : Entity.t;
  enemies : list Entity.t;  (* Entity enemies[MAX_ENEMIES] *)
  bullets : list Entity.t;  (* Entity bullets[MAX_BULLETS] *)
  ufo : Ufo.t;
  shields : list Shield.t;  (* Shield shields[MAX_SHIELDS] *)
  score : Z;
  lives : Z;
  level : Z;
  normal_max_lives : Z;
  enemy_speed_mult : f32;
  direction_enemies : Z;  (* 1 right, -1 left *)
  drop_direction : Z;
  drop_step_count : Z;
  animation_frame : Z;
  animation_timer : f32;
  game_over_timer : f32;
  hit_timer : f32;  (* invulnerability after a hit *)
  save_success_timer : f32;
  menu_selection : Z;
  input_buffer : string;  (* char input_buffer[MAX_FILENAME_LEN] *)
  save_files : list string;  (* char save_files[MAX_SAVE_FILES][256] *)
  save_file_count : Z;
  current_filename : string;
  pending_quit : bool;
  sounds : SoundState;
  volume : Z;
  is_muted : bool
}.

Definition set_state (v : GameStateEnum) (r : GameModel) : GameModel :=
  Build_GameModel v (previous_state r) (player r) (enemies r) (bullets r) (ufo r) (shields r)
  (score r) (lives r) (level r) (normal_max_lives r) (enemy_speed_mult r)
  (direction_enemies r) (drop_direction r) (drop_step_count r) (animation_frame r)
  (animation_timer r) (game_over_timer r) (hit_timer r) (save_success_timer r)
  (menu_selection r) (input_buffer r) (save_files r) (save_file_count r) (current_filename r)
  (pending_quit r) (sounds r) (volume r) (is_muted r).
Definition set_previous_state (v : GameStateEnum) (r : GameModel) : GameModel :=
  Build_GameModel (state r) v (player r) (enemies r) (bullets r) (ufo r) (shields r) (score r)
  (lives r) (level r) (normal_max_lives r) (enemy_speed_mult r) (direction_enemies r)
  (drop_direction r) (drop_step_count r) (animation_frame r) (animation_timer r)
  (game_over_timer r) (hit_timer r) (save_success_timer r) (menu_selection r) (input_buffer r)
  (save_files r) (save_file_count r) (current_filename r) (pending_quit r) (sounds r)
  (volume r) (is_muted r).
Definition set_player (v : Entity.t) (r : GameModel) : GameModel :=
  Build_GameModel (state r) (previous_state r) v (enemies r) (bullets r) (ufo r) (shields r)
  (score r) (lives r) (level r) (normal_max_lives r) (enemy_speed_mult r)
  (direction_enemies r) (drop_direction r) (drop_step_count r) (animation_frame r)
  (animation_timer r) (game_over_timer r) (hit_timer r) (save_success_timer r)
  (menu_selection r) (input_buffer r) (save_files r) (save_file_count r) (current_filename r)
  (pending_quit r) (sounds r) (volume r) (is_muted r).
Definition set_enemies (v : list Entity.t) (r : GameModel) : GameModel :=
  Build_GameModel (state r) (previous_state r) (player r) v (bullets r) (ufo r) (shields r)
  (score r) (lives r) (level r) (normal_max_lives r) (enemy_speed_mult r)
  (direction_enemies r) (drop_direction r) (drop_step_count r) (animation_frame r)
  (animation_timer r) (game_over_timer r) (hit_timer r) (save_success_timer r)
  (menu_selection r) (input_buffer r) (save_files r) (save_file_count r) (current_filename r)
  (pending_quit r) (sounds r) (volume r) (is_muted r).
Definition set_bullets (v : list Entity.t) (r : GameModel) : GameModel :=
  Build_GameModel (state r) (previous_state r) (player r) (enemies r) v (ufo r) (shields r)
  (score r) (lives r) (level r) (normal_max_lives r) (enemy_speed_mult r)
  (direction_enemies r) (drop_direction r) (drop_step_count r) (animation_frame r)
  (animation_timer r) (game_over_timer r) (hit_timer r) (save_success_timer r)
  (menu_selection r) (input_buffer r) (save_files r) (save_file_count r) (current_filename r)
  (pending_quit r) (sounds r) (volume r) (is_muted r).
Definition set_ufo (v : Ufo.t) (r : GameModel) : GameModel :=
  Build_GameModel (state r) (previous_state r) (player r) (enemies r) (bullets r) v
  (shields r) (score r) (lives r) (level r) (normal_max_lives r) (enemy_speed_mult r)
  (direction_enemies r) (drop_direction r) (drop_step_count r) (animation_frame r)
  (animation_timer r) (game_over_timer r) (hit_timer r) (save_success_timer r)
  (menu_selection r) (input_buffer r) (save_files r) (save_file_count r) (current_filename r)
  (pending_quit r) (sounds r) (volume r) (is_muted r).
Definition set_shields (v : list Shield.t) (r : GameModel) : GameModel :=
  Build_GameModel (state r) (previous_state r) (player r) (enemies r) (bullets r) (ufo r) v
  (score r) (lives r) (level r) (normal_max_lives r) (enemy_speed_mult r)
  (direction_enemies r) (drop_direction r) (drop_step_count r) (animation_frame r)
  (animation_timer r) (game_over_timer r) (hit_timer r) (save_success_timer r)
  (menu_selection r) (input_buffer r) (save_files r) (save_file_count r) (current_filename r)
  (pending_quit r) (sounds r) (volume r) (is_muted r).
Definition set_score (v : Z) (r : GameModel) : GameModel :=
  Build_GameModel (state r) (previous_state r) (player r) (enemies r) (bullets r) (ufo r)
  (shields r) v (lives r) (level r) (normal_max_lives r) (enemy_speed_mult r)
  (direction_enemies r) (drop_direction r) (drop_step_count r) (animation_frame r)
  (animation_timer r) (game_over_timer r) (hit_timer r) (save_success_timer r)
  (menu_selection r) (input_buffer r) (save_files r) (save_file_count r) (current_filename r)
  (pending_quit r) (sounds r) (volume r) (is_muted r).
Definition set_lives (v : Z) (r : GameModel) : GameModel :=
  Build_GameModel (state r) (previous_state r) (player r) (enemies r) (bullets r) (ufo r)
  (shields r) (score r) v (level r) (normal_max_lives r) (enemy_speed_mult r)
  (direction_enemies r) (drop_direction r) (drop_step_count r) (animation_frame r)
  (animation_timer r) (game_over_timer r) (hit_timer r) (save_success_timer r)
  (menu_selection r) (input_buffer r) (save_files r) (save_file_count r) (current_filename r)
  (pending_quit r) (sounds r) (volume r) (is_muted r).
Definition set_level (v : Z) (r : GameModel) : GameModel :=
  Build_GameModel (state r) (previous_state r) (player r) (enemies r) (bullets r) (ufo r)
  (shields r) (score r) (lives r) v (normal_max_lives r) (enemy_speed_mult r)
  (direction_enemies r) (drop_direction r) (drop_step_count r) (animation_frame r)
  (animation_timer r) (game_over_timer r) (hit_timer r) (save_success_timer r)
  (menu_selection r) (input_buffer r) (save_files r) (save_file_count r) (current_filename r)
  (pending_quit r) (sounds r) (volume r) (is_muted r).
Definition set_normal_max_lives (v : Z) (r : GameModel) : GameModel :=
  Build_GameModel (state r) (previous_state r) (player r) (enemies r) (bullets r) (ufo r)
  (shields r) (score r) (lives r) (level r) v (enemy_speed_mult r) (direction_enemies r)
  (drop_direction r) (drop_step_count r) (animation_frame r) (animation_timer r)
  (game_over_timer r) (hit_timer r) (save_success_timer r) (menu_selection r) (input_buffer r)
  (save_files r) (save_file_count r) (current_filename r) (pending_quit r) (sounds r)
  (volume r) (is_muted r).
Definition set_enemy_speed_mult (v : f32) (r : GameModel) : GameModel :=
  Build_GameModel (state r) (previous_state r) (player r) (enemies r) (bullets r) (ufo r)
  (shields r) (score r) (lives r) (level r) (normal_max_lives r) v (direction_enemies r)
  (drop_direction r) (drop_step_count r) (animation_frame r) (animation_timer r)
  (game_over_timer r) (hit_timer r) (save_success_timer r) (menu_selection r) (input_buffer r)
  (save_files r) (save_file_count r) (current_filename r) (pending_quit r) (sounds r)
  (volume r) (is_muted r).
Definition set_direction_enemies (v : Z) (r : GameModel) : GameModel :=
  Build_GameModel (state r) (previous_state r) (player r) (enemies r) (bullets r) (ufo r)
  (shields r) (score r) (lives r) (level r) (normal_max_lives r) (enemy_speed_mult r) v
  (drop_direction r) (drop_step_count r) (animation_frame r) (animation_timer r)
  (game_over_timer r) (hit_timer r) (save_success_timer r) (menu_selection r) (input_buffer r)
  (save_files r) (save_file_count r) (current_filename r) (pending_quit r) (sounds r)
  (volume r) (is_muted r).
Definition set_drop_direction (v : Z) (r : GameModel) : GameModel :=
  Build_GameModel (state r) (previous_state r) (player r) (enemies r) (bullets r) (ufo r)
  (shields r) (score r) (lives r) (level r) (normal_max_lives r) (enemy_speed_mult r)
  (direction_enemies r) v (drop_step_count r) (animation_frame r) (animation_timer r)
  (game_over_timer r) (hit_timer r) (save_success_timer r) (menu_selection r) (input_buffer r)
  (save_files r) (save_file_count r) (current_filename r) (pending_quit r) (sounds r)
  (volume r) (is_muted r).
Definition set_drop_step_count (v : Z) (r : GameModel) : GameModel :=
  Build_GameModel (state r) (previous_state r) (player r) (enemies r) (bullets r) (ufo r)
  (shields r) (score r) (lives r) (level r) (normal_max_lives r) (enemy_speed_mult r)
  (direction_enemies r) (drop_direction r) v (animation_frame r) (animation_timer r)
  (game_over_timer r) (hit_timer r) (save_success_timer r) (menu_selection r) (input_buffer r)
  (save_files r) (save_file_count r) (current_filename r) (pending_quit r) (sounds r)
  (volume r) (is_muted r).
Definition set_animation_frame (v : Z) (r : GameModel) : GameModel :=
  Build_GameModel (state r) (previous_state r) (player r) (enemies r) (bullets r) (ufo r)
  (shields r) (score r) (lives r) (level r) (normal_max_lives r) (enemy_speed_mult r)
  (direction_enemies r) (drop_direction r) (drop_step_count r) v (animation_timer r)
  (game_over_timer r) (hit_timer r) (save_success_timer r) (menu_selection r) (input_buffer r)
  (save_files r) (save_file_count r) (current_filename r) (pending_quit r) (sounds r)
  (volume r) (is_muted r).
Definition set_animation_timer (v : f32) (r : GameModel) : GameModel :=
  Build_GameModel (state r) (previous_state r) (player r) (enemies r) (bullets r) (ufo r)
  (shields r) (score r) (lives r) (level r) (normal_max_lives r) (enemy_speed_mult r)
  (direction_enemies r) (drop_direction r) (drop_step_count r) (animation_frame r) v
  (game_over_timer r) (hit_timer r) (save_success_timer r) (menu_selection r) (input_buffer r)
  (save_files r) (save_file_count r) (current_filename r) (pending_quit r) (sounds r)
  (volume r) (is_muted r).
Definition set_game_over_timer (v : f32) (r : GameModel) : GameModel :=
  Build_GameModel (state r) (previous_state r) (player r) (enemies r) (bullets r) (ufo r)
  (shields r) (score r) (lives r) (level r) (normal_max_lives r) (enemy_speed_mult r)
  (direction_enemies r) (drop_direction r) (drop_step_count r) (animation_frame r)
  (animation_timer r) v (hit_timer r) (save_success_timer r) (menu_selection r)
  (input_buffer r) (save_files r) (save_file_count r) (current_filename r) (pending_quit r)
  (sounds r) (volume r) (is_muted r).
Definition set_hit_timer (v : f32) (r : GameModel) : GameModel :=
  Build_GameModel (state r) (previous_state r) (player r) (enemies r) (bullets r) (ufo r)
  (shields r) (score r) (lives r) (level r) (normal_max_lives r) (enemy_speed_mult r)
  (direction_enemies r) (drop_direction r) (drop_step_count r) (animation_frame r)
  (animation_timer r) (game_over_timer r) v (save_success_timer r) (menu_selection r)
  (input_buffer r) (save_files r) (save_file_count r) (current_filename r) (pending_quit r)
  (sounds r) (volume r) (is_muted r).
Definition set_save_success_timer (v : f32) (r : GameModel) : GameModel :=
  Build_GameModel (state r) (previous_state r) (player r) (enemies r) (bullets r) (ufo r)
  (shields r) (score r) (lives r) (level r) (normal_max_lives r) (enemy_speed_mult r)
  (direction_enemies r) (drop_direction r) (drop_step_count r) (animation_frame r)
  (animation_timer r) (game_over_timer r) (hit_timer r) v (menu_selection r) (input_buffer r)
  (save_files r) (save_file_count r) (current_filename r) (pending_quit r) (sounds r)
  (volume r) (is_muted r).
Definition set_menu_selection (v : Z) (r : GameModel) : GameModel :=
  Build_GameModel (state r) (previous_state r) (player r) (enemies r) (bullets r) (ufo r)
  (shields r) (score r) (lives r) (level r) (normal_max_lives r) (enemy_speed_mult r)
  (direction_enemies r) (drop_direction r) (drop_step_count r) (animation_frame r)
  (animation_timer r) (game_over_timer r) (hit_timer r) (save_success_timer r) v
  (input_buffer r) (save_files r) (save_file_count r) (current_filename r) (pending_quit r)
  (sounds r) (volume r) (is_muted r).
Definition set_input_buffer (v : string) (r : GameModel) : GameModel :=
  Build_GameModel (state r) (previous_state r) (player r) (enemies r) (bullets r) (ufo r)
  (shields r) (score r) (lives r) (level r) (normal_max_lives r) (enemy_speed_mult r)
  (direction_enemies r) (drop_direction r) (drop_step_count r) (animation_frame r)
  (animation_timer r) (game_over_timer r) (hit_timer r) (save_success_timer r)
  (menu_selection r) v (save_files r) (save_file_count r) (current_filename r)
  (pending_quit r) (sounds r) (volume r) (is_muted r).
Definition set_save_files (v : list string) (r : GameModel) : GameModel :=
  Build_GameModel (state r) (previous_state r) (player r) (enemies r) (bullets r) (ufo r)
  (shields r) (score r) (lives r) (level r) (normal_max_lives r) (enemy_speed_mult r)
  (direction_enemies r) (drop_direction r) (drop_step_count r) (animation_frame r)
  (animation_timer r) (game_over_timer r) (hit_timer r) (save_success_timer r)
  (menu_selection r) (input_buffer r) v (save_file_count r) (current_filename r)
  (pending_quit r) (sounds r) (volume r) (is_muted r).
Definition set_save_file_count (v : Z) (r : GameModel) : GameModel :=
  Build_GameModel (state r) (previous_state r) (player r) (enemies r) (bullets r) (ufo r)
  (shields r) (score r) (lives r) (level r) (normal_max_lives r) (enemy_speed_mult r)
  (direction_enemies r) (drop_direction r) (drop_step_count r) (animation_frame r)
  (animation_timer r) (game_over_timer r) (hit_timer r) (save_success_timer r)
  (menu_selection r) (input_buffer r) (save_files r) v (current_filename r) (pending_quit r)
  (sounds r) (volume r) (is_muted r).
Definition set_sounds (v : SoundState) (r : GameModel) : GameModel :=
  Build_GameModel (state r) (previous_state r) (player r) (enemies r) (bullets r) (ufo r)
  (shields r) (score r) (lives r) (level r) (normal_max_lives r) (enemy_speed_mult r)
  (direction_enemies r) (drop_direction r) (drop_step_count r) (animation_frame r)
  (animation_timer r) (game_over_timer r) (hit_timer r) (save_success_timer r)
  (menu_selection r) (input_buffer r) (save_files r) (save_file_count r) (current_filename r)
  (pending_quit r) v (volume r) (is_muted r).
Definition set_volume (v : Z) (r : GameModel) : GameModel :=
  Build_GameModel (state r) (previous_state r) (player r) (enemies r) (bullets r) (ufo r)
  (shields r) (score r) (lives r) (level r) (normal_max_lives r) (enemy_speed_mult r)
  (direction_enemies r) (drop_direction r) (drop_step_count r) (animation_frame r)
  (animation_timer r) (game_over_timer r) (hit_timer r) (save_success_timer r)
  (menu_selection r) (input_buffer r) (save_files r) (save_file_count r) (current_filename r)
  (pending_quit r) (sounds r) v (is_muted r).
Definition set_is_muted (v : bool) (r : GameModel) : GameModel :=
  Build_GameModel (state r) (previous_state r) (player r) (enemies r) (bullets r) (ufo r)
  (shields r) (score r) (lives r) (level r) (normal_max_lives r) (enemy_speed_mult r)
  (direction_enemies r) (drop_direction r) (drop_step_count r) (animation_frame r)
  (animation_timer r) (game_over_timer r) (hit_timer r) (save_success_timer r)
  (menu_selection r) (input_buffer r) (save_files r) (save_file_count r) (current_filename r)
  (pending_quit r) (sounds r) (volume r) v.
(** The enumerations are C integers: equality tests compare their codes. *)

Definition EntityType_code (t : EntityType) : Z :=
  match t with
  | ENTITY_PLAYER => 0
  | ENTITY_BULLET_PLAYER => 1
  | ENTITY_BULLET_ENEMY => 2
  | ENTITY_ENEMY_TYPE_1 => 3
  | ENTITY_ENEMY_TYPE_2 => 4
  | ENTITY_ENEMY_TYPE_3 => 5
  | ENTITY_UFO => 6
  end.

Definition GameCommand_code (c : GameCommand) : Z :=
  match c with
  | CMD_NONE => 0
  | CMD_PAUSE => 1
  | CMD_EXIT => 2
  | CMD_MOVE_LEFT => 3
  | CMD_MOVE_RIGHT => 4
  | CMD_SHOOT => 5
  | CMD_UP => 6
  | CMD_DOWN => 7
  | CMD_LEFT => 8
  | CMD_RIGHT => 9
  | CMD_RETURN => 10
  | CMD_BACKSPACE => 11
  end.

Definition type_is (a b : EntityType) : bool :=
  EntityType_code a =? EntityType_code b.
Definition cmd_is (a b : GameCommand) : bool :=
  GameCommand_code a =? GameCommand_code b.

(** ** Outcomes, the random source, the save directory *)

Inductive Outcome (A : Type) : Type :=
| Continue (a : A)
| Exit
| Diverge.
Arguments Continue {A} a.
Arguments Exit {A}.
Arguments Diverge {A}.

(** The results [rand()] will return, in call order. *)
Definition RandGen : Type := nat -> Z.

Definition rand (g : RandGen) : Z * RandGen :=
  (g 0%nat, fun n => g (S n)).

(** What a file of the save directory holds, as one [fread] of
    [sizeof(GameModel)] bytes sees it: a whole record, kept as the value its
    bytes are the memory image of, or too few bytes for one. *)
Inductive SaveFile : Type :=
| FullRecord (image : GameModel)
| ShortFile.

(** [fs_files] maps a path to the file [fopen(path, "rb")] opens;
    [fs_writable] tells whether [fopen(path, "wb")] succeeds; [fs_listing]
    is what [opendir]/[readdir] report for the save directory, in arrival
    order, [None] when it cannot be opened. *)
Record FileSystem : Type := Build_FileSystem {
  fs_files : gmap string SaveFile;
  fs_writable : string -> bool;
  fs_listing : option (list string)
}.

Definition set_fs_files (v : gmap string SaveFile) (fs : FileSystem) : FileSystem :=
  Build_FileSystem v (fs_writable fs) (fs_listing fs).

(** ** C strings *)

(** [snprintf(buf, size, ...)] keeps at most [size - 1] characters. *)
Definition snprintf (size : nat) (s : string) : string :=
  substring 0 (size - 1) s.

(** [%d]. *)
Definition string_of_Z (z : Z) : string :=
  NilZero.string_of_int (Z.to_int z).

(** [strstr(hay, needle) != NULL]. *)
Fixpoint strstr (hay needle : string) : bool :=
  String.prefix needle hay ||
  match hay with
  | EmptyString => false
  | String _ rest => strstr rest needle
  end.

Definition strlen (s : string) : Z := Z.of_nat (String.length s).

(** [s[0] == c]. *)
Definition first_char_is (c : ascii) (s : string) : bool :=
  match s with
  | EmptyString => false
  | String a _ => Ascii.eqb a c
  end.

(** ** 1. Helpers *)

Definition check_collision (a b : Entity.t) : bool :=
  if negb (Entity.active a) || negb (Entity.active b) then false
  else
    F32.ltb (Entity.x a) (F32.add (Entity.x b) (F32.of_Z (Entity.width b))) &&
    F32.gtb (F32.add (Entity.x a) (F32.of_Z (Entity.width a))) (Entity.x b) &&
    F32.ltb (Entity.y a) (F32.add (Entity.y b) (F32.of_Z (Entity.height b))) &&
    F32.gtb (F32.add (Entity.y a) (F32.of_Z (Entity.height a))) (Entity.y b).

(** The slot [spawn_bullet] fills. *)
Definition fire_bullet (x y dy : f32) (type : EntityType) (b : Entity.t) : Entity.t :=
  Entity.set_anim_frame 0
    (Entity.set_anim_timer (F32.of_Z 0)
      (Entity.set_type type
        (Entity.set_height BULLET_HEIGHT
          (Entity.set_width BULLET_WIDTH
            (Entity.set_dy dy
              (Entity.set_dx (F32.of_Z 0)
                (Entity.set_y y
                  (Entity.set_x x
                    (Entity.set_active true b))))))))).

(** The scan of the pool for the first free slot. *)
Fixpoint spawn_in_pool (x y dy : f32) (type : EntityType) (pool : list Entity.t)
  : list Entity.t :=
  match pool with
  | [] => []
  | b :: rest =>
      if negb (Entity.active b) then fire_bullet x y dy type b :: rest
      else b :: spawn_in_pool x y dy type rest
  end.

Definition spawn_bullet (model : GameModel) (x y dy : f32) (type : EntityType)
  : GameModel :=
  set_bullets (spawn_in_pool x y dy type (bullets model)) model.

Definition save_path (filename : string) : string :=
  snprintf 128 ("sauvegardes/" ++ filename).

Definition save_file_exists (fs : FileSystem) (filename : string) : bool :=
  match fs_files fs !! save_path filename with
  | Some _ => true
  | None => false
  end.

(** The name tried at step [i]: ["%s(%d).dat"] in a buffer of 128. *)
Definition unique_candidate (base_name : string) (i : Z) : string :=
  snprintf 128 (base_name ++ "(" ++ string_of_Z i ++ ").dat").

(** The [while (true)] of [generate_unique_filename], from counter [i];
    [None] when [fuel] iterations have not found a free name. *)
Fixpoint generate_unique_filename_from (fuel : nat) (fs : FileSystem)
  (base_name : string) (i : Z) : option string :=
  match fuel with
  | O => None
  | S fuel' =>
      let candidate := unique_candidate base_name i in
      if negb (save_file_exists fs candidate) then Some candidate
      else generate_unique_filename_from fuel' fs base_name (wrap_int (i + 1))
  end.

Definition generate_unique_filename (fuel : nat) (fs : FileSystem)
  (base_name : string) : option string :=
  generate_unique_filename_from fuel fs base_name 1.

(** ** 2. Enemies and the flyer *)

Definition zero_entity : Entity.t :=
  Entity.Build (F32.of_Z 0) (F32.of_Z 0) 0 0 (F32.of_Z 0) (F32.of_Z 0) false
    ENTITY_PLAYER (F32.of_Z 0) (F32.of_Z 0) 0 false (F32.of_Z 0).

Definition enemy_type_of_row (row : Z) : EntityType :=
  if row =? 0 then ENTITY_ENEMY_TYPE_3
  else if row <? 3 then ENTITY_ENEMY_TYPE_2
  else ENTITY_ENEMY_TYPE_1.

(** The enemy written at ([row], [col]): [memset] to zero, then the fields. *)
Definition formation_enemy (row col : Z) : Entity.t :=
  Entity.set_type (enemy_type_of_row row)
    (Entity.set_y (F32.of_Z (wrap_int (7 + wrap_int (row * (ENEMY_HEIGHT + 2)))))
      (Entity.set_x (F32.of_Z (wrap_int (5 + wrap_int (col * (ENEMY_WIDTH + 2)))))
        (Entity.set_height ENEMY_HEIGHT
          (Entity.set_width ENEMY_WIDTH
            (Entity.set_active true zero_entity))))).

(** One pass of the inner loop body; the [break] on a full array leaves the
    state as it is, and so does every later pass. *)
Definition init_enemies_cell (row col : Z) (st : Z * list Entity.t)
  : Z * list Entity.t :=
  let '(idx, es) := st in
  if idx >=? MAX_ENEMIES then st
  else (idx + 1, <[Z.to_nat idx := formation_enemy row col]> es).

Definition Z_range (n : nat) : list Z := map Z.of_nat (seq 0 n).

Definition init_enemies_row (st : Z * list Entity.t) (row : Z) : Z * list Entity.t :=
  fold_left (fun st col => init_enemies_cell row col st) (Z_range 11) st.

Definition init_enemies_grid (es : list Entity.t) : list Entity.t :=
  snd (fold_left init_enemies_row (Z_range 5) (0, es)).

Definition init_enemies (model : GameModel) : GameModel :=
  let model := set_enemies (init_enemies_grid (enemies model)) model in
  let model := set_enemy_speed_mult (F32.of_Z 1) model in
  let model := set_direction_enemies 1 model in
  let model := set_drop_direction 1 model in
  let model := set_drop_step_count 0 model in
  set_ufo (Ufo.set_y (F32.of_Z 4)
            (Ufo.set_hasSpawnedThisLevel false
              (Ufo.set_active false (ufo model)))) model.

Definition spawn_ufo (model : GameModel) (g : RandGen) : GameModel * RandGen :=
  let u := ufo model in
  let u := Ufo.set_exploding false u in
  let u := Ufo.set_explode_timer (F32.of_Z 0) u in
  let u := Ufo.set_active true u in
  let u := Ufo.set_hasSpawnedThisLevel true u in
  let u := Ufo.set_type ENTITY_UFO u in
  let u := Ufo.set_width (F32.of_Z UFO_WIDTH) u in
  let u := Ufo.set_height (F32.of_Z UFO_HEIGHT) u in
  let u := Ufo.set_y (F32.of_Z 4) u in
  let '(r, g) := rand g in
  let u :=
    if Z.rem r 2 =? 0 then
      Ufo.set_dx UFO_SPEED (Ufo.set_x (F32.of_Z (- UFO_WIDTH)) u)
    else
      Ufo.set_dx (F32.neg UFO_SPEED) (Ufo.set_x (F32.of_Z GAME_WIDTH) u) in
  (set_ufo u model, g).

(** ** 3. Initialisation and reset *)

Definition init_shield (i : Z) : Shield.t :=
  let shield_w := F32.of_Z 8 in
  let shield_h := F32.of_Z 6 in
  let spacing :=
    F32.div (F32.of_Z GAME_WIDTH) (F32.add (F32.of_Z MAX_SHIELDS) (F32.of_Z 1)) in
  Shield.Build
    (F32.sub (F32.mul spacing (F32.of_Z (i + 1))) (F32.div shield_w (F32.of_Z 2)))
    (F32.of_Z (GAME_HEIGHT - PLAYER_HEIGHT - 9))
    shield_w shield_h SHIELD_MAX_HEALTH true.

Definition init_shields (model : GameModel) : GameModel :=
  set_shields
    (fold_left (fun shs i => <[Z.to_nat i := init_shield i]> shs)
       (Z_range (Z.to_nat MAX_SHIELDS)) (shields model))
    model.

Definition zero_ufo : Ufo.t :=
  Ufo.Build (F32.of_Z 0) (F32.of_Z 0) (F32.of_Z 0) (F32.of_Z 0) (F32.of_Z 0)
    false false false (F32.of_Z 0) ENTITY_PLAYER.

Definition zero_shield : Shield.t :=
  Shield.Build (F32.of_Z 0) (F32.of_Z 0) (F32.of_Z 0) (F32.of_Z 0) 0 false.

Definition zero_sounds : SoundState :=
  Build_SoundState false false false false false false false 0 false.

(** What [calloc] returns. *)
Definition zero_model : GameModel :=
  Build_GameModel STATE_MENU STATE_MENU zero_entity
    (replicate (Z.to_nat MAX_ENEMIES) zero_entity)
    (replicate (Z.to_nat MAX_BULLETS) zero_entity)
    zero_ufo
    (replicate (Z.to_nat MAX_SHIELDS) zero_shield)
    0 0 0 0
    (F32.of_Z 0) 0 0 0
    0 (F32.of_Z 0)
    (F32.of_Z 0) (F32.of_Z 0) (F32.of_Z 0)
    0 ""
    (replicate (Z.to_nat MAX_SAVE_FILES) "") 0
    "" false
    zero_sounds 0 false.

(** [model_init], for an allocation that succeeds. *)
Definition model_init : GameModel :=
  let model := zero_model in
  let model := set_state STATE_MENU model in
  let model := set_lives 3 model in
  let model := set_normal_max_lives MAX_LIVES_NORMAL model in
  let model := set_level 1 model in
  let model := set_volume 30 model in
  let p := player model in
  let p := Entity.set_active true p in
  let p := Entity.set_type ENTITY_PLAYER p in
  let p := Entity.set_width PLAYER_WIDTH p in
  let p := Entity.set_height PLAYER_HEIGHT p in
  let p := Entity.set_x (F32.div (F32.of_Z (GAME_WIDTH - PLAYER_WIDTH)) (F32.of_Z 2)) p in
  let p := Entity.set_y (F32.of_Z (GAME_HEIGHT - PLAYER_HEIGHT - 1)) p in
  let model := set_player p model in
  let model := init_enemies model in
  init_shields model.

Definition reset_game (model : GameModel) : GameModel :=
  let model := set_score 0 model in
  let model := set_lives 3 model in
  let model := set_level 1 model in
  let model := set_hit_timer (F32.of_Z 0) model in
  let model := set_enemy_speed_mult (F32.of_Z 1) model in
  let model := set_direction_enemies 1 model in
  let model := set_drop_direction 1 model in
  let model := set_drop_step_count 0 model in
  let model := set_bullets (replicate (Z.to_nat MAX_BULLETS) zero_entity) model in
  let model :=
    set_ufo (Ufo.set_hasSpawnedThisLevel false (Ufo.set_active false (ufo model)))
      model in
  let model :=
    set_player
      (Entity.set_dx (F32.of_Z 0)
        (Entity.set_x (F32.div (F32.of_Z (GAME_WIDTH - PLAYER_WIDTH)) (F32.of_Z 2))
          (player model)))
      model in
  let model := init_enemies model in
  let model := init_shields model in
  set_state STATE_PLAYING model.

(** ** 7. Save files *)

Definition scan_entry (model : GameModel) (d_name : string) : GameModel :=
  if first_char_is "." d_name then model
  else if strstr d_name ".dat" then
    if save_file_count model <? MAX_SAVE_FILES then
      let model :=
        set_save_files
          (<[Z.to_nat (save_file_count model) := snprintf 256 d_name]>
             (save_files model))
          model in
      set_save_file_count (wrap_int (save_file_count model + 1)) model
    else model
  else model.

Definition model_scan_saves (fs : FileSystem) (model : GameModel) : GameModel :=
  let model := set_save_file_count 0 model in
  match fs_listing fs with
  | None => model
  | Some entries => fold_left scan_entry entries model
  end.

(** The whole record is written at once; a path that cannot be opened for
    writing leaves the directory as it is.  Console messages are left out. *)
Definition model_save_named (fs : FileSystem) (model : GameModel) (filename : string)
  : FileSystem :=
  let path := save_path filename in
  if fs_writable fs path then
    set_fs_files (<[path := FullRecord model]> (fs_files fs)) fs
  else fs.

Definition model_load_named (fs : FileSystem) (model : GameModel) (filename : string)
  : GameModel * bool :=
  let path := save_path filename in
  match fs_files fs !! path with
  | None => (model, false)
  | Some (FullRecord temp) =>
      let model := temp in
      let model := set_state STATE_PLAYING model in
      let model := set_hit_timer (F32.of_Z 0) model in
      let model := set_sounds zero_sounds model in
      (model, true)
  | Some ShortFile => (model, false)
  end.

(** ** 5. Input handling *)

Definition request_select_sound (model : GameModel) : GameModel :=
  set_sounds (set_play_select_sound true (sounds model)) model.

(** [model->save_files[i]]; an index outside the array, which C leaves
    undefined, reads as the empty name. *)
Definition save_file_at (model : GameModel) (i : Z) : string :=
  if i <? 0 then ""
  else default "" (save_files model !! Z.to_nat i).

(** The cursor moves shared by the menus: [(sel - 1 < 0) ? top : sel - 1]
    and [(sel + 1 > top) ? 0 : sel + 1]. *)
Definition cursor_up (top : Z) (model : GameModel) : GameModel :=
  set_menu_selection
    (if wrap_int (menu_selection model - 1) <? 0 then top
     else wrap_int (menu_selection model - 1))
    model.

Definition cursor_down (top : Z) (model : GameModel) : GameModel :=
  set_menu_selection
    (if wrap_int (menu_selection model + 1) >? top then 0
     else wrap_int (menu_selection model + 1))
    model.

Definition handle_menu (fs : FileSystem) (model : GameModel) (cmd : GameCommand)
  : Outcome (FileSystem * GameModel) :=
  if cmd_is cmd CMD_EXIT then Exit
  else
    let model := if cmd_is cmd CMD_UP then cursor_up 4 model else model in
    let model := if cmd_is cmd CMD_DOWN then cursor_down 4 model else model in
    if menu_selection model =? 3 then
      let model :=
        if cmd_is cmd CMD_LEFT || cmd_is cmd CMD_MOVE_LEFT then
          set_is_muted false
            (set_volume
               (if wrap_int (volume model - 10) <? 0 then 0
                else wrap_int (volume model - 10))
               model)
        else model in
      let model :=
        if cmd_is cmd CMD_RIGHT || cmd_is cmd CMD_MOVE_RIGHT then
          set_is_muted false
            (set_volume
               (if wrap_int (volume model + 10) >? 100 then 100
                else wrap_int (volume model + 10))
               model)
        else model in
      let model :=
        if cmd_is cmd CMD_SHOOT || cmd_is cmd CMD_RETURN then
          set_is_muted (negb (is_muted model)) model
        else model in
      Continue (fs, model)
    else if cmd_is cmd CMD_RETURN || cmd_is cmd CMD_SHOOT then
      let model := request_select_sound model in
      if menu_selection model =? 0 then Continue (fs, reset_game model)
      else if menu_selection model =? 1 then
        Continue (fs, set_state STATE_TUTORIAL model)
      else if menu_selection model =? 2 then
        let model := model_scan_saves fs model in
        if save_file_count model >? 0 then
          Continue (fs, set_menu_selection 0 (set_state STATE_LOAD_MENU model))
        else Continue (fs, set_state STATE_LOAD_MENU model)
      else if menu_selection model =? 4 then Exit
      else Continue (fs, model)
    else Continue (fs, model).

Definition handle_load_menu (fs : FileSystem) (model : GameModel) (cmd : GameCommand)
  : Outcome (FileSystem * GameModel) :=
  if cmd_is cmd CMD_EXIT || cmd_is cmd CMD_PAUSE then
    Continue (fs, set_menu_selection 2 (set_state STATE_MENU model))
  else
    let model :=
      if cmd_is cmd CMD_UP then
        set_menu_selection
          (if wrap_int (menu_selection model - 1) <? 0
           then wrap_int (save_file_count model - 1)
           else wrap_int (menu_selection model - 1))
          model
      else model in
    let model :=
      if cmd_is cmd CMD_DOWN then
        set_menu_selection
          (if wrap_int (menu_selection model + 1) >=? save_file_count model
           then 0
           else wrap_int (menu_selection model + 1))
          model
      else model in
    if cmd_is cmd CMD_RETURN || cmd_is cmd CMD_SHOOT then
      if save_file_count model >? 0 then
        let model := request_select_sound model in
        Continue
          (fs, fst (model_load_named fs model
                      (save_file_at model (menu_selection model))))
      else Continue (fs, model)
    else Continue (fs, model).

Definition handle_tutorial (fs : FileSystem) (model : GameModel) (cmd : GameCommand)
  : Outcome (FileSystem * GameModel) :=
  if cmd_is cmd CMD_EXIT || cmd_is cmd CMD_PAUSE || cmd_is cmd CMD_RETURN
     || cmd_is cmd CMD_SHOOT then
    Continue
      (fs, set_menu_selection 1 (set_state STATE_MENU (request_select_sound model)))
  else Continue (fs, model).

Definition handle_playing (fs : FileSystem) (model : GameModel) (cmd : GameCommand)
  : Outcome (FileSystem * GameModel) :=
  if cmd_is cmd CMD_PAUSE then
    Continue (fs, set_menu_selection 0 (set_state STATE_PAUSED model))
  else
    let model :=
      if cmd_is cmd CMD_MOVE_LEFT || cmd_is cmd CMD_LEFT then
        set_player (Entity.set_dx (F32.neg PLAYER_SPEED) (player model)) model
      else if cmd_is cmd CMD_MOVE_RIGHT || cmd_is cmd CMD_RIGHT then
        set_player (Entity.set_dx PLAYER_SPEED (player model)) model
      else if cmd_is cmd CMD_NONE then
        set_player (Entity.set_dx (F32.of_Z 0) (player model)) model
      else model in
    if cmd_is cmd CMD_SHOOT
       && F32.leb (Entity.shoot_timer (player model)) (F32.of_Z 0) then
      let model :=
        spawn_bullet model
          (F32.add (Entity.x (player model)) (F32.lit 15 1))
          (F32.sub (Entity.y (player model)) (F32.of_Z 1))
          (F32.neg BULLET_SPEED)
          ENTITY_BULLET_PLAYER in
      let model :=
        set_player (Entity.set_shoot_timer (F32.lit 5 1) (player model)) model in
      let model := set_sounds (set_play_shoot true (sounds model)) model in
      Continue (fs, model)
    else Continue (fs, model).

Definition handle_paused (fs : FileSystem) (model : GameModel) (cmd : GameCommand)
  : Outcome (FileSystem * GameModel) :=
  if cmd_is cmd CMD_PAUSE then Continue (fs, set_state STATE_PLAYING model)
  else
    let model := if cmd_is cmd CMD_UP then cursor_up 3 model else model in
    let model := if cmd_is cmd CMD_DOWN then cursor_down 3 model else model in
    if menu_selection model =? 1 then
      let model :=
        if cmd_is cmd CMD_LEFT then
          set_is_muted false
            (set_volume
               (if volume model <? 10 then 0 else wrap_int (volume model - 10))
               model)
        else model in
      let model :=
        if cmd_is cmd CMD_RIGHT then
          set_is_muted false
            (set_volume
               (if volume model >? 90 then 100 else wrap_int (volume model + 10))
               model)
        else model in
      let model :=
        if cmd_is cmd CMD_SHOOT || cmd_is cmd CMD_RETURN then
          set_is_muted (negb (is_muted model)) model
        else model in
      Continue (fs, model)
    else if cmd_is cmd CMD_RETURN || cmd_is cmd CMD_SHOOT then
      let model := request_select_sound model in
      if menu_selection model =? 0 then
        Continue (fs, set_state STATE_PLAYING model)
      else if menu_selection model =? 2 then
        let model := model_scan_saves fs model in
        Continue (fs, set_menu_selection 0 (set_state STATE_SAVE_SELECT model))
      else if menu_selection model =? 3 then
        Continue
          (fs, set_menu_selection 1
                 (set_state STATE_CONFIRM_QUIT
                    (set_previous_state STATE_PAUSED model)))
      else Continue (fs, model)
    else Continue (fs, model).

Definition handle_game_over (fs : FileSystem) (model : GameModel) (cmd : GameCommand)
  : Outcome (FileSystem * GameModel) :=
  let model := if cmd_is cmd CMD_UP then cursor_up 2 model else model in
  let model := if cmd_is cmd CMD_DOWN then cursor_down 2 model else model in
  if cmd_is cmd CMD_RETURN || cmd_is cmd CMD_SHOOT then
    let model := request_select_sound model in
    if menu_selection model =? 0 then
      let model := model_scan_saves fs model in
      Continue (fs, set_menu_selection 0 (set_state STATE_SAVE_SELECT model))
    else if menu_selection model =? 1 then Continue (fs, reset_game model)
    else if menu_selection model =? 2 then Exit
    else Continue (fs, model)
  else Continue (fs, model).

(** In [STATE_SAVE_SELECT] the name under the cursor, less its last four
    characters, becomes the input buffer; [strncpy] past the 32 bytes of
    the buffer is undefined in C and is not cut here. *)
Definition handle_save_select (fs : FileSystem) (model : GameModel) (cmd : GameCommand)
  : Outcome (FileSystem * GameModel) :=
  if cmd_is cmd CMD_PAUSE || cmd_is cmd CMD_EXIT then
    Continue (fs, set_state STATE_PAUSED model)
  else
    let max := save_file_count model in
    let model := if cmd_is cmd CMD_UP then cursor_up max model else model in
    let model := if cmd_is cmd CMD_DOWN then cursor_down max model else model in
    if cmd_is cmd CMD_RETURN || cmd_is cmd CMD_SHOOT then
      let model := request_select_sound model in
      if menu_selection model =? 0 then
        Continue (fs, set_input_buffer "" (set_state STATE_SAVE_INPUT model))
      else
        let f := save_file_at model (wrap_int (menu_selection model - 1)) in
        let len := wrap_int (strlen f - 4) in
        let model :=
          if len >? 0 then set_input_buffer (substring 0 (Z.to_nat len) f) model
          else model in
        Continue
          (fs, set_menu_selection 0 (set_state STATE_OVERWRITE_CONFIRM model))
    else Continue (fs, model).

(** [buffer[strlen(buffer) - 1] = '\0']. *)
Definition drop_last_char (s : string) : string :=
  substring 0 (String.length s - 1) s.

Definition handle_save_input (fs : FileSystem) (model : GameModel) (cmd : GameCommand)
  : Outcome (FileSystem * GameModel) :=
  if cmd_is cmd CMD_PAUSE then Continue (fs, set_state STATE_PAUSED model)
  else
    let '(fs, model) :=
      if cmd_is cmd CMD_RETURN || cmd_is cmd CMD_SHOOT then
        if strlen (input_buffer model) >? 0 then
          let model := request_select_sound model in
          let filename := snprintf 64 (input_buffer model ++ ".dat") in
          if save_file_exists fs filename then
            (fs, set_menu_selection 1 (set_state STATE_OVERWRITE_CONFIRM model))
          else
            (model_save_named fs model filename,
             set_save_success_timer (F32.of_Z 2)
               (set_state STATE_SAVE_SUCCESS model))
        else (fs, model)
      else (fs, model) in
    let model :=
      if cmd_is cmd CMD_BACKSPACE then
        if strlen (input_buffer model) >? 0 then
          set_input_buffer (drop_last_char (input_buffer model)) model
        else model
      else model in
    Continue (fs, model).

Definition handle_overwrite_confirm (fuel : nat) (fs : FileSystem)
  (model : GameModel) (cmd : GameCommand) : Outcome (FileSystem * GameModel) :=
  if cmd_is cmd CMD_LEFT || cmd_is cmd CMD_RIGHT || cmd_is cmd CMD_UP
     || cmd_is cmd CMD_DOWN then
    Continue (fs, set_menu_selection (int_not (menu_selection model)) model)
  else if cmd_is cmd CMD_RETURN || cmd_is cmd CMD_SHOOT then
    let model := request_select_sound model in
    if menu_selection model =? 0 then
      let filename := snprintf 64 (input_buffer model ++ ".dat") in
      Continue
        (model_save_named fs model filename,
         set_save_success_timer (F32.of_Z 2) (set_state STATE_SAVE_SUCCESS model))
    else
      match generate_unique_filename fuel fs (input_buffer model) with
      | None => Diverge
      | Some new_name =>
          Continue
            (model_save_named fs model new_name,
             set_save_success_timer (F32.of_Z 2)
               (set_state STATE_SAVE_SUCCESS model))
      end
  else if cmd_is cmd CMD_PAUSE then
    Continue (fs, set_state STATE_SAVE_INPUT model)
  else Continue (fs, model).

Definition handle_confirm_quit (fs : FileSystem) (model : GameModel)
  (cmd : GameCommand) : Outcome (FileSystem * GameModel) :=
  let model := if cmd_is cmd CMD_UP then cursor_up 2 model else model in
  let model := if cmd_is cmd CMD_DOWN then cursor_down 2 model else model in
  if cmd_is cmd CMD_RETURN || cmd_is cmd CMD_SHOOT then
    let model := request_select_sound model in
    if menu_selection model =? 0 then Exit
    else if menu_selection model =? 1 then
      Continue
        (fs, set_menu_selection 3
               (set_state
                  (match previous_state model with
                   | STATE_GAME_OVER => STATE_GAME_OVER
                   | _ => STATE_PAUSED
                   end)
                  model))
    else if menu_selection model =? 2 then
      let model := model_scan_saves fs model in
      Continue (fs, set_menu_selection 0 (set_state STATE_SAVE_SELECT model))
    else Continue (fs, model)
  else Continue (fs, model).

(** [fuel] bounds the search of [generate_unique_filename], the only loop
    of the function that may not end. *)
Definition model_handle_input (fuel : nat) (fs : FileSystem) (model : GameModel)
  (cmd : GameCommand) : Outcome (FileSystem * GameModel) :=
  match state model with
  | STATE_MENU => handle_menu fs model cmd
  | STATE_LOAD_MENU => handle_load_menu fs model cmd
  | STATE_TUTORIAL => handle_tutorial fs model cmd
  | STATE_PLAYING => handle_playing fs model cmd
  | STATE_PAUSED => handle_paused fs model cmd
  | STATE_GAME_OVER => handle_game_over fs model cmd
  | STATE_SAVE_SELECT => handle_save_select fs model cmd
  | STATE_SAVE_INPUT => handle_save_input fs model cmd
  | STATE_OVERWRITE_CONFIRM => handle_overwrite_confirm fuel fs model cmd
  | STATE_CONFIRM_QUIT => handle_confirm_quit fs model cmd
  | STATE_VICTORY | STATE_SAVE_SUCCESS => Continue (fs, model)
  end.

(** ** 6. The simulation step *)

(** B. Timers. *)
Definition update_timers (model : GameModel) (dt : f64) : GameModel :=
  let model :=
    if F32.gtb (Entity.shoot_timer (player model)) (F32.of_Z 0) then
      set_player
        (Entity.set_shoot_timer
           (f32_sub_f64 (Entity.shoot_timer (player model)) dt) (player model))
        model
    else model in
  if F32.gtb (hit_timer model) (F32.of_Z 0) then
    set_hit_timer (f32_sub_f64 (hit_timer model) dt) model
  else model.

Definition update_beat (model : GameModel) (dt : f64) : GameModel :=
  let beat :=
    F32.sub (F32.lit 5 1) (F32.mul (F32.of_Z (level model)) (F32.lit 5 2)) in
  let beat := if F32.ltb beat (F32.lit 5 2) then F32.lit 5 2 else beat in
  let model := set_animation_timer (f32_add_f64 (animation_timer model) dt) model in
  if F32.geb (animation_timer model) beat then
    let model := set_animation_frame (int_not (animation_frame model)) model in
    let model := set_animation_timer (F32.of_Z 0) model in
    set_sounds
      (set_beat_index (Z.rem (wrap_int (beat_index (sounds model) + 1)) 4)
         (set_play_beat true (sounds model)))
      model
  else model.

(** C. The player: integration, then the two clamps. *)
Definition move_player (p : Entity.t) (dt : f64) : Entity.t :=
  let p := Entity.set_x (f32_add_scaled (Entity.x p) (Entity.dx p) dt) p in
  let p :=
    if F32.ltb (Entity.x p) (F32.of_Z 0) then Entity.set_x (F32.of_Z 0) p else p in
  if F32.gtb (Entity.x p) (F32.of_Z (GAME_WIDTH - PLAYER_WIDTH)) then
    Entity.set_x (F32.of_Z (GAME_WIDTH - PLAYER_WIDTH)) p
  else p.

Definition update_player (model : GameModel) (dt : f64) : GameModel :=
  if Entity.active (player model) then
    set_player (move_player (player model) dt) model
  else model.

(** D. The flyer. *)
Definition set_ufo_loop (v : bool) (model : GameModel) : GameModel :=
  set_sounds (set_ufo_loopING v (sounds model)) model.

Definition update_ufo (model : GameModel) (dt : f64) (g : RandGen)
  : GameModel * RandGen :=
  if Ufo.active (ufo model) then
    let model := set_ufo_loop (negb (Ufo.exploding (ufo model))) model in
    let u := ufo model in
    if Ufo.exploding u then
      let u := Ufo.set_explode_timer (f32_sub_f64 (Ufo.explode_timer u) dt) u in
      let u :=
        if F32.leb (Ufo.explode_timer u) (F32.of_Z 0) then Ufo.set_active false u
        else u in
      (set_ufo u model, g)
    else
      let u := Ufo.set_x (f32_add_scaled (Ufo.x u) (Ufo.dx u) dt) u in
      let u :=
        if (F32.gtb (Ufo.dx u) (F32.of_Z 0)
            && F32.gtb (Ufo.x u) (F32.of_Z GAME_WIDTH))
           || (F32.ltb (Ufo.dx u) (F32.of_Z 0)
               && F32.ltb (Ufo.x u) (F32.of_Z (- UFO_WIDTH)))
        then Ufo.set_active false u
        else u in
      (set_ufo u model, g)
  else
    let model := set_ufo_loop false model in
    let enemies_alive := existsb Entity.active (enemies model) in
    if negb (Ufo.hasSpawnedThisLevel (ufo model)) && enemies_alive then
      let '(r, g) := rand g in
      if Z.rem r 500 =? 0 then spawn_ufo model g else (model, g)
    else (model, g).

(** E. The pass over the enemies: explosions run down, the live ones are
    counted and tested against the wall they move towards.  The counter is
    bounded by the size of the array. *)
Definition scan_enemy (dir : Z) (dt : f64) (e : Entity.t) (st : Z * bool)
  : Entity.t * (Z * bool) :=
  let '(active_enemies, touch_edge) := st in
  if negb (Entity.active e) then (e, st)
  else if Entity.exploding e then
    let e := Entity.set_explode_timer (f32_sub_f64 (Entity.explode_timer e) dt) e in
    let e :=
      if F32.leb (Entity.explode_timer e) (F32.of_Z 0) then Entity.set_active false e
      else e in
    (e, st)
  else
    (e, (active_enemies + 1,
         if (F32.leb (Entity.x e) (F32.of_Z 0) && (dir =? -1))
            || (F32.geb (Entity.x e) (F32.of_Z (GAME_WIDTH - ENEMY_WIDTH))
                && (dir =? 1))
         then true else touch_edge)).

Fixpoint scan_enemies (dir : Z) (dt : f64) (es : list Entity.t) (st : Z * bool)
  : list Entity.t * (Z * bool) :=
  match es with
  | [] => ([], st)
  | e :: rest =>
      let '(e', st) := scan_enemy dir dt e st in
      let '(rest', st) := scan_enemies dir dt rest st in
      (e' :: rest', st)
  end.

Definition level_up (model : GameModel) : GameModel :=
  let model := set_level (wrap_int (level model + 1)) model in
  let model := set_sounds (set_play_level_up true (sounds model)) model in
  init_enemies model.

Definition is_live (e : Entity.t) : bool :=
  Entity.active e && negb (Entity.exploding e).

Definition enemies_turn (model : GameModel) : GameModel :=
  let model :=
    set_direction_enemies (wrap_int (direction_enemies model * -1)) model in
  let dy :=
    if drop_direction model =? 1 then ENEMY_DROP_HEIGHT
    else F32.neg ENEMY_DROP_HEIGHT in
  let model :=
    if drop_direction model =? 1 then
      let model :=
        set_drop_step_count (wrap_int (drop_step_count model + 1)) model in
      if drop_step_count model >=? 3 then set_drop_direction (-1) model else model
    else
      let model :=
        set_drop_step_count (wrap_int (drop_step_count model - 1)) model in
      if drop_step_count model <=? 0 then set_drop_direction 1 model else model in
  set_enemies
    (map (fun e =>
            if is_live e then
              Entity.set_x
                (F32.add (Entity.x e)
                   (F32.mul (F32.of_Z (direction_enemies model)) (F32.of_Z 2)))
                (Entity.set_y (F32.add (Entity.y e) dy) e)
            else e)
       (enemies model))
    model.

Definition enemies_advance (model : GameModel) (dt : f64) : GameModel :=
  let spd :=
    F32.mul (F32.mul ENEMY_SPEED_BASE (enemy_speed_mult model))
      (F32.of_Z (direction_enemies model)) in
  set_enemies
    (map (fun e =>
            if is_live e then Entity.set_x (f32_add_scaled (Entity.x e) spd dt) e
            else e)
       (enemies model))
    model.

(** [model->enemies[idx]] for [idx = rand() % MAX_ENEMIES]. *)
Definition enemy_at (model : GameModel) (idx : Z) : option Entity.t :=
  if idx <? 0 then None else enemies model !! Z.to_nat idx.

Fixpoint enemy_fire_tries (k : nat) (model : GameModel) (g : RandGen)
  : GameModel * RandGen :=
  match k with
  | O => (model, g)
  | S k' =>
      let '(r, g) := rand g in
      let idx := Z.rem r MAX_ENEMIES in
      match enemy_at model idx with
      | Some e =>
          if is_live e then
            (spawn_bullet model
               (F32.add (Entity.x e) (F32.div (F32.of_Z ENEMY_WIDTH) (F32.of_Z 2)))
               (F32.add (Entity.y e) (F32.of_Z ENEMY_HEIGHT))
               (F32.mul BULLET_SPEED (F32.lit 6 1))
               ENTITY_BULLET_ENEMY,
             g)
          else enemy_fire_tries k' model g
      | None => enemy_fire_tries k' model g
      end
  end.

Definition enemies_fire (model : GameModel) (g : RandGen) : GameModel * RandGen :=
  let '(r, g) := rand g in
  if Z.rem r 100 <? wrap_int (level model * 2) then enemy_fire_tries 10 model g
  else (model, g).

(** F. Bullets and collisions. *)

Definition overlaps_shield (b : Entity.t) (s : Shield.t) : bool :=
  F32.ltb (Entity.x b) (F32.add (Shield.x s) (Shield.width s)) &&
  F32.gtb (F32.add (Entity.x b) (F32.of_Z (Entity.width b))) (Shield.x s) &&
  F32.ltb (Entity.y b) (F32.add (Shield.y s) (Shield.height s)) &&
  F32.gtb (F32.add (Entity.y b) (F32.of_Z (Entity.height b))) (Shield.y s).

Definition damage_shield (s : Shield.t) : Shield.t :=
  let s := Shield.set_health (wrap_int (Shield.health s - 1)) s in
  if Shield.health s <=? 0 then Shield.set_active false s else s.

(** The loop over the shields: the first active shield the bullet overlaps
    takes the hit; [None] when no shield is hit. *)
Fixpoint hit_shields (b : Entity.t) (shs : list Shield.t) : option (list Shield.t) :=
  match shs with
  | [] => None
  | s :: rest =>
      if Shield.active s && overlaps_shield b s then Some (damage_shield s :: rest)
      else
        match hit_shields b rest with
        | Some rest' => Some (s :: rest')
        | None => None
        end
  end.

Definition overlaps_ufo (b : Entity.t) (u : Ufo.t) : bool :=
  F32.ltb (Entity.x b) (F32.add (Ufo.x u) (Ufo.width u)) &&
  F32.gtb (F32.add (Entity.x b) (F32.of_Z (Entity.width b))) (Ufo.x u) &&
  F32.ltb (Entity.y b) (F32.add (Ufo.y u) (Ufo.height u)) &&
  F32.gtb (F32.add (Entity.y b) (F32.of_Z (Entity.height b))) (Ufo.y u).

Definition enemy_points (t : EntityType) : Z :=
  if type_is t ENTITY_ENEMY_TYPE_1 then 10
  else if type_is t ENTITY_ENEMY_TYPE_2 then 20
  else 30.

(** The loop over the enemies for a player bullet: the first live enemy it
    collides with starts exploding; the result carries its points. *)
Fixpoint hit_enemies (b : Entity.t) (es : list Entity.t)
  : option (list Entity.t * Z) :=
  match es with
  | [] => None
  | e :: rest =>
      if is_live e && check_collision b e then
        Some (Entity.set_explode_timer (F32.lit 2 1) (Entity.set_exploding true e)
                :: rest,
              enemy_points (Entity.type e))
      else
        match hit_enemies b rest with
        | Some (rest', pts) => Some (e :: rest', pts)
        | None => None
        end
  end.

Definition store_bullet (i : nat) (b : Entity.t) (model : GameModel) : GameModel :=
  set_bullets (<[i := b]> (bullets model)) model.

Definition request_killed_sound (model : GameModel) : GameModel :=
  set_sounds (set_play_invader_killed true (sounds model)) model.

Definition player_bullet_hits (i : nat) (b : Entity.t) (model : GameModel)
  : GameModel :=
  if Ufo.active (ufo model) && negb (Ufo.exploding (ufo model))
     && overlaps_ufo b (ufo model) then
    let model := store_bullet i (Entity.set_active false b) model in
    let model :=
      set_ufo
        (Ufo.set_explode_timer (F32.lit 5 1) (Ufo.set_exploding true (ufo model)))
        model in
    let model := set_score (wrap_int (score model + 100)) model in
    let model := set_lives (wrap_int (lives model + 1)) model in
    request_killed_sound model
  else
    match hit_enemies b (enemies model) with
    | Some (es, pts) =>
        let model := store_bullet i (Entity.set_active false b) model in
        let model := set_enemies es model in
        let model := set_score (wrap_int (score model + pts)) model in
        request_killed_sound model
    | None => store_bullet i b model
    end.

Definition enemy_bullet_hits (i : nat) (b : Entity.t) (model : GameModel)
  : GameModel :=
  if Entity.active (player model)
     && F32.leb (hit_timer model) (F32.of_Z 0)
     && check_collision b (player model) then
    let model := store_bullet i (Entity.set_active false b) model in
    let model := set_lives (wrap_int (lives model - 1)) model in
    let model := set_hit_timer (F32.of_Z 2) model in
    let model :=
      set_sounds (set_play_player_explosion true (sounds model)) model in
    if lives model <=? 0 then
      let model := set_state STATE_GAME_OVER model in
      let model := set_sounds (set_play_game_over true (sounds model)) model in
      let model := set_menu_selection 0 model in
      set_game_over_timer (F32.of_Z 0) model
    else model
  else store_bullet i b model.

(** The flight of a bullet before any collision test. *)
Definition fly_bullet (b : Entity.t) (dt : f64) : Entity.t :=
  let b := Entity.set_y (f32_add_scaled (Entity.y b) (Entity.dy b) dt) b in
  let b := Entity.set_anim_timer (f32_add_f64 (Entity.anim_timer b) dt) b in
  if F32.gtb (Entity.anim_timer b) (F32.lit 1 1) then
    Entity.set_anim_frame (Z.rem (wrap_int (Entity.anim_frame b + 1)) 4)
      (Entity.set_anim_timer (F32.of_Z 0) b)
  else b.

Definition out_of_field (b : Entity.t) : bool :=
  F32.ltb (Entity.y b) (F32.of_Z (-10)) || F32.gtb (Entity.y b) (F32.of_Z GAME_HEIGHT).

(** The body of the loop over the bullet pool, for slot [i]. *)
Definition update_bullet (dt : f64) (model : GameModel) (i : nat) : GameModel :=
  match bullets model !! i with
  | None => model
  | Some b =>
      if negb (Entity.active b) then model
      else
        let b := fly_bullet b dt in
        if out_of_field b then store_bullet i (Entity.set_active false b) model
        else
          match hit_shields b (shields model) with
          | Some shs =>
              set_shields shs (store_bullet i (Entity.set_active false b) model)
          | None =>
              if type_is (Entity.type b) ENTITY_BULLET_PLAYER then
                player_bullet_hits i b model
              else enemy_bullet_hits i b model
          end
  end.

Definition update_bullets (model : GameModel) (dt : f64) : GameModel :=
  fold_left (update_bullet dt) (seq 0 (Z.to_nat MAX_BULLETS)) model.

(** The state reached after the pass over the enemies, with its two
    results. *)
Definition playing_prefix (model : GameModel) (dt : f64) (g : RandGen)
  : GameModel * RandGen * (Z * bool) :=
  let model := update_timers model dt in
  let model := update_beat model dt in
  let model := update_player model dt in
  let '(model, g) := update_ufo model dt g in
  let '(es, st) :=
    scan_enemies (direction_enemies model) dt (enemies model) (0, false) in
  (set_enemies es model, g, st).

Definition update_playing (model : GameModel) (dt : f64) (g : RandGen)
  : GameModel * RandGen :=
  let '(model, g, (active_enemies, touch_edge)) := playing_prefix model dt g in
  if (active_enemies =? 0) && negb (Ufo.active (ufo model)) then
    (level_up model, g)
  else
    let model :=
      if touch_edge then enemies_turn model else enemies_advance model dt in
    let '(model, g) := enemies_fire model g in
    (update_bullets model dt, g).

Definition model_update (model : GameModel) (dt : f64) (g : RandGen)
  : Outcome (GameModel * RandGen) :=
  match state model with
  | STATE_SAVE_SUCCESS =>
      let model :=
        set_save_success_timer (f32_sub_f64 (save_success_timer model) dt) model in
      if F32.leb (save_success_timer model) (F32.of_Z 0) then Exit
      else Continue (model, g)
  | STATE_GAME_OVER =>
      Continue (set_game_over_timer (f32_add_f64 (game_over_timer model) dt) model, g)
  | STATE_PLAYING => Continue (update_playing model dt g)
  | _ => Continue (model, g)
  end.

(** The fixed step of the driver, [1.0 / TARGET_FPS]. *)
Definition FIXED_DT : f64 := F64.div (F64.of_Z 1) (F64.of_Z TARGET_FPS).

(** A run of simulation steps, one per element of [dts]. *)
Fixpoint run_updates (dts : list f64) (model : GameModel) (g : RandGen)
  : Outcome (GameModel * RandGen) :=
  match dts with
  | [] => Continue (model, g)
  | dt :: rest =>
      match model_update model dt g with
      | Continue (model', g') => run_updates rest model' g'
      | Exit => Exit
      | Diverge => Diverge
      end
  end.

(** ** The driver's treatment of a command ([main.c])

    Exit is handled by the main loop itself, every other command by
    [model_handle_input]. *)
Definition driver_input (fuel : nat) (fs : FileSystem) (model : GameModel)
  (cmd : GameCommand) : Outcome (FileSystem * GameModel) :=
  if cmd_is cmd CMD_EXIT then
    match state model with
    | STATE_CONFIRM_QUIT => Exit
    | _ =>
        let model := set_previous_state (state model) model in
        let model := set_state STATE_CONFIRM_QUIT model in
        let model := set_menu_selection 1 model in
        Continue (fs, model)
    end
  else model_handle_input fuel fs model cmd.

(** ** Vocabulary of the statements and sample states *)

(** What a successful load of the image [temp] leaves in memory. *)
Definition loaded_from (temp : GameModel) : GameModel :=
  set_sounds zero_sounds (set_hit_timer (F32.of_Z 0) (set_state STATE_PLAYING temp)).

Definition empty_dir : FileSystem :=
  Build_FileSystem ∅ (fun _ => true) None.

Definition load_menu_with (count sel : Z) : GameModel :=
  set_menu_selection sel
    (set_save_file_count count (set_state STATE_LOAD_MENU model_init)).

Definition full_pool_model : GameModel :=
  set_bullets
    (replicate (Z.to_nat MAX_BULLETS) (Entity.set_active true zero_entity))
    (reset_game model_init).

Definition run_dir : FileSystem :=
  Build_FileSystem
    (<["sauvegardes/Run.dat" := ShortFile]>
       (<["sauvegardes/Run(1).dat" := ShortFile]> ∅))
    (fun _ => true) None.

Definition keep_both_model : GameModel :=
  set_menu_selection 1
    (set_input_buffer "Run" (set_state STATE_OVERWRITE_CONFIRM (reset_game model_init))).

(** The fields no phase other than the timers, the player move, the
    level-up and the bullet loop writes. *)
Definition same_core (m m' : GameModel) : Prop :=
  state m' = state m /\ player m' = player m /\ shields m' = shields m /\
  level m' = level m /\ lives m' = lives m /\ hit_timer m' = hit_timer m.

Ltac split_ifs :=
  repeat match goal with
         | |- context [if ?c then _ else _] => destruct c eqn:?
         end.

(** The bullet loop never writes the player or the level, and the only
    flow state it sets is Game Over. *)
Definition bullets_frame (m m' : GameModel) : Prop :=
  player m' = player m /\ level m' = level m /\
  (state m' = state m \/ state m' = STATE_GAME_OVER).

(** The horizontal position one Playing step gives an active player: the
    integration [x + dx * dt], then the two clamps. *)
Definition player_x_step (dt : f64) (dx x : f32) : f32 :=
  let x1 := f32_add_scaled x dx dt in
  let x2 := if F32.ltb x1 (F32.of_Z 0) then F32.of_Z 0 else x1 in
  if F32.gtb x2 (F32.of_Z (GAME_WIDTH - PLAYER_WIDTH))
  then F32.of_Z (GAME_WIDTH - PLAYER_WIDTH) else x2.

Definition run_right_model : GameModel :=
  set_player
    (Entity.set_dx PLAYER_SPEED
       (Entity.set_x (F32.of_Z 47) (player (reset_game model_init))))
    (reset_game model_init).

Definition shield_ok (s : Shield.t) : Prop :=
  0 <= Shield.health s <= SHIELD_MAX_HEALTH /\
  (Shield.active s = true -> 0 < Shield.health s).

(** Same barrier, same place, health not higher. *)
Definition shield_decays (s s' : Shield.t) : Prop :=
  Shield.health s' <= Shield.health s /\
  Shield.x s' = Shield.x s /\ Shield.y s' = Shield.y s /\
  Shield.width s' = Shield.width s /\ Shield.height s' = Shield.height s /\
  (Shield.active s' = true -> Shield.active s = true).

Definition shields_evolve (shs shs' : list Shield.t) : Prop :=
  Forall2 shield_decays shs shs' /\
  (Forall shield_ok shs -> Forall shield_ok shs').

Definition g_ones : RandGen := fun _ => 1.

(** The formation [init_enemies] writes: slot [k] holds the enemy of row
    [k / 11] and column [k mod 11]. *)
Definition formation : list Entity.t :=
  map (fun k => formation_enemy (k / 11) (k mod 11)) (Z_range 55).

(** The pass over the enemies, element by element. *)
Definition scan_elem (dir : Z) (dt : f64) (e : Entity.t) : Entity.t :=
  fst (scan_enemy dir dt e (0, false)).

(** The flyer is inactive after its own phase of the step, read off the
    state at the start of the step: an exploding flyer whose timer runs
    out, a flying one that leaves the field on the side it is heading for,
    or an absent one that does not spawn (it spawns when none has spawned
    this level, some enemy slot is active and the draw is a multiple of
    500). *)
Definition flyer_gone (m : GameModel) (dt : f64) (g : RandGen) : bool :=
  if Ufo.active (ufo m) then
    if Ufo.exploding (ufo m) then
      F32.leb (f32_sub_f64 (Ufo.explode_timer (ufo m)) dt) (F32.of_Z 0)
    else
      (F32.gtb (Ufo.dx (ufo m)) (F32.of_Z 0)
       && F32.gtb (f32_add_scaled (Ufo.x (ufo m)) (Ufo.dx (ufo m)) dt)
            (F32.of_Z 100))
      || (F32.ltb (Ufo.dx (ufo m)) (F32.of_Z 0)
          && F32.ltb (f32_add_scaled (Ufo.x (ufo m)) (Ufo.dx (ufo m)) dt)
               (F32.of_Z (-4)))
  else
    negb (negb (Ufo.hasSpawnedThisLevel (ufo m))
          && existsb Entity.active (enemies m)
          && (Z.rem (g 0%nat) 500 =? 0)).

(** The slots after the 55 of the formation are free. *)
Definition tail_free (es : list Entity.t) : Prop :=
  Forall (fun e => Entity.active e = false) (drop 55 es).

(** No free slot has become active. *)
Definition keeps_free (es es' : list Entity.t) : Prop :=
  Forall2 (fun e e' => Entity.active e = false -> Entity.active e' = false) es es'.

Definition cleared_model : GameModel :=
  set_enemies (replicate (Z.to_nat MAX_ENEMIES) zero_entity) (reset_game model_init).

(** The lives and the invulnerability timer along the bullet loop, from
    lives [l0] and timer [h0]: at most one life is won, with the flyer left
    exploding, and at most one is lost, which needs [h0 <= 0] and sets the
    timer to 2. *)
Definition loop_lives (l0 : Z) (h0 : f32) (a : GameModel) : Prop :=
  exists u h : Z,
    (u = 0 \/ u = 1 /\ Ufo.exploding (ufo a) = true) /\
    (h = 0 /\ hit_timer a = h0 \/
     h = 1 /\ hit_timer a = F32.of_Z 2 /\ F32.leb h0 (F32.of_Z 0) = true) /\
    lives a = l0 + u - h.

(** An enemy bullet on the player, one second of invulnerability left. *)
Definition shielded_hit_bullet : Entity.t :=
  fire_bullet (Entity.x (player (reset_game model_init)))
    (Entity.y (player (reset_game model_init)))
    (F32.mul BULLET_SPEED (F32.lit 6 1)) ENTITY_BULLET_ENEMY zero_entity.

Definition shielded_hit_model : GameModel :=
  let m := reset_game model_init in
  set_hit_timer (F32.of_Z 1)
    (set_bullets (<[0%nat := shielded_hit_bullet]> (bullets m)) m).

(** The height of a bullet after its flight of one step,
    [b->y += b->dy * dt]. *)
Definition bullet_y_after (b : Entity.t) (dt : f64) : f32 :=
  f32_add_scaled (Entity.y b) (Entity.dy b) dt.

(** After its flight the bullet is still in the field: neither [y < -10]
    nor [y > GAME_HEIGHT]. *)
Definition bullet_stays_in_field (b : Entity.t) (dt : f64) : bool :=
  negb (F32.ltb (bullet_y_after b dt) (F32.of_Z (-10))) &&
  negb (F32.gtb (bullet_y_after b dt) (F32.of_Z 50)).

(** After its flight the box of the bullet overlaps the box of the
    barrier: the four comparisons of the loop over the barriers. *)
Definition bullet_meets (b : Entity.t) (dt : f64) (s : Shield.t) : bool :=
  F32.ltb (Entity.x b) (F32.add (Shield.x s) (Shield.width s)) &&
  F32.gtb (F32.add (Entity.x b) (F32.of_Z (Entity.width b))) (Shield.x s) &&
  F32.ltb (bullet_y_after b dt) (F32.add (Shield.y s) (Shield.height s)) &&
  F32.gtb (F32.add (bullet_y_after b dt) (F32.of_Z (Entity.height b))) (Shield.y s).

(** Barrier [j] is the first active barrier that the bullet meets. *)
Definition first_met (b : Entity.t) (dt : f64) (shs : list Shield.t)
  (j : nat) (s : Shield.t) : Prop :=
  shs !! j = Some s /\ Shield.active s = true /\ bullet_meets b dt s = true /\
  forall k s0, (k < j)%nat -> shs !! k = Some s0 ->
               Shield.active s0 && bullet_meets b dt s0 = false.

(** The same barrier with one point of health less, inactive at 0. *)
Definition worn (s : Shield.t) : Shield.t :=
  Shield.Build (Shield.x s) (Shield.y s) (Shield.width s) (Shield.height s)
    (Shield.health s - 1) (0 <? Shield.health s - 1).

(** An oracle whose draws never make an enemy fire below level 50, nor the
    flyer appear. *)
Definition g_quiet : RandGen := fun _ => 99.

(** A player bullet half a unit below the first barrier, going up. *)
Definition barrier_hit_bullet : Entity.t :=
  fire_bullet (F32.of_Z 20) (F32.lit 445 1) (F32.neg BULLET_SPEED)
    ENTITY_BULLET_PLAYER zero_entity.

Definition barrier_hit_model : GameModel :=
  let m := reset_game model_init in
  set_bullets (<[0%nat := barrier_hit_bullet]> (bullets m)) m.

(** The entries [model_scan_saves] keeps: not hidden, and with ".dat"
    somewhere in the name. *)
Definition scan_accepts (d_name : string) : bool :=
  negb (first_char_is "." d_name) && strstr d_name ".dat".

(** The handlers that never write a file. *)
Ltac no_write_handler :=
  intros H;
  repeat match type of H with
         | context [if ?c then _ else _] => destruct c
         | context [match ?x with _ => _ end] => destruct x
         end;
  first [discriminate H | injection H as <- _; reflexivity].

(** The directory after a call is the one before it, or the one before it
    with one save more. *)
Definition saved_or_same (fs fs' : FileSystem) (free_only : bool) : Prop :=
  fs' = fs \/
  exists (image : GameModel) (filename : string),
    fs' = model_save_named fs image filename /\
    (free_only = true -> save_file_exists fs filename = false).

(** The menu and settings part of the model. *)
Definition settings (m : GameModel)
  : Z * bool * string * list string * Z * GameStateEnum :=
  (volume m, is_muted m, input_buffer m, save_files m, save_file_count m,
   previous_state m).

Definition is_simulated (s : GameStateEnum) : bool :=
  match s with
  | STATE_PLAYING | STATE_GAME_OVER | STATE_SAVE_SUCCESS => true
  | _ => false
  end.

(** The last entry of the menu of each state that has a wrapping cursor:
    5 entries in the main menu, 4 in the pause menu, 3 on the Game Over and
    quit screens, and "new save" plus the cached files when choosing a slot. *)
Definition menu_top (m : GameModel) : option Z :=
  match state m with
  | STATE_MENU => Some 4
  | STATE_PAUSED => Some 3
  | STATE_GAME_OVER => Some 2
  | STATE_CONFIRM_QUIT => Some 2
  | STATE_SAVE_SELECT => Some (save_file_count m)
  | _ => None
  end.

Definition one_save_dir : FileSystem :=
  Build_FileSystem {[ "sauvegardes/run.dat" := FullRecord run_right_model ]}
    (fun _ => true) (Some ["run.dat"]).

Definition slot_select_model : GameModel :=
  set_menu_selection 1
    (set_state STATE_SAVE_SELECT (model_scan_saves one_save_dir run_right_model)).

Definition wave (m : GameModel) : Z * Z * Z :=
  (direction_enemies m, drop_direction m, drop_step_count m).

Definition flyer_flags (m : GameModel) : bool * bool :=
  (Ufo.active (ufo m), Ufo.hasSpawnedThisLevel (ufo m)).

(** The sweep direction is 1 or -1 and the drop oscillator is on one of its
    six positions: dropping with 0, 1 or 2 steps done, or rising with 3, 2
    or 1 steps left. *)
Definition wave_ok (m : GameModel) : Prop :=
  (direction_enemies m = 1 \/ direction_enemies m = -1) /\
  (drop_direction m = 1 /\ 0 <= drop_step_count m <= 2 \/
   drop_direction m = -1 /\ 1 <= drop_step_count m <= 3).

(** * Properties *)

(** ** Machine integers and floating-point comparisons *)

Lemma wrap_int_id (z : Z) : is_int z -> wrap_int z = z.
Proof.
  unfold is_int, INT_MIN, INT_MAX, wrap_int. intros H.
  rewrite Z.mod_small; lia.
Qed.

Lemma SFcompare_antisym (a b : spec_float) (c : comparison) :
  SFcompare a b = Some c -> SFcompare b a = Some (CompOpp c).
Proof.
  destruct a as [sa | sa | | sa ma ea], b as [sb | sb | | sb mb eb];
    simpl; try discriminate;
    try (intros [= <-]; repeat match goal with s : bool |- _ => destruct s end;
         reflexivity).
  intros [= <-].
  destruct sa, sb; try reflexivity;
    rewrite (Z.compare_antisym ea eb);
    destruct (ea ?= eb)%Z eqn:E; simpl; try reflexivity;
    rewrite !Pos.compare_cont_spec, (Pos.compare_antisym ma mb);
    destruct (ma ?= mb)%positive; reflexivity.
Qed.

(** [a > b] and [a <= b] exclude each other. *)
Lemma F32_gtb_not_leb (a b : f32) : F32.gtb a b = true -> F32.leb a b = false.
Proof.
  unfold F32.gtb, F32.leb, SFltb, SFleb.
  destruct (SFcompare b a) as [[ | | ] | ] eqn:E; try discriminate.
  intros _. rewrite (SFcompare_antisym _ _ _ E). reflexivity.
Qed.

(** For comparable values, [not (a < b)] is [b <= a]. *)
Lemma F32_not_ltb_leb (a b : f32) :
  SFcompare a b <> None -> F32.ltb a b = false -> F32.leb b a = true.
Proof.
  unfold F32.ltb, F32.leb, SFltb, SFleb.
  destruct (SFcompare a b) as [c | ] eqn:E; [ | congruence].
  intros _. rewrite (SFcompare_antisym _ _ _ E).
  destruct c; simpl; congruence.
Qed.

Lemma SFcompare_nan_free (a b : spec_float) :
  F32.is_nan a = false -> F32.is_nan b = false -> SFcompare a b <> None.
Proof.
  destruct a, b; simpl; congruence.
Qed.

(** ** Save and load *)

Lemma load_full_record (fs : FileSystem) (cur temp : GameModel) (filename : string) :
  fs_files fs !! save_path filename = Some (FullRecord temp) ->
  model_load_named fs cur filename = (loaded_from temp, true).
Proof.
  intros H. unfold model_load_named. rewrite H. reflexivity.
Qed.

Lemma saved_file_content (fs : FileSystem) (m : GameModel) (filename : string) :
  fs_writable fs (save_path filename) = true ->
  fs_files (model_save_named fs m filename) !! save_path filename
  = Some (FullRecord m).
Proof.
  intros H. unfold model_save_named. rewrite H. simpl.
  apply lookup_insert_eq.
Qed.

Lemma load_after_save (fs : FileSystem) (m cur : GameModel) (filename : string) :
  fs_writable fs (save_path filename) = true ->
  model_load_named (model_save_named fs m filename) cur filename
  = (loaded_from m, true).
Proof.
  intros H. apply load_full_record, saved_file_content, H.
Qed.

(** C1 (as stated, refuted): a model whose rhythm index [beat_index] is 2
    is saved and loaded back; the index read back is 0, although it is not
    one of the request flags, so not every field outside the listed
    exceptions is reproduced. *)
Lemma roundtrip_loses_beat_index :
  let m := set_sounds (set_beat_index 2 zero_sounds) model_init in
  let r := model_load_named (model_save_named empty_dir m "run.dat") model_init
             "run.dat" in
  snd r = true /\
  beat_index (sounds m) = 2 /\
  beat_index (sounds (fst r)) = 0 /\
  beat_index (sounds (fst r)) <> beat_index (sounds m).
Proof.
  intros m r. subst r.
  rewrite load_after_save by reflexivity.
  simpl. repeat split; try reflexivity. discriminate.
Qed.

(** C1 (amended): when the save file could be written, loading it back
    over any current model succeeds and yields the saved model with the
    flow state forced to Playing, [hit_timer] forced to 0 and the whole
    sounds block cleared, that is every request flag false and the rhythm
    index [beat_index] 0; every other field, among them score, lives, level,
    volume, mute, the player, every enemy and bullet slot, the flyer and
    every barrier, is the saved one. *)
Theorem save_then_load_roundtrip
  (fs : FileSystem) (m cur : GameModel) (filename : string) :
  fs_writable fs (save_path filename) = true ->
  exists m',
    model_load_named (model_save_named fs m filename) cur filename = (m', true) /\
    state m' = STATE_PLAYING /\
    hit_timer m' = F32.of_Z 0 /\
    sounds m' = Build_SoundState false false false false false false false 0 false /\
    previous_state m' = previous_state m /\
    player m' = player m /\
    enemies m' = enemies m /\
    bullets m' = bullets m /\
    ufo m' = ufo m /\
    shields m' = shields m /\
    score m' = score m /\
    lives m' = lives m /\
    level m' = level m /\
    normal_max_lives m' = normal_max_lives m /\
    enemy_speed_mult m' = enemy_speed_mult m /\
    direction_enemies m' = direction_enemies m /\
    drop_direction m' = drop_direction m /\
    drop_step_count m' = drop_step_count m /\
    animation_frame m' = animation_frame m /\
    animation_timer m' = animation_timer m /\
    game_over_timer m' = game_over_timer m /\
    save_success_timer m' = save_success_timer m /\
    menu_selection m' = menu_selection m /\
    input_buffer m' = input_buffer m /\
    save_files m' = save_files m /\
    save_file_count m' = save_file_count m /\
    current_filename m' = current_filename m /\
    pending_quit m' = pending_quit m /\
    volume m' = volume m /\
    is_muted m' = is_muted m.
Proof.
  intros H. exists (loaded_from m). split.
  - apply load_after_save, H.
  - repeat split.
Qed.

Lemma save_then_load_roundtrip_witness :
  exists m',
    model_load_named
      (model_save_named empty_dir (set_score 120 (reset_game model_init)) "run.dat")
      model_init "run.dat" = (m', true) /\
    state m' = STATE_PLAYING /\ score m' = 120 /\ lives m' = 3.
Proof.
  destruct (save_then_load_roundtrip empty_dir (set_score 120 (reset_game model_init))
              model_init "run.dat" eq_refl)
    as (m' & Hload & Hstate & _ & _ & _ & _ & _ & _ & _ & _ & Hscore & Hlives & _).
  exists m'. repeat split; assumption.
Defined.

(** C2: a load that fails, because no file is at the path or because the
    file is shorter than one record, returns false and hands back the
    current model as it was; a load that returns false is one of these. *)
Theorem load_failure_keeps_model (fs : FileSystem) (m : GameModel) (filename : string) :
  (fs_files fs !! save_path filename = None ->
   model_load_named fs m filename = (m, false)) /\
  (fs_files fs !! save_path filename = Some ShortFile ->
   model_load_named fs m filename = (m, false)) /\
  (snd (model_load_named fs m filename) = false ->
   fst (model_load_named fs m filename) = m /\
   (fs_files fs !! save_path filename = None \/
    fs_files fs !! save_path filename = Some ShortFile)).
Proof.
  unfold model_load_named.
  destruct (fs_files fs !! save_path filename) as [[temp | ] | ]; simpl;
    repeat split; intros; try discriminate; auto.
Qed.

Lemma load_failure_keeps_model_witness :
  model_load_named empty_dir (reset_game model_init) "none.dat"
  = (reset_game model_init, false) /\
  model_load_named
    (Build_FileSystem {[ save_path "cut.dat" := ShortFile ]} (fun _ => true) None)
    (reset_game model_init) "cut.dat"
  = (reset_game model_init, false).
Proof.
  split.
  - apply (proj1 (load_failure_keeps_model empty_dir (reset_game model_init) "none.dat")).
    reflexivity.
  - apply (proj1 (proj2 (load_failure_keeps_model _ (reset_game model_init) "cut.dat"))).
    simpl. apply lookup_singleton_eq.
Defined.

(** ** The load menu *)

(** C5 (as stated, refuted): the load menu entered with no save file has
    count 0 and the cursor still on entry 2 of the main menu; Up moves the
    cursor to 1 and Down moves it to 0.  And with 3 files and the cursor on
    7, Up moves it to 6, which is not an entry of the list. *)
Lemma load_menu_empty_moves_cursor :
  (exists m',
     model_handle_input 0 empty_dir (load_menu_with 0 2) CMD_UP
     = Continue (empty_dir, m') /\
     menu_selection m' = 1 /\ menu_selection m' <> menu_selection (load_menu_with 0 2)) /\
  (exists m',
     model_handle_input 0 empty_dir (load_menu_with 0 2) CMD_DOWN
     = Continue (empty_dir, m') /\
     menu_selection m' = 0 /\ menu_selection m' <> menu_selection (load_menu_with 0 2)) /\
  (exists m',
     model_handle_input 0 empty_dir (load_menu_with 3 7) CMD_UP
     = Continue (empty_dir, m') /\
     menu_selection m' = 6 /\ ~ (0 <= menu_selection m' <= 3 - 1)).
Proof.
  split; [ | split]; eexists; (split; [reflexivity | split; [reflexivity | ]]).
  - discriminate.
  - discriminate.
  - vm_compute. intros [_ H]. apply H. reflexivity.
Qed.

Lemma load_menu_up (fuel : nat) (fs : FileSystem) (m : GameModel) :
  state m = STATE_LOAD_MENU ->
  model_handle_input fuel fs m CMD_UP
  = Continue
      (fs, set_menu_selection
             (if wrap_int (menu_selection m - 1) <? 0
              then wrap_int (save_file_count m - 1)
              else wrap_int (menu_selection m - 1)) m).
Proof.
  intros Hs. unfold model_handle_input. rewrite Hs. reflexivity.
Qed.

Lemma load_menu_down (fuel : nat) (fs : FileSystem) (m : GameModel) :
  state m = STATE_LOAD_MENU ->
  model_handle_input fuel fs m CMD_DOWN
  = Continue
      (fs, set_menu_selection
             (if wrap_int (menu_selection m + 1) >=? save_file_count m
              then 0
              else wrap_int (menu_selection m + 1)) m).
Proof.
  intros Hs. unfold model_handle_input. rewrite Hs. reflexivity.
Qed.

Lemma load_menu_confirm_empty (fuel : nat) (fs : FileSystem) (m : GameModel)
  (cmd : GameCommand) :
  state m = STATE_LOAD_MENU ->
  cmd = CMD_RETURN \/ cmd = CMD_SHOOT ->
  save_file_count m <= 0 ->
  model_handle_input fuel fs m cmd = Continue (fs, m).
Proof.
  intros Hs Hcmd Hn. unfold model_handle_input. rewrite Hs.
  unfold handle_load_menu.
  destruct (Z.gtb_spec (save_file_count m) 0) as [H | _]; [lia | ].
  destruct Hcmd as [-> | ->]; cbn [cmd_is GameCommand_code Z.eqb Pos.eqb orb];
    destruct (save_file_count m >? 0) eqn:E; try reflexivity;
    apply Z.gtb_lt in E; lia.
Qed.

(** C5 (amended): in the load menu Up and Down change the cursor and
    nothing else, for every cursor [c] and count [n]: Up sets the cursor to
    [n - 1] when [c <= 0] and to [c - 1] otherwise, Down sets it to 0 when
    [c + 1 >= n] and to [c + 1] otherwise.  So with a count [n > 0] and the
    cursor in [0, n-1] they cycle it over [0, n-1]: Up gives [(c - 1) mod n],
    Down [(c + 1) mod n]; a cursor above [n] is only decremented by Up and
    stays outside the list.  With a count of 0 the cursor is not kept: from
    a cursor [c >= 0], Down sets it to 0 and Up to [c - 1], or to [-1] when
    [c = 0].  Confirm does nothing while the count is 0. *)
Theorem load_menu_cursor_moves (fuel : nat) (fs : FileSystem) (m : GameModel) :
  state m = STATE_LOAD_MENU ->
  exists up down,
    model_handle_input fuel fs m CMD_UP
    = Continue (fs, set_menu_selection up m) /\
    model_handle_input fuel fs m CMD_DOWN
    = Continue (fs, set_menu_selection down m) /\
    (INT_MIN < menu_selection m < INT_MAX ->
     INT_MIN < save_file_count m <= INT_MAX ->
     up = (if menu_selection m <=? 0 then save_file_count m - 1
           else menu_selection m - 1) /\
     down = (if save_file_count m <=? menu_selection m + 1 then 0
             else menu_selection m + 1)) /\
    (0 < save_file_count m <= INT_MAX ->
     0 <= menu_selection m < save_file_count m ->
     up = (menu_selection m - 1) mod save_file_count m /\
     down = (menu_selection m + 1) mod save_file_count m /\
     0 <= up < save_file_count m /\
     0 <= down < save_file_count m) /\
    (0 < save_file_count m ->
     save_file_count m < menu_selection m < INT_MAX ->
     up = menu_selection m - 1 /\ ~ (0 <= up < save_file_count m)) /\
    (save_file_count m = 0 ->
     0 <= menu_selection m < INT_MAX ->
     down = 0 /\
     up = (if menu_selection m =? 0 then -1 else menu_selection m - 1)) /\
    (save_file_count m <= 0 ->
     model_handle_input fuel fs m CMD_RETURN = Continue (fs, m) /\
     model_handle_input fuel fs m CMD_SHOOT = Continue (fs, m)).
Proof.
  intros Hs. eexists. eexists.
  split; [apply load_menu_up, Hs | ].
  split; [apply load_menu_down, Hs | ].
  unfold INT_MAX, INT_MIN. split; [ | split; [ | split; [ | split]]].
  - intros Hc Hn.
    rewrite (wrap_int_id (menu_selection m - 1))
      by (unfold is_int, INT_MIN, INT_MAX; lia).
    rewrite (wrap_int_id (menu_selection m + 1))
      by (unfold is_int, INT_MIN, INT_MAX; lia).
    rewrite (wrap_int_id (save_file_count m - 1))
      by (unfold is_int, INT_MIN, INT_MAX; lia).
    split.
    + destruct (Z.ltb_spec (menu_selection m - 1) 0);
        destruct (Z.leb_spec (menu_selection m) 0); lia.
    + destruct (Z.geb_spec (menu_selection m + 1) (save_file_count m));
        destruct (Z.leb_spec (save_file_count m) (menu_selection m + 1)); lia.
  - intros Hn Hc.
    rewrite (wrap_int_id (menu_selection m - 1))
      by (unfold is_int, INT_MIN, INT_MAX; lia).
    rewrite (wrap_int_id (menu_selection m + 1))
      by (unfold is_int, INT_MIN, INT_MAX; lia).
    rewrite (wrap_int_id (save_file_count m - 1))
      by (unfold is_int, INT_MIN, INT_MAX; lia).
    assert (Hup : (if menu_selection m - 1 <? 0 then save_file_count m - 1
                   else menu_selection m - 1)
                  = (menu_selection m - 1) mod save_file_count m).
    { destruct (Z.ltb_spec (menu_selection m - 1) 0).
      - replace (menu_selection m - 1) with (-1) by lia.
        apply Z.mod_unique with (q := -1); lia.
      - symmetry. apply Z.mod_small. lia. }
    assert (Hdown : (if menu_selection m + 1 >=? save_file_count m then 0
                     else menu_selection m + 1)
                    = (menu_selection m + 1) mod save_file_count m).
    { destruct (Z.geb_spec (menu_selection m + 1) (save_file_count m)).
      - replace (menu_selection m + 1) with (save_file_count m) by lia.
        rewrite Z.mod_same by lia. reflexivity.
      - symmetry. apply Z.mod_small. lia. }
    rewrite Hup, Hdown.
    repeat split; try apply Z.mod_pos_bound; lia.
  - intros Hn Hc.
    rewrite (wrap_int_id (menu_selection m - 1))
      by (unfold is_int, INT_MIN, INT_MAX; lia).
    destruct (Z.ltb_spec (menu_selection m - 1) 0); [lia | ].
    split; [reflexivity | lia].
  - intros Hn Hc. rewrite Hn.
    rewrite (wrap_int_id (menu_selection m - 1))
      by (unfold is_int, INT_MIN, INT_MAX; lia).
    rewrite (wrap_int_id (menu_selection m + 1))
      by (unfold is_int, INT_MIN, INT_MAX; lia).
    split.
    + destruct (Z.geb_spec (menu_selection m + 1) 0); [reflexivity | lia].
    + change (wrap_int (0 - 1)) with (-1).
      destruct (Z.ltb_spec (menu_selection m - 1) 0);
        destruct (Z.eqb_spec (menu_selection m) 0); lia.
  - intros Hn. split; apply load_menu_confirm_empty; auto.
Qed.

Lemma load_menu_cursor_moves_witness :
  exists up down,
    model_handle_input 0 empty_dir (load_menu_with 3 0) CMD_UP
    = Continue (empty_dir, set_menu_selection up (load_menu_with 3 0)) /\
    model_handle_input 0 empty_dir (load_menu_with 3 0) CMD_DOWN
    = Continue (empty_dir, set_menu_selection down (load_menu_with 3 0)) /\
    up = 2 /\ down = 1.
Proof.
  destruct (load_menu_cursor_moves 0 empty_dir (load_menu_with 3 0) eq_refl)
    as (up & down & Hup & Hdown & _ & Hcycle & _).
  exists up. exists down.
  destruct Hcycle as (Hu & Hd & _);
    [unfold INT_MAX; simpl; lia | simpl; lia | ].
  repeat split; assumption.
Defined.

(** ** The scan of the save directory *)

(** C6 (evaluated at the failing input): [strstr] accepts a name that
    holds ".dat" anywhere.  A directory that reports "old.dat.bak",
    "notes.data" and "run.dat" has all three recorded, in that order, and a
    count of 3, although only the last one ends with ".dat". *)
Theorem scan_saves_records_infix_names :
  let fs :=
    Build_FileSystem ∅ (fun _ => true)
      (Some ["."; ".."; "old.dat.bak"; "notes.data"; "run.dat"; "readme.txt"]) in
  let m := model_scan_saves fs model_init in
  save_file_count m = 3 /\
  take 3 (save_files m) = ["old.dat.bak"; "notes.data"; "run.dat"].
Proof.
  split; reflexivity.
Qed.

(** ** Shooting *)

Lemma spawn_in_full_pool (x y dy : f32) (type : EntityType) (pool : list Entity.t) :
  Forall (fun b => Entity.active b = true) pool ->
  spawn_in_pool x y dy type pool = pool.
Proof.
  induction 1 as [ | b rest Hb _ IH]; simpl.
  - reflexivity.
  - rewrite Hb. simpl. rewrite IH. reflexivity.
Qed.

(** C9: in the Playing state, with every slot of the bullet pool active
    and the shoot cooldown not above 0, Shoot returns with the directory
    untouched, the pool exactly as it was, the cooldown set to 0.5 and the
    shoot sound requested. *)
Theorem shoot_with_full_pool (fuel : nat) (fs : FileSystem) (m : GameModel) :
  state m = STATE_PLAYING ->
  Forall (fun b => Entity.active b = true) (bullets m) ->
  F32.leb (Entity.shoot_timer (player m)) (F32.of_Z 0) = true ->
  exists m',
    model_handle_input fuel fs m CMD_SHOOT = Continue (fs, m') /\
    bullets m' = bullets m /\
    Entity.shoot_timer (player m') = F32.lit 5 1 /\
    F32.lit 5 1 = S754_finite false 8388608 (-24) /\
    play_shoot (sounds m') = true.
Proof.
  intros Hs Hfull Hcool.
  unfold model_handle_input. rewrite Hs. unfold handle_playing.
  cbv [cmd_is GameCommand_code Z.eqb Pos.eqb orb andb].
  rewrite Hcool.
  eexists. split; [reflexivity | ]. simpl.
  split; [apply spawn_in_full_pool, Hfull | ].
  repeat split.
Qed.

Lemma shoot_with_full_pool_witness :
  length (bullets full_pool_model) = 100%nat /\
  exists m',
    model_handle_input 0 empty_dir full_pool_model CMD_SHOOT
    = Continue (empty_dir, m') /\
    bullets m' = bullets full_pool_model /\
    play_shoot (sounds m') = true.
Proof.
  split; [reflexivity | ].
  destruct (shoot_with_full_pool 0 empty_dir full_pool_model eq_refl)
    as (m' & Hrun & Hpool & _ & _ & Hsound).
  - apply Forall_forall. intros b Hb.
    apply (proj1 (elem_of_replicate _ _ _)) in Hb. destruct Hb as [-> _]. reflexivity.
  - reflexivity.
  - exists m'. repeat split; assumption.
Defined.

(** ** Keeping both files *)

Lemma save_file_exists_false (fs : FileSystem) (filename : string) :
  save_file_exists fs filename = false <-> fs_files fs !! save_path filename = None.
Proof.
  unfold save_file_exists.
  destruct (fs_files fs !! save_path filename); split; congruence.
Qed.

(** The search started at [i] stops at [i + n] when the [n] names before
    it are taken and that one is free. *)
Lemma generate_unique_filename_from_finds
  (fs : FileSystem) (base_name : string) (n : nat) :
  forall (i : Z) (fuel : nat),
    INT_MIN <= i -> i + Z.of_nat n <= INT_MAX ->
    (forall j, i <= j < i + Z.of_nat n ->
               save_file_exists fs (unique_candidate base_name j) = true) ->
    save_file_exists fs (unique_candidate base_name (i + Z.of_nat n)) = false ->
    (n < fuel)%nat ->
    generate_unique_filename_from fuel fs base_name i
    = Some (unique_candidate base_name (i + Z.of_nat n)).
Proof.
  induction n as [ | n IH]; intros i fuel Hlo Hhi Htaken Hfree Hfuel.
  - destruct fuel as [ | fuel]; [lia | ]. simpl.
    replace (i + Z.of_nat 0) with i in * by lia.
    rewrite Hfree. reflexivity.
  - destruct fuel as [ | fuel]; [lia | ]. simpl.
    rewrite (Htaken i) by lia. simpl.
    rewrite wrap_int_id by (unfold is_int; lia).
    replace (i + Z.of_nat (S n)) with (i + 1 + Z.of_nat n) in * by lia.
    apply IH; try lia; try assumption.
    intros j Hj. apply Htaken. lia.
Qed.

Lemma save_keeps_other_files
  (fs : FileSystem) (m : GameModel) (filename : string) (p : string) :
  p <> save_path filename ->
  fs_files (model_save_named fs m filename) !! p = fs_files fs !! p.
Proof.
  intros Hp. unfold model_save_named.
  destruct (fs_writable fs (save_path filename)); simpl; [ | reflexivity].
  apply lookup_insert_ne. congruence.
Qed.

Lemma save_to_free_name_keeps_files
  (fs : FileSystem) (m : GameModel) (filename : string) (p : string) (f : SaveFile) :
  save_file_exists fs filename = false ->
  fs_files fs !! p = Some f ->
  fs_files (model_save_named fs m filename) !! p = Some f.
Proof.
  intros Hfree Hp. rewrite save_keeps_other_files; [assumption | ].
  intros ->. apply save_file_exists_false in Hfree. congruence.
Qed.

Lemma keep_both_step (fuel : nat) (fs : FileSystem) (m : GameModel)
  (cmd : GameCommand) (new_name : string) :
  state m = STATE_OVERWRITE_CONFIRM ->
  menu_selection m <> 0 ->
  cmd = CMD_RETURN \/ cmd = CMD_SHOOT ->
  generate_unique_filename fuel fs (input_buffer m) = Some new_name ->
  model_handle_input fuel fs m cmd
  = Continue
      (model_save_named fs (request_select_sound m) new_name,
       set_save_success_timer (F32.of_Z 2)
         (set_state STATE_SAVE_SUCCESS (request_select_sound m))).
Proof.
  intros Hs Hsel Hcmd Hgen.
  unfold model_handle_input. rewrite Hs. unfold handle_overwrite_confirm.
  assert (Hnav : cmd_is cmd CMD_LEFT || cmd_is cmd CMD_RIGHT || cmd_is cmd CMD_UP
                 || cmd_is cmd CMD_DOWN = false)
    by (destruct Hcmd; subst cmd; reflexivity).
  assert (Hok : cmd_is cmd CMD_RETURN || cmd_is cmd CMD_SHOOT = true)
    by (destruct Hcmd; subst cmd; reflexivity).
  rewrite Hnav, Hok.
  change (menu_selection (request_select_sound m)) with (menu_selection m).
  change (input_buffer (request_select_sound m)) with (input_buffer m).
  destruct (Z.eqb_spec (menu_selection m) 0); [contradiction | ].
  rewrite Hgen. reflexivity.
Qed.

(** C8: in the overwrite confirmation with the cursor on "keep both", for
    any base name in the input buffer and any directory in which the names
    "<base>(1).dat" to "<base>(k-1).dat" are taken and "<base>(k).dat" is
    free, Confirm ends, given enough iterations, having saved under
    "<base>(k).dat", the first free name in increasing order; every file
    that existed is still there with its content, and the only path that
    may differ is the new one.  For the base name "Run" with "Run(1).dat"
    present and "Run(2).dat" absent the save goes to "Run(2).dat". *)
Theorem keep_both_writes_first_free_name :
  (forall (fs : FileSystem) (m : GameModel) (cmd : GameCommand) (k : Z),
     state m = STATE_OVERWRITE_CONFIRM ->
     menu_selection m <> 0 ->
     cmd = CMD_RETURN \/ cmd = CMD_SHOOT ->
     1 <= k <= INT_MAX ->
     (forall j, 1 <= j < k ->
                save_file_exists fs (unique_candidate (input_buffer m) j) = true) ->
     save_file_exists fs (unique_candidate (input_buffer m) k) = false ->
     exists fuel0 : nat, forall fuel : nat, (fuel0 <= fuel)%nat ->
       exists fs' m',
         model_handle_input fuel fs m cmd = Continue (fs', m') /\
         fs' = model_save_named fs (request_select_sound m)
                 (unique_candidate (input_buffer m) k) /\
         state m' = STATE_SAVE_SUCCESS /\
         (forall p f, fs_files fs !! p = Some f -> fs_files fs' !! p = Some f) /\
         (forall p, p <> save_path (unique_candidate (input_buffer m) k) ->
                    fs_files fs' !! p = fs_files fs !! p) /\
         (fs_writable fs (save_path (unique_candidate (input_buffer m) k)) = true ->
          fs_files fs' !! save_path (unique_candidate (input_buffer m) k)
          = Some (FullRecord (request_select_sound m)))) /\
  (forall (fs : FileSystem) (m : GameModel) (cmd : GameCommand) (f1 : SaveFile),
     state m = STATE_OVERWRITE_CONFIRM ->
     menu_selection m <> 0 ->
     cmd = CMD_RETURN \/ cmd = CMD_SHOOT ->
     input_buffer m = "Run" ->
     fs_files fs !! "sauvegardes/Run(1).dat" = Some f1 ->
     fs_files fs !! "sauvegardes/Run(2).dat" = None ->
     fs_writable fs "sauvegardes/Run(2).dat" = true ->
     exists fuel0 : nat, forall fuel : nat, (fuel0 <= fuel)%nat ->
       exists fs' m',
         model_handle_input fuel fs m cmd = Continue (fs', m') /\
         fs_files fs' !! "sauvegardes/Run(2).dat"
         = Some (FullRecord (request_select_sound m)) /\
         fs_files fs' !! "sauvegardes/Run(1).dat" = Some f1 /\
         (forall p, p <> "sauvegardes/Run(2).dat" ->
                    fs_files fs' !! p = fs_files fs !! p)).
Proof.
  assert (General :
    forall (fs : FileSystem) (m : GameModel) (cmd : GameCommand) (k : Z),
     state m = STATE_OVERWRITE_CONFIRM ->
     menu_selection m <> 0 ->
     cmd = CMD_RETURN \/ cmd = CMD_SHOOT ->
     1 <= k <= INT_MAX ->
     (forall j, 1 <= j < k ->
                save_file_exists fs (unique_candidate (input_buffer m) j) = true) ->
     save_file_exists fs (unique_candidate (input_buffer m) k) = false ->
     forall fuel : nat, (Z.to_nat k <= fuel)%nat ->
       model_handle_input fuel fs m cmd
       = Continue
           (model_save_named fs (request_select_sound m)
              (unique_candidate (input_buffer m) k),
            set_save_success_timer (F32.of_Z 2)
              (set_state STATE_SAVE_SUCCESS (request_select_sound m)))).
  { intros fs m cmd k Hs Hsel Hcmd Hk Htaken Hfree fuel Hfuel.
    apply keep_both_step; try assumption.
    unfold generate_unique_filename.
    replace k with (1 + Z.of_nat (Z.to_nat (k - 1))) in Hfree |- * by lia.
    apply generate_unique_filename_from_finds.
    - unfold INT_MIN. lia.
    - lia.
    - intros j Hj. apply Htaken. lia.
    - assumption.
    - lia. }
  split.
  - intros fs m cmd k Hs Hsel Hcmd Hk Htaken Hfree.
    exists (Z.to_nat k). intros fuel Hfuel.
    eexists. eexists.
    split; [apply (General fs m cmd k); assumption | ].
    split; [reflexivity | ].
    split; [reflexivity | ].
    split; [ | split].
    + intros p f Hp. apply save_to_free_name_keeps_files; assumption.
    + intros p Hp. apply save_keeps_other_files, Hp.
    + apply saved_file_content.
  - intros fs m cmd f1 Hs Hsel Hcmd Hbuf H1 H2 Hw.
    exists 2%nat. intros fuel Hfuel.
    eexists. eexists.
    split.
    { apply (General fs m cmd 2); try assumption.
      - unfold INT_MAX. lia.
      - intros j Hj. assert (j = 1) as -> by lia.
        rewrite Hbuf. unfold save_file_exists.
        change (save_path (unique_candidate "Run" 1)) with "sauvegardes/Run(1).dat".
        rewrite H1. reflexivity.
      - rewrite Hbuf. apply save_file_exists_false. exact H2. }
    rewrite Hbuf.
    change (unique_candidate "Run" 2) with "Run(2).dat".
    split; [ | split].
    + apply (saved_file_content fs _ "Run(2).dat"). exact Hw.
    + rewrite (save_keeps_other_files fs _ "Run(2).dat") by discriminate.
      exact H1.
    + intros p Hp. apply (save_keeps_other_files fs _ "Run(2).dat"). exact Hp.
Qed.

Lemma keep_both_writes_first_free_name_witness :
  exists fuel0 : nat, forall fuel : nat, (fuel0 <= fuel)%nat ->
    exists fs' m',
      model_handle_input fuel run_dir keep_both_model CMD_RETURN
      = Continue (fs', m') /\
      fs_files fs' !! "sauvegardes/Run(2).dat"
      = Some (FullRecord (request_select_sound keep_both_model)) /\
      fs_files fs' !! "sauvegardes/Run(1).dat" = Some ShortFile /\
      fs_files fs' !! "sauvegardes/Run.dat" = Some ShortFile.
Proof.
  assert (Hsel : menu_selection keep_both_model <> 0) by discriminate.
  assert (Hcmd : CMD_RETURN = CMD_RETURN \/ CMD_RETURN = CMD_SHOOT)
    by (left; reflexivity).
  assert (H1 : fs_files run_dir !! "sauvegardes/Run(1).dat" = Some ShortFile)
    by reflexivity.
  assert (H2 : fs_files run_dir !! "sauvegardes/Run(2).dat" = None)
    by reflexivity.
  destruct (proj2 keep_both_writes_first_free_name run_dir keep_both_model
              CMD_RETURN ShortFile eq_refl Hsel Hcmd eq_refl H1 H2 eq_refl)
    as (fuel0 & Hrun).
  exists fuel0. intros fuel Hfuel.
  destruct (Hrun fuel Hfuel) as (fs' & m' & Hstep & Hnew & Hold & Hrest).
  exists fs'. exists m'. repeat split; try assumption.
  rewrite Hrest by discriminate. reflexivity.
Defined.

(** ** What the phases of a step leave alone *)

Lemma same_core_refl (m : GameModel) : same_core m m.
Proof. repeat split. Qed.

Lemma same_core_trans (m1 m2 m3 : GameModel) :
  same_core m1 m2 -> same_core m2 m3 -> same_core m1 m3.
Proof.
  unfold same_core. intros (?&?&?&?&?&?) (?&?&?&?&?&?).
  repeat split; congruence.
Qed.

Lemma update_beat_core (m : GameModel) (dt : f64) : same_core m (update_beat m dt).
Proof. unfold update_beat. split_ifs; repeat split. Qed.

Lemma spawn_ufo_core (m : GameModel) (g : RandGen) :
  same_core m (fst (spawn_ufo m g)).
Proof. unfold spawn_ufo. simpl. repeat split. Qed.

Lemma update_ufo_core (m : GameModel) (dt : f64) (g : RandGen) :
  same_core m (fst (update_ufo m dt g)).
Proof.
  unfold update_ufo, spawn_ufo, rand. cbv beta iota zeta.
  split_ifs; repeat split.
Qed.

Lemma update_ufo_enemies (m : GameModel) (dt : f64) (g : RandGen) :
  enemies (fst (update_ufo m dt g)) = enemies m /\
  direction_enemies (fst (update_ufo m dt g)) = direction_enemies m.
Proof.
  unfold update_ufo, spawn_ufo, rand. cbv beta iota zeta.
  split_ifs; split; reflexivity.
Qed.

Lemma set_enemies_core (es : list Entity.t) (m : GameModel) :
  same_core m (set_enemies es m).
Proof. repeat split. Qed.

Lemma enemies_turn_core (m : GameModel) : same_core m (enemies_turn m).
Proof. unfold enemies_turn. split_ifs; repeat split. Qed.

Lemma enemies_advance_core (m : GameModel) (dt : f64) :
  same_core m (enemies_advance m dt).
Proof. repeat split. Qed.

Lemma spawn_bullet_core (m : GameModel) (x y dy : f32) (t : EntityType) :
  same_core m (spawn_bullet m x y dy t).
Proof. repeat split. Qed.

Lemma enemy_fire_tries_core (k : nat) (m : GameModel) (g : RandGen) :
  same_core m (fst (enemy_fire_tries k m g)).
Proof.
  revert g. induction k as [ | k IH]; intros g.
  - apply same_core_refl.
  - cbn [enemy_fire_tries]. unfold rand. cbv beta iota zeta.
    destruct (enemy_at m _) as [e | ]; [ | apply IH].
    destruct (is_live e); [apply spawn_bullet_core | apply IH].
Qed.

Lemma enemies_fire_core (m : GameModel) (g : RandGen) :
  same_core m (fst (enemies_fire m g)).
Proof.
  unfold enemies_fire, rand. cbv beta iota zeta.
  destruct (_ <? _); [apply enemy_fire_tries_core | apply same_core_refl].
Qed.

Lemma update_bullet_frame (dt : f64) (m : GameModel) (i : nat) :
  bullets_frame m (update_bullet dt m i).
Proof.
  unfold update_bullet, bullets_frame.
  destruct (bullets m !! i) as [b | ]; [ | auto].
  destruct (negb (Entity.active b)); [auto | ].
  destruct (out_of_field _); [simpl; auto | ].
  destruct (hit_shields _ _); [simpl; auto | ].
  destruct (type_is _ _).
  - unfold player_bullet_hits.
    destruct (_ && _); [simpl; auto | ].
    destruct (hit_enemies _ _) as [[es pts] | ]; simpl; auto.
  - unfold enemy_bullet_hits.
    destruct (_ && _); [ | simpl; auto].
    destruct (_ <=? _); simpl; auto.
Qed.

Lemma fold_left_preserves {A B : Type} (P : A -> Prop) (f : A -> B -> A)
  (l : list B) (a : A) :
  (forall a b, P a -> P (f a b)) -> P a -> P (fold_left f l a).
Proof.
  intros Hf. revert a. induction l as [ | b l IH]; simpl; intros a Ha.
  - exact Ha.
  - apply IH, Hf, Ha.
Qed.

Lemma update_bullets_frame (m : GameModel) (dt : f64) :
  bullets_frame m (update_bullets m dt).
Proof.
  unfold update_bullets.
  apply (fold_left_preserves (bullets_frame m)).
  - intros a i (Hp & Hl & Hs).
    destruct (update_bullet_frame dt a i) as (Hp' & Hl' & Hs').
    repeat split; try congruence.
    destruct Hs' as [Hs' | Hs']; [rewrite Hs'; exact Hs | right; exact Hs'].
  - repeat split. left. reflexivity.
Qed.

(** The state a Playing step is in after the timers, the beat, the player,
    the flyer and the pass over the enemies. *)
Lemma playing_prefix_core (m : GameModel) (dt : f64) (g : RandGen) :
  same_core (update_player (update_timers m dt) dt) (fst (fst (playing_prefix m dt g))).
Proof.
  unfold playing_prefix.
  pose proof (update_ufo_core (update_player (update_beat (update_timers m dt) dt) dt)
                dt g) as Hufo.
  destruct (update_ufo _ dt g) as [m1 g1]. cbn [fst] in Hufo.
  destruct (scan_enemies _ _ _ _) as [es st]. cbn [fst].
  eapply same_core_trans; [ | apply set_enemies_core].
  eapply same_core_trans; [ | exact Hufo].
  unfold update_player.
  pose proof (update_beat_core (update_timers m dt) dt) as (Hs & Hp & Hsh & Hl & Hli & Hh).
  rewrite Hp. destruct (Entity.active _); repeat split; assumption.
Qed.

Lemma update_playing_player (m : GameModel) (dt : f64) (g : RandGen) :
  player (fst (update_playing m dt g))
  = player (update_player (update_timers m dt) dt) /\
  (state (fst (update_playing m dt g)) = state m \/
   state (fst (update_playing m dt g)) = STATE_GAME_OVER).
Proof.
  unfold update_playing.
  pose proof (playing_prefix_core m dt g) as Hpre.
  destruct (playing_prefix m dt g) as [[m1 g1] [n touch]]. cbn [fst] in Hpre.
  destruct Hpre as (Hs & Hp & _).
  assert (Hs1 : state m1 = state m).
  { rewrite Hs. unfold update_player, update_timers. split_ifs; reflexivity. }
  destruct (_ && _).
  - cbn [fst]. unfold level_up, init_enemies. split; [exact Hp | left; exact Hs1].
  - set (m2 := if touch then enemies_turn m1 else enemies_advance m1 dt).
    assert (H2 : same_core m1 m2).
    { subst m2. destruct touch; [apply enemies_turn_core | apply enemies_advance_core]. }
    pose proof (enemies_fire_core m2 g1) as H3.
    destruct (enemies_fire m2 g1) as [m3 g3]. cbn [fst] in H3 |- *.
    destruct (update_bullets_frame m3 dt) as (Hp4 & _ & Hs4).
    destruct H2 as (Hs2 & Hp2 & _), H3 as (Hs3 & Hp3 & _).
    split; [congruence | ].
    destruct Hs4 as [Hs4 | Hs4]; [left; congruence | right; exact Hs4].
Qed.

(** ** The player stays in the playfield *)

Lemma move_player_fields (p : Entity.t) (dt : f64) :
  Entity.x (move_player p dt) = player_x_step dt (Entity.dx p) (Entity.x p) /\
  Entity.dx (move_player p dt) = Entity.dx p /\
  Entity.active (move_player p dt) = Entity.active p.
Proof.
  unfold move_player, player_x_step. cbv zeta.
  cbn [Entity.x Entity.dx Entity.set_x].
  destruct (F32.ltb _ _); cbn [Entity.x Entity.dx Entity.set_x];
    destruct (F32.gtb _ _); repeat split.
Qed.

Lemma player_x_step_bounds (dt : f64) (dx x : f32) :
  F32.ltb (player_x_step dt dx x) (F32.of_Z 0) = false /\
  F32.gtb (player_x_step dt dx x) (F32.of_Z (GAME_WIDTH - PLAYER_WIDTH)) = false.
Proof.
  unfold player_x_step. cbv zeta.
  destruct (F32.ltb (f32_add_scaled x dx dt) (F32.of_Z 0)) eqn:Hlow.
  - split; reflexivity.
  - destruct (F32.gtb (f32_add_scaled x dx dt) _) eqn:Hhigh.
    + split; reflexivity.
    + split; assumption.
Qed.

Lemma player_x_step_nan (dt : f64) (dx x : f32) :
  F32.is_nan (f32_add_scaled x dx dt) = false ->
  F32.is_nan (player_x_step dt dx x) = false.
Proof.
  unfold player_x_step. cbv zeta. intros H.
  destruct (F32.ltb _ _); destruct (F32.gtb _ _); try reflexivity; exact H.
Qed.

Lemma update_timers_player (m : GameModel) (dt : f64) :
  Entity.x (player (update_timers m dt)) = Entity.x (player m) /\
  Entity.dx (player (update_timers m dt)) = Entity.dx (player m) /\
  Entity.active (player (update_timers m dt)) = Entity.active (player m) /\
  state (update_timers m dt) = state m.
Proof.
  unfold update_timers. split_ifs; repeat split.
Qed.

Lemma update_playing_player_x (m : GameModel) (dt : f64) (g : RandGen) :
  Entity.active (player m) = true ->
  Entity.x (player (fst (update_playing m dt g)))
  = player_x_step dt (Entity.dx (player m)) (Entity.x (player m)) /\
  Entity.dx (player (fst (update_playing m dt g))) = Entity.dx (player m) /\
  Entity.active (player (fst (update_playing m dt g))) = true.
Proof.
  intros Hact.
  destruct (update_playing_player m dt g) as (Hp & _). rewrite Hp.
  destruct (update_timers_player m dt) as (Hx & Hdx & Ha & _).
  unfold update_player. rewrite Ha, Hact.
  change (player (set_player ?p _)) with p.
  destruct (move_player_fields (player (update_timers m dt)) dt) as (Mx & Mdx & Ma).
  rewrite Mx, Mdx, Ma, Hx, Hdx, Ha. auto.
Qed.

(** A run that starts in Playing or Game Over never leaves these two
    states, never exits, and moves an active player once per step spent in
    Playing. *)
Lemma run_updates_player (dt : f64) (n : nat) :
  forall (m : GameModel) (g : RandGen),
    state m = STATE_PLAYING \/ state m = STATE_GAME_OVER ->
    Entity.active (player m) = true ->
    exists m' g' k,
      run_updates (replicate n dt) m g = Continue (m', g') /\
      (k <= n)%nat /\
      Entity.x (player m')
      = Nat.iter k (player_x_step dt (Entity.dx (player m))) (Entity.x (player m)) /\
      (state m' = STATE_PLAYING -> state m = STATE_PLAYING /\ k = n).
Proof.
  induction n as [ | n IH]; intros m g Hs Hact.
  - exists m, g, 0%nat. repeat split; auto.
  - cbn [replicate run_updates]. unfold model_update.
    destruct Hs as [Hs | Hs]; rewrite Hs.
    + destruct (update_playing_player_x m dt g Hact) as (Hx & Hdx & Ha).
      destruct (update_playing_player m dt g) as (_ & Hst).
      destruct (update_playing m dt g) as [m1 g1]. cbn [fst] in *.
      destruct (IH m1 g1) as (m' & g' & k & Hrun & Hk & Hxk & Hback).
      { rewrite Hs in Hst. destruct Hst; auto. }
      { exact Ha. }
      exists m', g', (S k). split; [exact Hrun | ].
      split; [lia | ]. split.
      * rewrite Hxk, Hdx, Hx. symmetry. apply Nat.iter_succ_r.
      * intros Hp. destruct (Hback Hp) as (_ & ->). auto.
    + destruct (IH (set_game_over_timer (f32_add_f64 (game_over_timer m) dt) m) g)
        as (m' & g' & k & Hrun & Hk & Hxk & Hback).
      { right. exact Hs. }
      { exact Hact. }
      exists m', g', k. split; [exact Hrun | ].
      split; [lia | ]. split; [exact Hxk | ].
      intros Hp. destruct (Hback Hp) as (Hp' & _).
      cbn in Hp'. congruence.
Qed.

Lemma run_right_table :
  forallb
    (fun k =>
       F32.leb (Nat.iter k (player_x_step FIXED_DT PLAYER_SPEED) (F32.of_Z 47))
         (F32.of_Z 95))
    (seq 0 121) = true /\
  Nat.iter 120 (player_x_step FIXED_DT PLAYER_SPEED) (F32.of_Z 47) = F32.of_Z 95.
Proof.
  split; vm_compute; reflexivity.
Qed.

(** C7: a Playing step with an active player sets its horizontal position
    to the integrated value [x + dx * dt] clamped to
    [0, GAME_WIDTH - PLAYER_WIDTH] = [0, 95]: it is neither below 0 nor
    above 95, and lies in [0, 95] whenever the integrated value is a number.
    A player at x = 47 moving right at speed 40 is never right of 95 during
    120 steps of 1/60 s, and is exactly at 95 after the 120 steps of a game
    still in play. *)
Theorem player_clamped_to_playfield :
  (forall (m : GameModel) (dt : f64) (g : RandGen),
     state m = STATE_PLAYING ->
     Entity.active (player m) = true ->
     exists m' g',
       model_update m dt g = Continue (m', g') /\
       let x1 := f32_add_scaled (Entity.x (player m)) (Entity.dx (player m)) dt in
       let hi := F32.of_Z (GAME_WIDTH - PLAYER_WIDTH) in
       Entity.x (player m')
       = (if F32.ltb x1 (F32.of_Z 0) then F32.of_Z 0
          else if F32.gtb x1 hi then hi else x1) /\
       F32.ltb (Entity.x (player m')) (F32.of_Z 0) = false /\
       F32.gtb (Entity.x (player m')) hi = false /\
       (F32.is_nan x1 = false ->
        F32.leb (F32.of_Z 0) (Entity.x (player m')) = true /\
        F32.leb (Entity.x (player m')) hi = true)) /\
  (forall (m : GameModel) (g : RandGen) (n : nat),
     state m = STATE_PLAYING ->
     Entity.active (player m) = true ->
     Entity.x (player m) = F32.of_Z 47 ->
     Entity.dx (player m) = PLAYER_SPEED ->
     (n <= 120)%nat ->
     exists m' g',
       run_updates (replicate n FIXED_DT) m g = Continue (m', g') /\
       F32.leb (Entity.x (player m')) (F32.of_Z 95) = true /\
       (n = 120%nat -> state m' = STATE_PLAYING ->
        Entity.x (player m') = F32.of_Z 95)).
Proof.
  split.
  - intros m dt g Hs Hact.
    unfold model_update. rewrite Hs.
    destruct (update_playing_player_x m dt g Hact) as (Hx & _).
    destruct (update_playing m dt g) as [m' g']. cbn [fst] in Hx.
    exists m', g'. split; [reflexivity | ]. cbv zeta.
    destruct (player_x_step_bounds dt (Entity.dx (player m)) (Entity.x (player m)))
      as (Hlo & Hhi).
    rewrite Hx.
    split.
    { unfold player_x_step. cbv zeta.
      destruct (F32.ltb (f32_add_scaled _ _ _) _) eqn:E; [ | reflexivity].
      reflexivity. }
    split; [exact Hlo | ]. split; [exact Hhi | ].
    intros Hnan.
    pose proof (player_x_step_nan dt _ _ Hnan) as Hnan'.
    split.
    + apply F32_not_ltb_leb; [ | exact Hlo].
      apply SFcompare_nan_free; [exact Hnan' | reflexivity].
    + apply F32_not_ltb_leb; [ | exact Hhi].
      apply SFcompare_nan_free; [reflexivity | exact Hnan'].
  - intros m g n Hs Hact Hx Hdx Hn.
    destruct (run_updates_player FIXED_DT n m g (or_introl Hs) Hact)
      as (m' & g' & k & Hrun & Hk & Hxk & Hback).
    exists m', g'. split; [exact Hrun | ].
    rewrite Hx, Hdx in Hxk.
    destruct run_right_table as (Htable & Hend).
    split.
    + rewrite Hxk.
      apply (proj1 (forallb_forall _ _) Htable k).
      apply in_seq. lia.
    + intros -> Hp. destruct (Hback Hp) as (_ & ->).
      rewrite Hxk. exact Hend.
Qed.

Lemma player_clamped_to_playfield_witness :
  exists m' g',
    run_updates (replicate 120 FIXED_DT) run_right_model (fun _ => 1)
    = Continue (m', g') /\
    F32.leb (Entity.x (player m')) (F32.of_Z 95) = true.
Proof.
  destruct (proj2 player_clamped_to_playfield run_right_model (fun _ => 1) 120%nat
              eq_refl eq_refl eq_refl eq_refl (le_n 120))
    as (m' & g' & Hrun & Hle & _).
  exists m', g'. split; assumption.
Defined.

(** ** Barriers *)

Lemma shield_decays_refl (s : Shield.t) : shield_decays s s.
Proof. unfold shield_decays. repeat split; auto; lia. Qed.

Lemma shield_decays_trans (s1 s2 s3 : Shield.t) :
  shield_decays s1 s2 -> shield_decays s2 s3 -> shield_decays s1 s3.
Proof.
  unfold shield_decays. intros (?&?&?&?&?&?) (?&?&?&?&?&?).
  repeat split; try congruence; auto; lia.
Qed.

Lemma damage_shield_spec (s : Shield.t) :
  shield_ok s -> Shield.active s = true ->
  Shield.health (damage_shield s) = Shield.health s - 1 /\
  shield_ok (damage_shield s) /\
  shield_decays s (damage_shield s) /\
  Shield.active (damage_shield s) = (0 <? Shield.health s - 1).
Proof.
  unfold shield_ok, SHIELD_MAX_HEALTH. intros (Hr & Hpos) Ha.
  specialize (Hpos Ha).
  unfold damage_shield. cbv zeta. cbn [Shield.health Shield.set_health].
  rewrite wrap_int_id by (unfold is_int, INT_MIN, INT_MAX; lia).
  unfold shield_decays.
  destruct (Z.leb_spec (Shield.health s - 1) 0);
    cbn [Shield.health Shield.active Shield.set_health Shield.set_active
         Shield.x Shield.y Shield.width Shield.height];
    (split; [reflexivity | ]); (split; [split; [lia | ] | ]);
    try (intros; try discriminate; lia);
    (split; [repeat split; auto; lia | ]).
  - symmetry. apply Z.ltb_ge. lia.
  - rewrite Ha. symmetry. apply Z.ltb_lt. lia.
Qed.

(** The bullet's owner plays no part in the test against the barriers. *)
Lemma hit_shields_any_owner (t : EntityType) (b : Entity.t) (shs : list Shield.t) :
  hit_shields (Entity.set_type t b) shs = hit_shields b shs.
Proof.
  induction shs as [ | s rest IH]; [reflexivity | ].
  cbn [hit_shields]. rewrite IH. reflexivity.
Qed.

(** A hit damages exactly one barrier: the first active one overlapped. *)
Lemma hit_shields_some (b : Entity.t) (shs shs' : list Shield.t) :
  hit_shields b shs = Some shs' ->
  exists (j : nat) (s : Shield.t),
    shs !! j = Some s /\
    Shield.active s = true /\ overlaps_shield b s = true /\
    shs' = <[j := damage_shield s]> shs /\
    (forall i s0, (i < j)%nat -> shs !! i = Some s0 ->
                  Shield.active s0 && overlaps_shield b s0 = false).
Proof.
  revert shs'. induction shs as [ | s rest IH]; intros shs' H; [discriminate | ].
  cbn [hit_shields] in H.
  destruct (Shield.active s && overlaps_shield b s) eqn:E.
  - injection H as <-. apply andb_true_iff in E. destruct E as (Ea & Eo).
    exists 0%nat, s. repeat split; auto. intros i s0 Hi. lia.
  - destruct (hit_shields b rest) as [rest' | ]; [ | discriminate].
    injection H as <-.
    destruct (IH rest' eq_refl) as (j & s1 & Hj & Ha & Ho & -> & Hfirst).
    exists (S j), s1. repeat split; auto.
    intros [ | i] s0 Hi Hs0.
    + injection Hs0 as <-. exact E.
    + apply (Hfirst i); [lia | exact Hs0].
Qed.

Lemma shields_evolve_refl (shs : list Shield.t) : shields_evolve shs shs.
Proof.
  split; [ | auto].
  induction shs; constructor; auto using shield_decays_refl.
Qed.

Lemma Forall2_shield_decays_trans (l1 l2 l3 : list Shield.t) :
  Forall2 shield_decays l1 l2 -> Forall2 shield_decays l2 l3 ->
  Forall2 shield_decays l1 l3.
Proof.
  intros H12. revert l3. induction H12 as [ | a b l1 l2 Hab _ IH]; intros l3 H23.
  - inversion H23. constructor.
  - inversion H23 as [ | b' c l2' l3' Hbc Hrest]; subst.
    constructor; [eapply shield_decays_trans; eassumption | apply IH, Hrest].
Qed.

Lemma shields_evolve_trans (l1 l2 l3 : list Shield.t) :
  shields_evolve l1 l2 -> shields_evolve l2 l3 -> shields_evolve l1 l3.
Proof.
  intros (H12 & O12) (H23 & O23). split; [ | auto].
  eapply Forall2_shield_decays_trans; eassumption.
Qed.

Lemma hit_shields_evolve (b : Entity.t) (shs shs' : list Shield.t) :
  hit_shields b shs = Some shs' -> Forall shield_ok shs -> 
  Forall2 shield_decays shs shs' /\ Forall shield_ok shs'.
Proof.
  revert shs'. induction shs as [ | s rest IH]; intros shs' H Hok; [discriminate | ].
  cbn [hit_shields] in H. inversion Hok as [ | s0 r0 Hs Hrest]; subst.
  destruct (Shield.active s && overlaps_shield b s) eqn:E.
  - injection H as <-. apply andb_true_iff in E. destruct E as (Ea & _).
    destruct (damage_shield_spec s Hs Ea) as (_ & Hok' & Hdec & _).
    split; constructor; auto.
    destruct (shields_evolve_refl rest) as (Hr & _). exact Hr.
  - destruct (hit_shields b rest) as [rest' | ]; [ | discriminate].
    injection H as <-.
    destruct (IH rest' eq_refl Hrest) as (Hd & Ho).
    split; constructor; auto using shield_decays_refl.
Qed.

(** The barriers as the body of the bullet loop leaves them.  This is
    stated for barriers that satisfy [shield_ok]. *)
Lemma update_bullet_shields (dt : f64) (m : GameModel) (i : nat) :
  Forall shield_ok (shields m) ->
  Forall2 shield_decays (shields m) (shields (update_bullet dt m i)) /\
  Forall shield_ok (shields (update_bullet dt m i)).
Proof.
  intros Hok.
  assert (Hsame : Forall2 shield_decays (shields m) (shields m) /\
                  Forall shield_ok (shields m)).
  { split; [apply shields_evolve_refl | exact Hok]. }
  unfold update_bullet.
  destruct (bullets m !! i) as [b | ]; [ | exact Hsame].
  destruct (negb (Entity.active b)); [exact Hsame | ].
  destruct (out_of_field _); [exact Hsame | ].
  destruct (hit_shields _ _) as [shs | ] eqn:Hhit.
  - cbn [shields set_shields]. eapply hit_shields_evolve; eassumption.
  - destruct (type_is _ _).
    + unfold player_bullet_hits.
      destruct (_ && _); [exact Hsame | ].
      destruct (hit_enemies _ _) as [[es pts] | ]; exact Hsame.
    + unfold enemy_bullet_hits.
      destruct (_ && _); [ | exact Hsame].
      destruct (_ <=? _); exact Hsame.
Qed.

Lemma update_bullets_shields (m : GameModel) (dt : f64) :
  Forall shield_ok (shields m) ->
  Forall2 shield_decays (shields m) (shields (update_bullets m dt)) /\
  Forall shield_ok (shields (update_bullets m dt)).
Proof.
  intros Hok. unfold update_bullets.
  apply (fold_left_preserves
           (fun a => Forall2 shield_decays (shields m) (shields a) /\
                     Forall shield_ok (shields a))).
  - intros a i (Hd & Ho).
    destruct (update_bullet_shields dt a i Ho) as (Hd' & Ho').
    split; [ | exact Ho'].
    eapply Forall2_shield_decays_trans; eassumption.
  - split; [apply shields_evolve_refl | exact Hok].
Qed.

Lemma update_timers_shields (m : GameModel) (dt : f64) :
  shields (update_timers m dt) = shields m.
Proof. unfold update_timers. split_ifs; reflexivity. Qed.

Lemma update_player_shields (m : GameModel) (dt : f64) :
  shields (update_player m dt) = shields m.
Proof. unfold update_player. split_ifs; reflexivity. Qed.

Lemma update_playing_shields (m : GameModel) (dt : f64) (g : RandGen) :
  Forall shield_ok (shields m) ->
  Forall2 shield_decays (shields m) (shields (fst (update_playing m dt g))) /\
  Forall shield_ok (shields (fst (update_playing m dt g))).
Proof.
  intros Hok. unfold update_playing.
  pose proof (playing_prefix_core m dt g) as Hpre.
  destruct (playing_prefix m dt g) as [[m1 g1] [n touch]]. cbn [fst] in Hpre.
  destruct Hpre as (_ & _ & Hsh & _).
  rewrite update_player_shields, update_timers_shields in Hsh.
  destruct (_ && _).
  - cbn [fst]. change (shields (level_up m1)) with (shields m1). rewrite Hsh.
    split; [apply shields_evolve_refl | exact Hok].
  - set (m2 := if touch then enemies_turn m1 else enemies_advance m1 dt).
    assert (H2 : same_core m1 m2).
    { subst m2. destruct touch; [apply enemies_turn_core | apply enemies_advance_core]. }
    pose proof (enemies_fire_core m2 g1) as H3.
    destruct (enemies_fire m2 g1) as [m3 g3]. cbn [fst] in H3 |- *.
    destruct H2 as (_ & _ & Hsh2 & _), H3 as (_ & _ & Hsh3 & _).
    assert (E : shields m3 = shields m) by congruence.
    rewrite <- E. apply update_bullets_shields. rewrite E. exact Hok.
Qed.

Lemma model_update_shields (m : GameModel) (dt : f64) (g : RandGen)
  (m' : GameModel) (g' : RandGen) :
  model_update m dt g = Continue (m', g') ->
  Forall shield_ok (shields m) ->
  Forall2 shield_decays (shields m) (shields m') /\ Forall shield_ok (shields m').
Proof.
  unfold model_update. intros H Hok.
  assert (Hsame : Forall2 shield_decays (shields m) (shields m) /\
                  Forall shield_ok (shields m)).
  { split; [apply shields_evolve_refl | exact Hok]. }
  destruct (state m); try (injection H as <- <-; exact Hsame).
  - injection H as H.
    replace m' with (fst (update_playing m dt g)) by (rewrite H; reflexivity).
    apply update_playing_shields, Hok.
  - destruct (F32.leb _ _); [discriminate | ].
    injection H as <- <-. exact Hsame.
Qed.

Lemma run_updates_shields (dts : list f64) :
  forall (m : GameModel) (g : RandGen) (m' : GameModel) (g' : RandGen),
    run_updates dts m g = Continue (m', g') ->
    Forall shield_ok (shields m) ->
    Forall2 shield_decays (shields m) (shields m') /\ Forall shield_ok (shields m').
Proof.
  induction dts as [ | dt rest IH]; intros m g m' g' H Hok.
  - injection H as <- <-. split; [apply shields_evolve_refl | exact Hok].
  - cbn [run_updates] in H.
    destruct (model_update m dt g) as [[m1 g1] | | ] eqn:E; try discriminate.
    destruct (model_update_shields m dt g m1 g1 E Hok) as (Hd1 & Ho1).
    destruct (IH m1 g1 m' g' H Ho1) as (Hd2 & Ho2).
    split; [ | exact Ho2].
    eapply Forall2_shield_decays_trans; eassumption.
Qed.

Lemma init_shields_ok : Forall shield_ok (shields model_init).
Proof.
  repeat constructor; cbn; unfold SHIELD_MAX_HEALTH; lia.
Qed.

(** ** Level transition *)

Lemma init_enemies_grid_formation (es : list Entity.t) :
  length es = Z.to_nat MAX_ENEMIES ->
  init_enemies_grid es = formation ++ drop 55 es.
Proof.
  intros Hlen.
  do 60 (destruct es as [ | ? es]; [discriminate Hlen | ]).
  destruct es; [ | discriminate Hlen].
  vm_compute. reflexivity.
Qed.

Lemma formation_lookup (row col : Z) :
  0 <= row < 5 -> 0 <= col < 11 ->
  formation !! Z.to_nat (row * 11 + col) = Some (formation_enemy row col).
Proof.
  intros Hr Hc. unfold formation, Z_range.
  rewrite !list_lookup_fmap.
  rewrite lookup_seq_lt by lia. cbn [fmap option_fmap option_map].
  rewrite Nat.add_0_l, Z2Nat.id by lia.
  replace ((row * 11 + col) / 11) with row
    by (apply Z.div_unique with (r := col); lia).
  replace ((row * 11 + col) mod 11) with col
    by (apply Z.mod_unique with (q := row); lia).
  reflexivity.
Qed.

Lemma formation_all_live :
  length formation = 55%nat /\
  length (List.filter Entity.active formation) = 55%nat /\
  length (List.filter is_live formation) = 55%nat.
Proof.
  repeat split; vm_compute; reflexivity.
Qed.

Lemma filter_none {A : Type} (f : A -> bool) (l : list A) :
  Forall (fun a => f a = false) l -> List.filter f l = [].
Proof.
  induction 1 as [ | a l Ha _ IH]; [reflexivity | ].
  cbn [List.filter]. rewrite Ha. exact IH.
Qed.

Lemma scan_enemy_cases (dir : Z) (dt : f64) (e : Entity.t) (n : Z) (t : bool) :
  exists t',
    scan_enemy dir dt e (n, t)
    = (scan_elem dir dt e, (n + (if is_live e then 1 else 0), t')) /\
    is_live (scan_elem dir dt e) = is_live e /\
    (Entity.active e = false -> scan_elem dir dt e = e).
Proof.
  unfold scan_elem, scan_enemy, is_live.
  destruct (Entity.active e) eqn:Ha; cbn [negb andb fst].
  - destruct (Entity.exploding e) eqn:He; cbn [negb fst].
    + exists t. rewrite Z.add_0_r. split; [reflexivity | ].
      split; [ | discriminate].
      destruct (F32.leb _ _); cbn; rewrite ?He, ?andb_false_r; reflexivity.
    + eexists. split; [reflexivity | ]. rewrite Ha, He. auto.
  - exists t. rewrite Z.add_0_r, Ha. auto.
Qed.

Lemma scan_enemies_spec (dir : Z) (dt : f64) (es : list Entity.t) :
  forall (n : Z) (t : bool),
  exists t',
    scan_enemies dir dt es (n, t)
    = (map (scan_elem dir dt) es,
       (n + Z.of_nat (length (List.filter is_live es)), t')).
Proof.
  induction es as [ | e rest IH]; intros n t.
  - exists t. cbn. rewrite Z.add_0_r. reflexivity.
  - cbn [scan_enemies].
    destruct (scan_enemy_cases dir dt e n t) as (t1 & -> & _ & _).
    destruct (IH (n + (if is_live e then 1 else 0)) t1) as (t2 & ->).
    exists t2. cbn [map List.filter].
    replace (n + (if is_live e then 1 else 0)
             + Z.of_nat (length (List.filter is_live rest)))
      with (n + Z.of_nat (length (if is_live e
                                  then e :: List.filter is_live rest
                                  else List.filter is_live rest)))
      by (destruct (is_live e); cbn [length]; lia).
    reflexivity.
Qed.

Lemma scan_elem_inactive_tail (dir : Z) (dt : f64) (es : list Entity.t) :
  Forall (fun e => Entity.active e = false) es ->
  map (scan_elem dir dt) es = es.
Proof.
  induction 1 as [ | e rest He _ IH]; [reflexivity | ].
  cbn [map]. rewrite IH.
  destruct (scan_enemy_cases dir dt e 0 false) as (_ & _ & _ & Hsame).
  rewrite (Hsame He). reflexivity.
Qed.

Lemma early_phases_enemies (m : GameModel) (dt : f64) :
  enemies (update_player (update_beat (update_timers m dt) dt) dt) = enemies m /\
  level (update_player (update_timers m dt) dt) = level m.
Proof.
  unfold update_player, update_beat, update_timers. split_ifs; split; reflexivity.
Qed.

(** The result of the first half of a Playing step: the enemies are those
    of the start of the step after the pass over them, and the counter is
    the number of live enemies at the start of the step. *)
Lemma playing_prefix_enemies (m : GameModel) (dt : f64) (g : RandGen) :
  exists dir,
    enemies (fst (fst (playing_prefix m dt g))) = map (scan_elem dir dt) (enemies m) /\
    fst (snd (playing_prefix m dt g))
    = Z.of_nat (length (List.filter is_live (enemies m))).
Proof.
  unfold playing_prefix.
  destruct (update_ufo_enemies
              (update_player (update_beat (update_timers m dt) dt) dt) dt g)
    as (He & _).
  destruct (update_ufo _ dt g) as [m1 g1]. cbn [fst] in He.
  destruct (early_phases_enemies m dt) as (He0 & _).
  rewrite He, He0.
  destruct (scan_enemies_spec (direction_enemies m1) dt (enemies m) 0 false)
    as (t' & ->).
  exists (direction_enemies m1). cbn. auto.
Qed.

Lemma wrap_int_succ_neq (z : Z) : wrap_int (z + 1) <> z.
Proof.
  unfold wrap_int. intros H.
  pose proof (Z.mod_pos_bound (z + 1 + 2 ^ 31) (2 ^ 32) ltac:(lia)) as Hb.
  pose proof (Z.div_mod (z + 1 + 2 ^ 31) (2 ^ 32) ltac:(lia)) as Hd.
  lia.
Qed.

Lemma update_playing_level (m : GameModel) (dt : f64) (g : RandGen) :
  let pre := playing_prefix m dt g in
  let cleared :=
    (fst (snd pre) =? 0) && negb (Ufo.active (ufo (fst (fst pre)))) in
  (cleared = true ->
   fst (update_playing m dt g) = level_up (fst (fst pre))) /\
  (cleared = false -> level (fst (update_playing m dt g)) = level m) /\
  level (fst (fst pre)) = level m.
Proof.
  cbv zeta. unfold update_playing.
  pose proof (playing_prefix_core m dt g) as Hpre.
  destruct (playing_prefix m dt g) as [[m1 g1] [n touch]]. cbn [fst snd] in *.
  destruct Hpre as (_ & _ & _ & Hl & _).
  destruct (early_phases_enemies m dt) as (_ & Hl0). rewrite Hl0 in Hl.
  destruct (_ && _).
  - repeat split; auto. discriminate.
  - split; [discriminate | ]. split; [ | exact Hl]. intros _.
    set (m2 := if touch then enemies_turn m1 else enemies_advance m1 dt).
    assert (H2 : same_core m1 m2).
    { subst m2. destruct touch; [apply enemies_turn_core | apply enemies_advance_core]. }
    pose proof (enemies_fire_core m2 g1) as H3.
    destruct (enemies_fire m2 g1) as [m3 g3]. cbn [fst] in H3 |- *.
    destruct (update_bullets_frame m3 dt) as (_ & Hl4 & _).
    destruct H2 as (_ & _ & _ & Hl2 & _), H3 as (_ & _ & _ & Hl3 & _).
    congruence.
Qed.

Lemma early_phases_flyer (m : GameModel) (dt : f64) :
  ufo (update_player (update_beat (update_timers m dt) dt) dt) = ufo m /\
  enemies (update_player (update_beat (update_timers m dt) dt) dt) = enemies m.
Proof.
  unfold update_player, update_beat, update_timers. split_ifs; split; reflexivity.
Qed.

Lemma update_ufo_active (m : GameModel) (dt : f64) (g : RandGen) :
  Ufo.active (ufo (fst (update_ufo m dt g))) = negb (flyer_gone m dt g).
Proof.
  unfold update_ufo, flyer_gone, spawn_ufo, rand, set_ufo_loop.
  cbv beta iota zeta.
  change (F32.of_Z GAME_WIDTH) with (F32.of_Z 100).
  change (F32.of_Z (- UFO_WIDTH)) with (F32.of_Z (-4)).
  cbn [ufo enemies set_sounds set_ufo fst
       Ufo.active Ufo.exploding Ufo.explode_timer Ufo.x Ufo.dx
       Ufo.hasSpawnedThisLevel Ufo.set_explode_timer Ufo.set_x].
  destruct (Ufo.active (ufo m)) eqn:Ha.
  - destruct (Ufo.exploding (ufo m)) eqn:He.
    + destruct (F32.leb _ _); cbn; [reflexivity | exact Ha].
    + destruct (_ || _); cbn; [reflexivity | exact Ha].
  - destruct (negb (Ufo.hasSpawnedThisLevel (ufo m))); cbn [andb negb fst ufo];
      [ | exact Ha].
    destruct (existsb Entity.active (enemies m)); cbn [andb negb fst ufo];
      [ | exact Ha].
    destruct (Z.rem (g 0%nat) 500 =? 0); cbn [negb fst ufo]; [ | exact Ha].
    destruct (Z.rem _ 2 =? 0); reflexivity.
Qed.

Lemma playing_prefix_flyer (m : GameModel) (dt : f64) (g : RandGen) :
  Ufo.active (ufo (fst (fst (playing_prefix m dt g)))) = negb (flyer_gone m dt g).
Proof.
  unfold playing_prefix.
  pose proof (update_ufo_active
                (update_player (update_beat (update_timers m dt) dt) dt) dt g) as H.
  destruct (early_phases_flyer m dt) as (Hu & He).
  unfold flyer_gone in H. rewrite Hu, He in H. fold (flyer_gone m dt g) in H.
  destruct (update_ufo _ dt g) as [m1 g1]. cbn [fst] in H.
  destruct (scan_enemies _ _ _ _) as [es st]. cbn [fst]. exact H.
Qed.

(** The fields of the enemy written at row [row] and column [col]. *)
Lemma formation_enemy_fields (row col : Z) :
  0 <= row < 5 -> 0 <= col < 11 ->
  formation_enemy row col
  = Entity.Build (F32.of_Z (5 + col * 6)) (F32.of_Z (7 + row * 5)) 4 3
      (F32.of_Z 0) (F32.of_Z 0) true
      (if row =? 0 then ENTITY_ENEMY_TYPE_3
       else if row <? 3 then ENTITY_ENEMY_TYPE_2
       else ENTITY_ENEMY_TYPE_1)
      (F32.of_Z 0) (F32.of_Z 0) 0 false (F32.of_Z 0).
Proof.
  intros Hr Hc. unfold formation_enemy, enemy_type_of_row, zero_entity.
  change (ENEMY_HEIGHT + 2) with 5. change (ENEMY_WIDTH + 2) with 6.
  rewrite (wrap_int_id (row * 5)) by (unfold is_int, INT_MIN, INT_MAX; lia).
  rewrite (wrap_int_id (col * 6)) by (unfold is_int, INT_MIN, INT_MAX; lia).
  rewrite (wrap_int_id (7 + row * 5)) by (unfold is_int, INT_MIN, INT_MAX; lia).
  rewrite (wrap_int_id (5 + col * 6)) by (unfold is_int, INT_MIN, INT_MAX; lia).
  reflexivity.
Qed.

(** No two enemies of the formation touch. *)
Lemma formation_apart (i j : nat) (e1 e2 : Entity.t) :
  i <> j -> formation !! i = Some e1 -> formation !! j = Some e2 ->
  check_collision e1 e2 = false.
Proof.
  intros Hij H1 H2.
  assert (Hall :
    forallb (fun i =>
      forallb (fun j =>
        (i =? j)%nat ||
        match formation !! i, formation !! j with
        | Some a, Some b => negb (check_collision a b)
        | _, _ => true
        end) (seq 0 55)) (seq 0 55) = true) by (vm_compute; reflexivity).
  assert (Hi : (i < 55)%nat).
  { apply lookup_lt_Some in H1. destruct formation_all_live as (Hl & _).
    rewrite Hl in H1. exact H1. }
  assert (Hj : (j < 55)%nat).
  { apply lookup_lt_Some in H2. destruct formation_all_live as (Hl & _).
    rewrite Hl in H2. exact H2. }
  rewrite forallb_forall in Hall.
  specialize (Hall i ltac:(apply in_seq; lia)).
  rewrite forallb_forall in Hall.
  specialize (Hall j ltac:(apply in_seq; lia)).
  rewrite H1, H2 in Hall.
  destruct (Nat.eqb_spec i j) as [E | _]; [contradiction | ].
  cbn [orb] in Hall. apply negb_true_iff in Hall. exact Hall.
Qed.

Lemma keeps_free_refl (es : list Entity.t) : keeps_free es es.
Proof. induction es; constructor; auto. Qed.

Lemma keeps_free_trans (l1 l2 l3 : list Entity.t) :
  keeps_free l1 l2 -> keeps_free l2 l3 -> keeps_free l1 l3.
Proof.
  intros H12. revert l3. induction H12 as [ | a b l1 l2 Hab _ IH]; intros l3 H23.
  - inversion H23. constructor.
  - inversion H23 as [ | b' c l2' l3' Hbc Hrest]; subst.
    constructor; [auto | apply IH, Hrest].
Qed.

Lemma keeps_free_map (f : Entity.t -> Entity.t) (es : list Entity.t) :
  (forall e, Entity.active e = false -> Entity.active (f e) = false) ->
  keeps_free es (map f es).
Proof.
  intros Hf. induction es; constructor; auto.
Qed.

Lemma keeps_free_tail (es es' : list Entity.t) :
  keeps_free es es' -> tail_free es -> tail_free es'.
Proof.
  unfold tail_free, keeps_free. intros H.
  generalize 55%nat. induction H as [ | a b l1 l2 Hab _ IH]; intros n Hfree.
  - rewrite drop_nil. constructor.
  - destruct n as [ | n].
    + rewrite drop_0 in *. inversion Hfree; subst. constructor; [auto | ].
      apply (IH 0%nat). rewrite drop_0. assumption.
    + cbn [drop] in *. apply IH, Hfree.
Qed.

Lemma hit_enemies_keeps_free (b : Entity.t) (es es' : list Entity.t) (pts : Z) :
  hit_enemies b es = Some (es', pts) -> keeps_free es es'.
Proof.
  revert es' pts.
  induction es as [ | e rest IH]; intros es' pts H; cbn [hit_enemies] in H;
    [discriminate | ].
  destruct (is_live e && check_collision b e).
  - injection H as <- _. constructor; [auto | apply keeps_free_refl].
  - destruct (hit_enemies b rest) as [[rest' p] | ]; [ | discriminate].
    injection H as <- _. constructor; [auto | apply (IH rest' p eq_refl)].
Qed.

Lemma update_bullet_keeps_free (dt : f64) (m : GameModel) (i : nat) :
  keeps_free (enemies m) (enemies (update_bullet dt m i)).
Proof.
  unfold update_bullet.
  destruct (bullets m !! i) as [b | ]; [ | apply keeps_free_refl].
  destruct (negb (Entity.active b)); [apply keeps_free_refl | ].
  destruct (out_of_field _); [apply keeps_free_refl | ].
  destruct (hit_shields _ _); [apply keeps_free_refl | ].
  destruct (type_is _ _).
  - unfold player_bullet_hits.
    destruct (_ && _); [apply keeps_free_refl | ].
    destruct (hit_enemies _ _) as [[es pts] | ] eqn:E; [ | apply keeps_free_refl].
    cbn [enemies request_killed_sound set_sounds set_score set_enemies].
    apply (hit_enemies_keeps_free _ _ _ _ E).
  - unfold enemy_bullet_hits.
    destruct (_ && _); [ | apply keeps_free_refl].
    destruct (_ <=? _); apply keeps_free_refl.
Qed.

Lemma update_bullets_keeps_free (m : GameModel) (dt : f64) :
  keeps_free (enemies m) (enemies (update_bullets m dt)).
Proof.
  unfold update_bullets.
  apply (fold_left_preserves (fun a => keeps_free (enemies m) (enemies a))).
  - intros a i H. eapply keeps_free_trans; [exact H | ].
    apply update_bullet_keeps_free.
  - apply keeps_free_refl.
Qed.

Lemma enemies_fire_enemies (m : GameModel) (g : RandGen) :
  enemies (fst (enemies_fire m g)) = enemies m.
Proof.
  unfold enemies_fire, rand. cbv beta iota zeta.
  destruct (_ <? _); [ | reflexivity].
  generalize (fun n : nat => g (S n)). generalize 10%nat.
  intros k. induction k as [ | k IH]; intros g0; [reflexivity | ].
  cbn [enemy_fire_tries]. unfold rand. cbv beta iota zeta.
  destruct (enemy_at m _) as [e | ]; [ | apply IH].
  destruct (is_live e); [reflexivity | apply IH].
Qed.

Lemma enemies_move_keeps_free (touch : bool) (m : GameModel) (dt : f64) :
  keeps_free (enemies m)
    (enemies (if touch then enemies_turn m else enemies_advance m dt)).
Proof.
  destruct touch.
  - unfold enemies_turn. cbv zeta.
    cbn [enemies set_enemies].
    match goal with
    | |- keeps_free _ (map _ (enemies ?x)) =>
        replace (enemies x) with (enemies m) by (split_ifs; reflexivity)
    end.
    apply keeps_free_map. intros e He. unfold is_live. rewrite He. exact He.
  - unfold enemies_advance. cbv zeta. cbn [enemies set_enemies].
    apply keeps_free_map. intros e He. unfold is_live. rewrite He. exact He.
Qed.

(** A Playing step activates no slot after the 55th. *)
Lemma update_playing_tail_free (m : GameModel) (dt : f64) (g : RandGen) :
  length (enemies m) = Z.to_nat MAX_ENEMIES ->
  tail_free (enemies m) ->
  tail_free (enemies (fst (update_playing m dt g))).
Proof.
  intros Hlen Hfree. unfold update_playing.
  destruct (playing_prefix_enemies m dt g) as (dir & Hes & _).
  destruct (playing_prefix m dt g) as [[m1 g1] [n touch]]. cbn [fst snd] in *.
  assert (H1 : tail_free (enemies m1)).
  { rewrite Hes. apply (keeps_free_tail (enemies m)); [ | exact Hfree].
    apply keeps_free_map. intros e He.
    destruct (scan_enemy_cases dir dt e 0 false) as (_ & _ & _ & Hsame).
    rewrite (Hsame He). exact He. }
  destruct (_ && _).
  - cbn [fst].
    change (enemies (level_up m1)) with (init_enemies_grid (enemies m1)).
    rewrite init_enemies_grid_formation
      by (rewrite Hes, length_map; exact Hlen).
    unfold tail_free.
    rewrite drop_app_length' by (apply formation_all_live). exact H1.
  - pose proof (enemies_move_keeps_free touch m1 dt) as H2.
    set (m2 := if touch then enemies_turn m1 else enemies_advance m1 dt) in *.
    pose proof (enemies_fire_enemies m2 g1) as H3.
    destruct (enemies_fire m2 g1) as [m3 g3]. cbn [fst] in *.
    apply (keeps_free_tail (enemies m3)); [apply update_bullets_keeps_free | ].
    rewrite H3. apply (keeps_free_tail (enemies m1)); assumption.
Qed.

(** C4: in a Playing step, let [n] be the number of active, non-exploding
    enemies at the start of the step, and let the flyer be taken after its
    own phase of the same step, as [flyer_gone] reads it off the state at
    the start.  The level changes if and only if [n = 0] and the flyer is
    then inactive; it goes up by exactly 1 (for a level below [INT_MAX])
    and the level-up sound is requested.  The first 55 slots then hold the
    formation of 5 rows of 11 columns: slot [row * 11 + col] is a fresh
    active enemy of size 4 by 3 at [x = 5 + 6 col], [y = 7 + 5 row], of type
    3 in row 0, type 2 in rows 1 and 2 and type 1 in rows 3 and 4, type 3
    being worth the most points (30, against 20 and 10); no two of them
    touch, and the 55 of them are active.  The slots after the 55th are
    never activated by a step: they are free in a game started by
    [model_init], and the whole array then holds exactly 55 active enemies
    after the transition. *)
Theorem level_transition_iff_cleared (m : GameModel) (dt : f64) (g : RandGen) :
  state m = STATE_PLAYING ->
  length (enemies m) = Z.to_nat MAX_ENEMIES ->
  exists m' g',
    model_update m dt g = Continue (m', g') /\
    let n := Z.of_nat (length (List.filter is_live (enemies m))) in
    (level m' <> level m <-> n = 0 /\ flyer_gone m dt g = true) /\
    (tail_free (enemies m) -> tail_free (enemies m')) /\
    tail_free (enemies model_init) /\
    (n = 0 /\ flyer_gone m dt g = true ->
     level m' = wrap_int (level m + 1) /\
     (INT_MIN <= level m < INT_MAX -> level m' = level m + 1) /\
     play_level_up (sounds m') = true /\
     (forall row col, 0 <= row < 5 -> 0 <= col < 11 ->
        enemies m' !! Z.to_nat (row * 11 + col)
        = Some (Entity.Build (F32.of_Z (5 + col * 6)) (F32.of_Z (7 + row * 5)) 4 3
                  (F32.of_Z 0) (F32.of_Z 0) true
                  (if row =? 0 then ENTITY_ENEMY_TYPE_3
                   else if row <? 3 then ENTITY_ENEMY_TYPE_2
                   else ENTITY_ENEMY_TYPE_1)
                  (F32.of_Z 0) (F32.of_Z 0) 0 false (F32.of_Z 0))) /\
     (forall i j e1 e2, (i < 55)%nat -> (j < 55)%nat -> i <> j ->
        enemies m' !! i = Some e1 -> enemies m' !! j = Some e2 ->
        check_collision e1 e2 = false) /\
     enemy_points ENTITY_ENEMY_TYPE_3 = 30 /\
     enemy_points ENTITY_ENEMY_TYPE_2 = 20 /\
     enemy_points ENTITY_ENEMY_TYPE_1 = 10 /\
     (forall t, enemy_points t <= enemy_points ENTITY_ENEMY_TYPE_3) /\
     length (List.filter Entity.active (take 55 (enemies m'))) = 55%nat /\
     length (enemies m') = Z.to_nat MAX_ENEMIES /\
     (tail_free (enemies m) ->
      drop 55 (enemies m') = drop 55 (enemies m) /\
      length (List.filter Entity.active (enemies m')) = 55%nat)).
Proof.
  intros Hs Hlen.
  unfold model_update. rewrite Hs.
  destruct (update_playing_level m dt g) as (Hup & Hkeep & Hl1).
  destruct (playing_prefix_enemies m dt g) as (dir & Hes & Hn).
  pose proof (playing_prefix_flyer m dt g) as Hfly.
  pose proof (update_playing_tail_free m dt g Hlen) as Htail.
  destruct (update_playing m dt g) as [m' g'] eqn:E. cbn [fst] in Hup, Hkeep, Htail.
  exists m', g'. split; [reflexivity | ]. cbv zeta.
  set (pre := playing_prefix m dt g) in *.
  rewrite Hn, Hfly in Hup, Hkeep.
  set (n := Z.of_nat (length (List.filter is_live (enemies m)))) in *.
  assert (Hlevel_up : n = 0 /\ flyer_gone m dt g = true ->
                      m' = level_up (fst (fst pre))).
  { intros (H1 & H2). apply Hup. rewrite H1, H2. reflexivity. }
  split.
  { split.
    - intros Hneq.
      destruct ((n =? 0) && negb (negb (flyer_gone m dt g))) eqn:Hb.
      + apply andb_true_iff in Hb. destruct Hb as (H1 & H2).
        apply Z.eqb_eq in H1. rewrite negb_involutive in H2. auto.
      + exfalso. apply Hneq, Hkeep. reflexivity.
    - intros Hc. rewrite (Hlevel_up Hc).
      change (level (level_up (fst (fst pre))))
        with (wrap_int (level (fst (fst pre)) + 1)).
      rewrite Hl1. apply wrap_int_succ_neq. }
  split; [exact Htail | ].
  split; [vm_compute; repeat constructor | ].
  intros Hc. rewrite (Hlevel_up Hc).
  assert (Hlen1 : length (enemies (fst (fst pre))) = Z.to_nat MAX_ENEMIES).
  { rewrite Hes, length_map. exact Hlen. }
  assert (Hgrid : enemies (level_up (fst (fst pre)))
                  = formation ++ drop 55 (enemies (fst (fst pre)))).
  { change (enemies (level_up (fst (fst pre))))
      with (init_enemies_grid (enemies (fst (fst pre)))).
    apply init_enemies_grid_formation, Hlen1. }
  destruct formation_all_live as (Hflen & Hfact & _).
  split.
  { change (level (level_up (fst (fst pre))))
      with (wrap_int (level (fst (fst pre)) + 1)).
    rewrite Hl1. reflexivity. }
  split.
  { intros Hrange.
    change (level (level_up (fst (fst pre))))
      with (wrap_int (level (fst (fst pre)) + 1)).
    rewrite Hl1. apply wrap_int_id. unfold is_int, INT_MIN, INT_MAX in *. lia. }
  split; [reflexivity | ].
  split.
  { intros row col Hrow Hcol.
    rewrite Hgrid. rewrite lookup_app_l by (rewrite Hflen; lia).
    rewrite formation_lookup by assumption.
    rewrite formation_enemy_fields by assumption. reflexivity. }
  split.
  { intros i j e1 e2 Hi Hj Hij H1 H2. rewrite Hgrid in H1, H2.
    rewrite lookup_app_l in H1 by (rewrite Hflen; lia).
    rewrite lookup_app_l in H2 by (rewrite Hflen; lia).
    apply (formation_apart i j e1 e2 Hij H1 H2). }
  split; [reflexivity | ].
  split; [reflexivity | ].
  split; [reflexivity | ].
  split.
  { intros t. destruct t; vm_compute; discriminate. }
  split.
  { rewrite Hgrid. rewrite take_app_length' by exact Hflen. exact Hfact. }
  split.
  { rewrite Hgrid, length_app, Hflen, length_drop, Hlen1. reflexivity. }
  intros Hfree.
  assert (Hdrop : drop 55 (enemies (fst (fst pre))) = drop 55 (enemies m)).
  { rewrite Hes, List.skipn_map.
    apply (scan_elem_inactive_tail dir dt _ Hfree). }
  split.
  { rewrite Hgrid. rewrite drop_app_length' by exact Hflen. exact Hdrop. }
  rewrite Hgrid, List.filter_app, length_app, Hfact, Hdrop.
  rewrite (filter_none _ _ Hfree). reflexivity.
Qed.

Lemma level_transition_iff_cleared_witness :
  exists m' g',
    model_update cleared_model FIXED_DT g_ones = Continue (m', g') /\
    level m' = 2 /\
    length (List.filter Entity.active (enemies m')) = 55%nat /\
    enemies m' !! 12%nat
    = Some (Entity.Build (F32.of_Z 11) (F32.of_Z 12) 4 3 (F32.of_Z 0) (F32.of_Z 0)
              true ENTITY_ENEMY_TYPE_2 (F32.of_Z 0) (F32.of_Z 0) 0 false
              (F32.of_Z 0)).
Proof.
  destruct (level_transition_iff_cleared cleared_model FIXED_DT g_ones eq_refl eq_refl)
    as (m' & g' & Hrun & _ & _ & _ & Hup).
  destruct Hup as (Hlevel & _ & _ & Hcell & _ & _ & _ & _ & _ & _ & _ & Hcount).
  { split; vm_compute; reflexivity. }
  exists m', g'. split; [exact Hrun | ]. split; [ | split].
  - rewrite Hlevel. reflexivity.
  - apply Hcount. vm_compute. repeat constructor.
  - exact (Hcell 1 1 ltac:(lia) ltac:(lia)).
Defined.

(** ** Invulnerability after a hit *)

Lemma fly_bullet_fields (b : Entity.t) (dt : f64) :
  Entity.active (fly_bullet b dt) = Entity.active b /\
  Entity.y (fly_bullet b dt) = f32_add_scaled (Entity.y b) (Entity.dy b) dt /\
  Entity.x (fly_bullet b dt) = Entity.x b /\
  Entity.dx (fly_bullet b dt) = Entity.dx b /\
  Entity.dy (fly_bullet b dt) = Entity.dy b /\
  Entity.type (fly_bullet b dt) = Entity.type b.
Proof.
  unfold fly_bullet. cbv zeta. destruct (F32.gtb _ _); repeat split.
Qed.

Lemma update_bullet_loop_lives (l0 : Z) (h0 : f32) (dt : f64) (a : GameModel) (i : nat) :
  INT_MIN < l0 < INT_MAX ->
  loop_lives l0 h0 a -> loop_lives l0 h0 (update_bullet dt a i).
Proof.
  intros Hl0 Ha. unfold update_bullet.
  destruct (bullets a !! i) as [b | ]; [ | exact Ha].
  destruct (negb (Entity.active b)); [exact Ha | ].
  destruct (out_of_field _); [exact Ha | ].
  destruct (hit_shields _ _); [exact Ha | ].
  destruct Ha as (u & h & Hu & Hh & Hl).
  unfold INT_MIN, INT_MAX in Hl0.
  destruct (type_is _ _).
  - unfold player_bullet_hits.
    destruct (Ufo.active (ufo a) && negb (Ufo.exploding (ufo a))
              && overlaps_ufo _ (ufo a)) eqn:E.
    + apply andb_true_iff in E. destruct E as (E & _).
      apply andb_true_iff in E. destruct E as (_ & E).
      apply negb_true_iff in E.
      destruct Hu as [-> | (_ & Hex)]; [ | congruence].
      exists 1, h. split; [right; split; reflexivity | ].
      split; [exact Hh | ].
      cbn [lives set_lives set_sounds set_score set_ufo store_bullet set_bullets
           request_killed_sound].
      rewrite Hl. replace (l0 + 0 - h + 1) with (l0 + 1 - h) by lia.
      apply wrap_int_id.
      unfold is_int, INT_MIN, INT_MAX. destruct Hh as [(-> & _) | (-> & _)]; lia.
    + destruct (hit_enemies _ _) as [[es pts] | ]; exists u, h; auto.
  - unfold enemy_bullet_hits.
    destruct (Entity.active (player a) && F32.leb (hit_timer a) (F32.of_Z 0)
              && check_collision _ (player a)) eqn:E.
    + apply andb_true_iff in E. destruct E as (E & _).
      apply andb_true_iff in E. destruct E as (_ & E).
      destruct Hh as [(-> & Hh) | (_ & Hh & _)];
        [ | rewrite Hh in E; vm_compute in E; discriminate].
      exists u, 1. rewrite Hh in E.
      assert (Hlives : wrap_int (lives a - 1) = l0 + u - 1).
      { rewrite Hl. replace (l0 + u - 0 - 1) with (l0 + u - 1) by lia.
        apply wrap_int_id.
        unfold is_int, INT_MIN, INT_MAX. destruct Hu as [-> | (-> & _)]; lia. }
      destruct (_ <=? _);
        (split; [exact Hu | ]);
        (split; [right; repeat split; auto | exact Hlives]).
    + exists u, h. auto.
Qed.

Lemma update_bullets_loop_lives (m : GameModel) (dt : f64) :
  INT_MIN < lives m < INT_MAX ->
  loop_lives (lives m) (hit_timer m) (update_bullets m dt).
Proof.
  intros Hl. unfold update_bullets.
  apply (fold_left_preserves (loop_lives (lives m) (hit_timer m))).
  - intros a i. apply update_bullet_loop_lives, Hl.
  - exists 0, 0. split; [left; reflexivity | ].
    split; [left; split; reflexivity | lia].
Qed.

Lemma update_timers_lives (m : GameModel) (dt : f64) :
  lives (update_player (update_timers m dt) dt) = lives m /\
  hit_timer (update_player (update_timers m dt) dt) = hit_timer (update_timers m dt).
Proof.
  unfold update_player, update_timers. split_ifs; split; reflexivity.
Qed.

Lemma update_playing_lives (m : GameModel) (dt : f64) (g : RandGen) :
  INT_MIN < lives m < INT_MAX ->
  lives (fst (update_playing m dt g)) < lives m ->
  F32.leb (hit_timer (update_timers m dt)) (F32.of_Z 0) = true /\
  lives (fst (update_playing m dt g)) = lives m - 1.
Proof.
  intros Hrange. unfold update_playing.
  pose proof (playing_prefix_core m dt g) as Hpre.
  destruct (playing_prefix m dt g) as [[m1 g1] [n touch]]. cbn [fst] in Hpre.
  destruct Hpre as (_ & _ & _ & _ & Hli & Hh).
  destruct (update_timers_lives m dt) as (Hli0 & Hh0).
  rewrite Hli0 in Hli. rewrite Hh0 in Hh.
  destruct (_ && _).
  - cbn [fst]. change (lives (level_up m1)) with (lives m1). lia.
  - set (m2 := if touch then enemies_turn m1 else enemies_advance m1 dt).
    assert (H2 : same_core m1 m2).
    { subst m2. destruct touch; [apply enemies_turn_core | apply enemies_advance_core]. }
    pose proof (enemies_fire_core m2 g1) as H3.
    destruct (enemies_fire m2 g1) as [m3 g3]. cbn [fst] in H3 |- *.
    destruct H2 as (_ & _ & _ & _ & Hli2 & Hh2), H3 as (_ & _ & _ & _ & Hli3 & Hh3).
    assert (El : lives m3 = lives m) by congruence.
    assert (Eh : hit_timer m3 = hit_timer (update_timers m dt)) by congruence.
    destruct (update_bullets_loop_lives m3 dt) as (u & h & Hu & Hhit & Hl).
    { rewrite El. exact Hrange. }
    rewrite Hl, El, Eh in *. intros Hless.
    destruct Hhit as [(-> & _) | (-> & _ & Hle)].
    + destruct Hu as [-> | (-> & _)]; lia.
    + split; [exact Hle | ]. destruct Hu as [-> | (-> & _)]; lia.
Qed.

(** C10: in the bullet loop of a Playing step, an active bullet that is
    not a player bullet, is still in the field after its move and hits no
    barrier is left active, moved by [dy * dt] and with its velocity, when
    the invulnerability timer is above 0, whether or not it overlaps the
    player; lives, timer and flow state are as before.  Over a whole
    Playing step, lives that end lower than they started have dropped by
    exactly 1, and the timer, as it stood after its update at the start of
    the step, was not above 0. *)
Theorem invulnerable_player_keeps_lives :
  (forall (dt : f64) (m : GameModel) (i : nat) (b : Entity.t),
     bullets m !! i = Some b ->
     Entity.active b = true ->
     type_is (Entity.type b) ENTITY_BULLET_PLAYER = false ->
     out_of_field (fly_bullet b dt) = false ->
     hit_shields (fly_bullet b dt) (shields m) = None ->
     F32.gtb (hit_timer m) (F32.of_Z 0) = true ->
     let m' := update_bullet dt m i in
     bullets m' !! i = Some (fly_bullet b dt) /\
     Entity.active (fly_bullet b dt) = true /\
     Entity.y (fly_bullet b dt) = f32_add_scaled (Entity.y b) (Entity.dy b) dt /\
     Entity.dy (fly_bullet b dt) = Entity.dy b /\
     lives m' = lives m /\ hit_timer m' = hit_timer m /\ state m' = state m /\
     player m' = player m) /\
  (forall (m : GameModel) (dt : f64) (g : RandGen) (m' : GameModel) (g' : RandGen),
     state m = STATE_PLAYING ->
     INT_MIN < lives m < INT_MAX ->
     model_update m dt g = Continue (m', g') ->
     lives m' < lives m ->
     F32.leb (hit_timer (update_timers m dt)) (F32.of_Z 0) = true /\
     lives m' = lives m - 1).
Proof.
  split.
  - intros dt m i b Hb Hact Htype Hin Hsh Hinv. cbv zeta.
    unfold update_bullet. rewrite Hb, Hact. cbn [negb]. rewrite Hin, Hsh.
    destruct (fly_bullet_fields b dt) as (Fa & Fy & _ & _ & Fdy & Ft).
    rewrite Ft, Htype.
    unfold enemy_bullet_hits.
    rewrite (F32_gtb_not_leb _ _ Hinv), andb_false_r. cbn [andb].
    unfold store_bullet.
    cbn [bullets set_bullets lives hit_timer state player].
    split.
    { apply list_lookup_insert_eq. apply lookup_lt_Some in Hb. exact Hb. }
    rewrite Fa, Hact. repeat split; assumption.
  - intros m dt g m' g' Hs Hrange Hrun.
    unfold model_update in Hrun. rewrite Hs in Hrun. injection Hrun as Hrun.
    replace m' with (fst (update_playing m dt g)) by (rewrite Hrun; reflexivity).
    apply update_playing_lives, Hrange.
Qed.

Lemma invulnerable_player_keeps_lives_witness :
  check_collision (fly_bullet shielded_hit_bullet FIXED_DT)
    (player shielded_hit_model) = true /\
  let m' := update_bullet FIXED_DT shielded_hit_model 0 in
  bullets m' !! 0%nat = Some (fly_bullet shielded_hit_bullet FIXED_DT) /\
  Entity.active (fly_bullet shielded_hit_bullet FIXED_DT) = true /\
  lives m' = lives shielded_hit_model /\ state m' = state shielded_hit_model.
Proof.
  split; [vm_compute; reflexivity | ].
  assert (H1 : bullets shielded_hit_model !! 0%nat = Some shielded_hit_bullet)
    by (vm_compute; reflexivity).
  assert (H2 : Entity.active shielded_hit_bullet = true) by reflexivity.
  assert (H3 : type_is (Entity.type shielded_hit_bullet) ENTITY_BULLET_PLAYER = false)
    by reflexivity.
  assert (H4 : out_of_field (fly_bullet shielded_hit_bullet FIXED_DT) = false)
    by (vm_compute; reflexivity).
  assert (H5 : hit_shields (fly_bullet shielded_hit_bullet FIXED_DT)
                 (shields shielded_hit_model) = None)
    by (vm_compute; reflexivity).
  assert (H6 : F32.gtb (hit_timer shielded_hit_model) (F32.of_Z 0) = true)
    by reflexivity.
  destruct (proj1 invulnerable_player_keeps_lives FIXED_DT shielded_hit_model
              0%nat shielded_hit_bullet H1 H2 H3 H4 H5 H6)
    as (Hb & Ha & _ & _ & Hl & _ & Hs & _).
  exact (conj Hb (conj Ha (conj Hl Hs))).
Defined.

(** ** Barriers: what an impact is and what it does *)

Lemma fly_bullet_box (b : Entity.t) (dt : f64) :
  Entity.x (fly_bullet b dt) = Entity.x b /\
  Entity.y (fly_bullet b dt) = bullet_y_after b dt /\
  Entity.width (fly_bullet b dt) = Entity.width b /\
  Entity.height (fly_bullet b dt) = Entity.height b.
Proof.
  unfold fly_bullet, bullet_y_after. cbv zeta.
  destruct (F32.gtb _ _); repeat split.
Qed.

Lemma overlaps_shield_fly (b : Entity.t) (dt : f64) (s : Shield.t) :
  overlaps_shield (fly_bullet b dt) s = bullet_meets b dt s.
Proof.
  destruct (fly_bullet_box b dt) as (Hx & Hy & Hw & Hh).
  unfold overlaps_shield, bullet_meets. rewrite Hx, Hy, Hw, Hh. reflexivity.
Qed.

Lemma out_of_field_fly (b : Entity.t) (dt : f64) :
  out_of_field (fly_bullet b dt) = negb (bullet_stays_in_field b dt).
Proof.
  destruct (fly_bullet_box b dt) as (_ & Hy & _).
  unfold out_of_field, bullet_stays_in_field. rewrite Hy.
  change (F32.of_Z GAME_HEIGHT) with (F32.of_Z 50).
  destruct (F32.ltb _ _), (F32.gtb _ _); reflexivity.
Qed.

Lemma damage_shield_worn (s : Shield.t) :
  shield_ok s -> Shield.active s = true -> damage_shield s = worn s.
Proof.
  unfold shield_ok, SHIELD_MAX_HEALTH. intros (Hr & Hpos) Ha.
  specialize (Hpos Ha).
  unfold damage_shield, worn. cbv zeta. cbn [Shield.health Shield.set_health].
  rewrite wrap_int_id by (unfold is_int, INT_MIN, INT_MAX; lia).
  destruct (Z.leb_spec (Shield.health s - 1) 0);
    destruct (Z.ltb_spec 0 (Shield.health s - 1)); try lia.
  - reflexivity.
  - unfold Shield.set_health. cbn [Shield.x Shield.y Shield.width Shield.height
                                   Shield.health Shield.active].
    rewrite Ha. reflexivity.
Qed.

(** The loop over the barriers stops at the first active barrier met. *)
Lemma hit_shields_first (b : Entity.t) (shs : list Shield.t) :
  forall (j : nat) (s : Shield.t),
    shs !! j = Some s ->
    Shield.active s && overlaps_shield b s = true ->
    (forall k s0, (k < j)%nat -> shs !! k = Some s0 ->
                  Shield.active s0 && overlaps_shield b s0 = false) ->
    hit_shields b shs = Some (<[j := damage_shield s]> shs).
Proof.
  induction shs as [ | s1 rest IH]; intros j s Hj Hhit Hfirst; [discriminate | ].
  cbn [hit_shields]. destruct j as [ | j].
  - injection Hj as ->. rewrite Hhit. reflexivity.
  - rewrite (Hfirst 0%nat s1) by (lia || reflexivity).
    rewrite (IH j s Hj Hhit).
    + reflexivity.
    + intros k s0 Hk Hs0. apply (Hfirst (S k) s0); [lia | exact Hs0].
Qed.

Lemma hit_shields_none (b : Entity.t) (shs : list Shield.t) :
  (forall k s0, shs !! k = Some s0 ->
                Shield.active s0 && overlaps_shield b s0 = false) ->
  hit_shields b shs = None.
Proof.
  induction shs as [ | s1 rest IH]; intros Hnone; [reflexivity | ].
  cbn [hit_shields]. rewrite (Hnone 0%nat s1) by reflexivity.
  rewrite IH; [reflexivity | ].
  intros k s0 Hs0. apply (Hnone (S k) s0 Hs0).
Qed.

(** One pass of the bullet loop on a bullet that meets a barrier. *)
Lemma update_bullet_impact (dt : f64) (m : GameModel) (i : nat) (b : Entity.t)
  (j : nat) (s : Shield.t) :
  Forall shield_ok (shields m) ->
  bullets m !! i = Some b ->
  Entity.active b = true ->
  bullet_stays_in_field b dt = true ->
  first_met b dt (shields m) j s ->
  update_bullet dt m i
  = set_shields (<[j := worn s]> (shields m))
      (store_bullet i (Entity.set_active false (fly_bullet b dt)) m).
Proof.
  intros Hok Hb Ha Hin (Hj & Hact & Hmeet & Hfirst).
  unfold update_bullet. rewrite Hb, Ha. cbn [negb].
  rewrite out_of_field_fly, Hin. cbn [negb].
  rewrite (hit_shields_first (fly_bullet b dt) (shields m) j s Hj).
  - rewrite damage_shield_worn; [reflexivity | | exact Hact].
    apply (proj1 (Forall_lookup _ _) Hok j s Hj).
  - rewrite overlaps_shield_fly, Hact, Hmeet. reflexivity.
  - intros k s0 Hk Hs0. rewrite overlaps_shield_fly. apply (Hfirst k s0 Hk Hs0).
Qed.

(** One pass of the bullet loop that leaves the barriers alone. *)
Lemma update_bullet_no_impact (dt : f64) (m : GameModel) (i : nat) (b : Entity.t) :
  bullets m !! i = Some b ->
  Entity.active b = false \/
  bullet_stays_in_field b dt = false \/
  (forall k s0, shields m !! k = Some s0 ->
                Shield.active s0 && bullet_meets b dt s0 = false) ->
  shields (update_bullet dt m i) = shields m.
Proof.
  intros Hb Hcase. unfold update_bullet. rewrite Hb.
  destruct (Entity.active b) eqn:Ha; cbn [negb]; [ | reflexivity].
  rewrite out_of_field_fly.
  destruct (bullet_stays_in_field b dt) eqn:Hin; cbn [negb]; [ | reflexivity].
  destruct Hcase as [Hc | [Hc | Hnone]]; try discriminate Hc.
  rewrite hit_shields_none.
  - destruct (type_is _ _).
    + unfold player_bullet_hits.
      destruct (_ && _); [reflexivity | ].
      destruct (hit_enemies _ _) as [[es pts] | ]; reflexivity.
    + unfold enemy_bullet_hits.
      destruct (_ && _); [ | reflexivity].
      destruct (_ <=? _); reflexivity.
  - intros k s0 Hs0. rewrite overlaps_shield_fly. apply (Hnone k s0 Hs0).
Qed.

(** The passes over free slots do nothing. *)
Lemma update_bullet_skips (dt : f64) (l : list nat) :
  forall a : GameModel,
    (forall k c, In k l -> bullets a !! k = Some c -> Entity.active c = false) ->
    fold_left (update_bullet dt) l a = a.
Proof.
  induction l as [ | k rest IH]; intros a Hfree; [reflexivity | ].
  cbn [fold_left].
  assert (E : update_bullet dt a k = a).
  { unfold update_bullet. destruct (bullets a !! k) as [c | ] eqn:Hc; [ | reflexivity].
    rewrite (Hfree k c (or_introl eq_refl) Hc). reflexivity. }
  rewrite E. apply IH. intros k' c Hin. apply Hfree. right. exact Hin.
Qed.

(** With one bullet in flight, the loop is the pass over its slot. *)
Lemma update_bullets_single (dt : f64) (a : GameModel) (i : nat) (b' : Entity.t)
  (shs : list Shield.t) :
  (i < 100)%nat ->
  (forall k c, k <> i -> bullets a !! k = Some c -> Entity.active c = false) ->
  update_bullet dt a i = set_shields shs (store_bullet i b' a) ->
  update_bullets a dt = update_bullet dt a i.
Proof.
  intros Hi Hfree Hpass. unfold update_bullets.
  change (Z.to_nat MAX_BULLETS) with 100%nat.
  replace 100%nat with (i + S (100 - S i))%nat by lia.
  rewrite seq_app, fold_left_app. cbn [seq fold_left Nat.add].
  rewrite (update_bullet_skips dt (seq 0 i) a).
  - apply update_bullet_skips.
    intros k c Hin Hc. apply in_seq in Hin.
    rewrite Hpass in Hc. cbn [bullets set_shields store_bullet set_bullets] in Hc.
    rewrite list_lookup_insert_ne in Hc by lia.
    apply (Hfree k c); [lia | exact Hc].
  - intros k c Hin Hc. apply in_seq in Hin. apply (Hfree k c); [lia | exact Hc].
Qed.

(** The oracle after the flyer's phase is the oracle before it, shifted. *)
Lemma update_ufo_oracle (m : GameModel) (dt : f64) (g : RandGen) :
  exists k : nat, forall n, snd (update_ufo m dt g) n = g (k + n)%nat.
Proof.
  unfold update_ufo, spawn_ufo, rand. cbv beta iota zeta.
  split_ifs; cbn [snd];
    first [ exists 0%nat; intros n; reflexivity
          | exists 1%nat; intros n; reflexivity
          | exists 2%nat; intros n; reflexivity ].
Qed.

Lemma update_ufo_pools (m : GameModel) (dt : f64) (g : RandGen) :
  bullets (fst (update_ufo m dt g)) = bullets m /\
  shields (fst (update_ufo m dt g)) = shields m /\
  level (fst (update_ufo m dt g)) = level m.
Proof.
  unfold update_ufo, spawn_ufo, rand. cbv beta iota zeta.
  split_ifs; repeat split.
Qed.

Lemma early_phases_pools (m : GameModel) (dt : f64) :
  let m0 := update_player (update_beat (update_timers m dt) dt) dt in
  bullets m0 = bullets m /\ shields m0 = shields m /\ level m0 = level m.
Proof.
  cbv zeta. unfold update_player, update_beat, update_timers.
  split_ifs; repeat split.
Qed.

Lemma enemies_move_pools (touch : bool) (m : GameModel) (dt : f64) :
  let m2 := if touch then enemies_turn m else enemies_advance m dt in
  bullets m2 = bullets m /\ shields m2 = shields m /\ level m2 = level m.
Proof.
  cbv zeta. destruct touch.
  - unfold enemies_turn. split_ifs; repeat split.
  - repeat split.
Qed.

Lemma live_enemy_counted (es : list Entity.t) :
  existsb is_live es = true ->
  Z.of_nat (length (List.filter is_live es)) <> 0.
Proof.
  induction es as [ | e rest IH]; [discriminate | ].
  cbn [existsb List.filter]. destruct (is_live e); cbn [orb length]; [lia | exact IH].
Qed.

(** A Playing step with a live enemy in which no enemy fires is the early
    phases followed by the bullet loop, on the bullets and barriers of the
    start of the step. *)
Lemma quiet_step_is_bullet_loop (m : GameModel) (dt : f64) (g : RandGen) :
  existsb is_live (enemies m) = true ->
  0 <= level m ->
  (forall n, level m * 2 <= Z.rem (g n) 100) ->
  exists m2,
    fst (update_playing m dt g) = update_bullets m2 dt /\
    bullets m2 = bullets m /\ shields m2 = shields m.
Proof.
  intros Hlive Hlev Hquiet. unfold update_playing.
  destruct (playing_prefix_enemies m dt g) as (dir & _ & Hn).
  apply live_enemy_counted in Hlive. rewrite <- Hn in Hlive.
  assert (Hpre : let pre := playing_prefix m dt g in
                 bullets (fst (fst pre)) = bullets m /\
                 shields (fst (fst pre)) = shields m /\
                 level (fst (fst pre)) = level m /\
                 exists k : nat, forall n, snd (fst pre) n = g (k + n)%nat).
  { cbv zeta. unfold playing_prefix.
    destruct (early_phases_pools m dt) as (Hb0 & Hs0 & Hl0). cbv zeta in Hb0, Hs0, Hl0.
    destruct (update_ufo_pools
                (update_player (update_beat (update_timers m dt) dt) dt) dt g)
      as (Hb1 & Hs1 & Hl1).
    pose proof (update_ufo_oracle
                  (update_player (update_beat (update_timers m dt) dt) dt) dt g)
      as Hor.
    destruct (update_ufo _ dt g) as [m1 g1]. cbn [fst snd] in *.
    destruct (scan_enemies _ _ _ _) as [es st]. cbn [fst snd].
    cbn [bullets shields level set_enemies].
    split; [congruence | ]. split; [congruence | ]. split; [congruence | exact Hor]. }
  destruct (playing_prefix m dt g) as [[m1 g1] [n touch]]. cbn [fst snd] in *.
  destruct Hpre as (Hb1 & Hs1 & Hl1 & k & Hg1).
  destruct (Z.eqb_spec n 0) as [E | _]; [contradiction | ]. cbn [andb].
  destruct (enemies_move_pools touch m1 dt) as (Hb2 & Hs2 & Hl2). cbv zeta in Hb2, Hs2, Hl2.
  set (m2 := if touch then enemies_turn m1 else enemies_advance m1 dt) in *.
  unfold enemies_fire, rand. cbv beta iota zeta.
  assert (Hno : (Z.rem (g1 0%nat) 100 <? wrap_int (level m2 * 2)) = false).
  { rewrite Hl2, Hl1, Hg1. specialize (Hquiet (k + 0)%nat).
    pose proof (Z.rem_bound_abs (g (k + 0)%nat) 100 ltac:(lia)) as Hb.
    rewrite wrap_int_id by (unfold is_int, INT_MIN, INT_MAX; lia).
    apply Z.ltb_ge. exact Hquiet. }
  rewrite Hno. cbn [fst]. exists m2. repeat split; congruence.
Qed.

(** C3: the barriers start with health 10, active.  From barriers whose
    health is in [0, 10] and positive when active, any run of simulation
    steps leaves every barrier in place with a health in [0, 10], not higher
    than before and positive when the barrier is active: a barrier at
    health 0 is inactive and stays so.  An impact is an active bullet of
    either owner that, after its flight, is still in the field and
    overlaps an active barrier.  In the pass of the bullet loop over such a
    bullet, the first active barrier it overlaps loses exactly 1 (and goes
    inactive on reaching 0), every other barrier is as before and the bullet
    is consumed; a bullet that is inactive, leaves the field or overlaps no
    active barrier leaves all barriers as they were.  And over a whole
    Playing step, with a live enemy, no enemy firing and one bullet in
    flight that overlaps a barrier, the barriers after the step are those
    before it with exactly 1 taken from the first barrier overlapped. *)
Theorem barrier_health_decays :
  Forall (fun s => Shield.health s = 10 /\ Shield.active s = true)
    (shields model_init) /\
  (forall (dts : list f64) (m : GameModel) (g : RandGen)
          (m' : GameModel) (g' : RandGen),
     Forall shield_ok (shields m) ->
     run_updates dts m g = Continue (m', g') ->
     Forall shield_ok (shields m') /\
     Forall2 shield_decays (shields m) (shields m')) /\
  (forall (dt : f64) (m : GameModel) (i : nat) (b : Entity.t)
          (j : nat) (s : Shield.t),
     Forall shield_ok (shields m) ->
     bullets m !! i = Some b ->
     Entity.active b = true ->
     bullet_stays_in_field b dt = true ->
     first_met b dt (shields m) j s ->
     shields (update_bullet dt m i) = <[j := worn s]> (shields m) /\
     Shield.health (worn s) = Shield.health s - 1 /\
     (Shield.active (worn s) = true <-> 1 < Shield.health s) /\
     bullets (update_bullet dt m i)
     = <[i := Entity.set_active false (fly_bullet b dt)]> (bullets m)) /\
  (forall (dt : f64) (m : GameModel) (i : nat) (b : Entity.t),
     bullets m !! i = Some b ->
     Entity.active b = false \/
     bullet_stays_in_field b dt = false \/
     (forall k s0, shields m !! k = Some s0 ->
                   Shield.active s0 && bullet_meets b dt s0 = false) ->
     shields (update_bullet dt m i) = shields m) /\
  (forall (dt : f64) (m : GameModel) (g : RandGen) (i : nat) (b : Entity.t)
          (j : nat) (s : Shield.t) (m' : GameModel) (g' : RandGen),
     state m = STATE_PLAYING ->
     existsb is_live (enemies m) = true ->
     0 <= level m ->
     (forall n, level m * 2 <= Z.rem (g n) 100) ->
     Forall shield_ok (shields m) ->
     (i < 100)%nat ->
     bullets m !! i = Some b ->
     Entity.active b = true ->
     (forall k c, k <> i -> bullets m !! k = Some c -> Entity.active c = false) ->
     bullet_stays_in_field b dt = true ->
     first_met b dt (shields m) j s ->
     model_update m dt g = Continue (m', g') ->
     shields m' = <[j := worn s]> (shields m) /\
     bullets m' = <[i := Entity.set_active false (fly_bullet b dt)]> (bullets m)).
Proof.
  split; [repeat constructor | ].
  split.
  { intros dts m g m' g' Hok Hrun.
    destruct (run_updates_shields dts m g m' g' Hrun Hok). auto. }
  split.
  { intros dt m i b j s Hok Hb Ha Hin Hmet.
    rewrite (update_bullet_impact dt m i b j s Hok Hb Ha Hin Hmet).
    cbn [shields bullets set_shields store_bullet set_bullets worn
         Shield.health Shield.active].
    repeat split; try reflexivity.
    - intros H. apply Z.ltb_lt in H. lia.
    - intros H. apply Z.ltb_lt. lia. }
  split.
  { intros dt m i b Hb Hcase. apply (update_bullet_no_impact dt m i b Hb Hcase). }
  intros dt m g i b j s m' g' Hs Hlive Hlev Hquiet Hok Hi Hb Ha Hfree Hin Hmet Hrun.
  unfold model_update in Hrun. rewrite Hs in Hrun. injection Hrun as Hrun.
  destruct (quiet_step_is_bullet_loop m dt g Hlive Hlev Hquiet)
    as (m2 & Hstep & Hb2 & Hs2).
  rewrite Hrun in Hstep. cbn [fst] in Hstep. subst m'.
  assert (Hpass : update_bullet dt m2 i
                  = set_shields (<[j := worn s]> (shields m2))
                      (store_bullet i (Entity.set_active false (fly_bullet b dt)) m2)).
  { apply update_bullet_impact; rewrite ?Hb2, ?Hs2; assumption. }
  rewrite (update_bullets_single dt m2 i
             (Entity.set_active false (fly_bullet b dt))
             (<[j := worn s]> (shields m2)) Hi); [ | | exact Hpass].
  - rewrite Hpass. cbn [shields bullets set_shields store_bullet set_bullets].
    rewrite Hb2, Hs2. split; reflexivity.
  - rewrite Hb2. exact Hfree.
Qed.

Lemma barrier_health_decays_witness :
  exists m' g',
    model_update barrier_hit_model FIXED_DT g_quiet = Continue (m', g') /\
    shields m' = <[0%nat := worn (init_shield 0)]> (shields barrier_hit_model) /\
    map Shield.health (shields m') = [9; 10; 10; 10].
Proof.
  assert (Hbul : bullets barrier_hit_model
                 = barrier_hit_bullet :: replicate 99 zero_entity)
    by (vm_compute; reflexivity).
  assert (Hsh : shields barrier_hit_model = map init_shield (Z_range 4))
    by (vm_compute; reflexivity).
  destruct (model_update barrier_hit_model FIXED_DT g_quiet)
    as [[m' g'] | | ] eqn:E.
  - exists m', g'. split; [reflexivity | ].
    assert (H : shields m'
                = <[0%nat := worn (init_shield 0)]> (shields barrier_hit_model)).
    { refine (proj1 (proj2 (proj2 (proj2 (proj2 barrier_health_decays)))
                       FIXED_DT barrier_hit_model g_quiet 0%nat barrier_hit_bullet
                       0%nat (init_shield 0) m' g' _ _ _ _ _ _ _ _ _ _ _ E)).
      + reflexivity.
      + vm_compute. reflexivity.
      + vm_compute. discriminate.
      + intros n. vm_compute. discriminate.
      + rewrite Hsh. repeat constructor; cbn; unfold SHIELD_MAX_HEALTH; lia.
      + lia.
      + rewrite Hbul. reflexivity.
      + reflexivity.
      + intros k c Hk Hc. rewrite Hbul in Hc.
        destruct k as [ | k]; [congruence | ].
        change (replicate 99 zero_entity !! k = Some c) in Hc.
        apply lookup_replicate in Hc. destruct Hc as (-> & _). reflexivity.
      + vm_compute. reflexivity.
      + rewrite Hsh. split; [reflexivity | ].
        split; [reflexivity | ].
        split; [vm_compute; reflexivity | ].
        intros k s0 Hk. lia. }
    split; [exact H | ]. rewrite H, Hsh. vm_compute. reflexivity.
  - vm_compute in E. discriminate.
  - vm_compute in E. discriminate.
Defined.

(** * Further properties of the code *)

(** ** The scan of the save directory, in general *)

Lemma scan_entry_rejected (m : GameModel) (d : string) :
  scan_accepts d = false -> scan_entry m d = m.
Proof.
  unfold scan_accepts, scan_entry.
  destruct (first_char_is "." d); [reflexivity | ].
  destruct (strstr d ".dat"); [discriminate | reflexivity].
Qed.

Lemma scan_entry_accepted (m : GameModel) (d : string) :
  scan_accepts d = true ->
  scan_entry m d
  = if save_file_count m <? MAX_SAVE_FILES then
      set_save_file_count (wrap_int (save_file_count m + 1))
        (set_save_files
           (<[Z.to_nat (save_file_count m) := snprintf 256 d]> (save_files m)) m)
    else m.
Proof.
  unfold scan_accepts, scan_entry.
  destruct (first_char_is "." d); [discriminate | ].
  destruct (strstr d ".dat"); [reflexivity | discriminate].
Qed.

Lemma scan_fold_spec (entries : list string) :
  forall (m : GameModel) (k : nat),
    save_file_count m = Z.of_nat k ->
    (k <= 10)%nat ->
    (10 <= length (save_files m))%nat ->
    let m' := fold_left scan_entry entries m in
    let kept := map (snprintf 256) (List.filter scan_accepts entries) in
    let k' := Nat.min 10 (k + length kept) in
    save_file_count m' = Z.of_nat k' /\
    take k' (save_files m') = take k (save_files m) ++ take (10 - k) kept /\
    length (save_files m') = length (save_files m).
Proof.
  induction entries as [ | d rest IH]; intros m k Hk Hle Hlen; cbv zeta.
  - cbn [fold_left List.filter map length]. rewrite Nat.add_0_r, Nat.min_r by lia.
    rewrite take_nil, app_nil_r. auto.
  - cbn [fold_left List.filter].
    destruct (scan_accepts d) eqn:Hd.
    + rewrite (scan_entry_accepted m d Hd), Hk. unfold MAX_SAVE_FILES.
      destruct (Z.ltb_spec (Z.of_nat k) 10) as [Hlt | Hge].
      * rewrite Nat2Z.id.
        rewrite wrap_int_id by (unfold is_int, INT_MIN, INT_MAX; lia).
        set (m1 := set_save_file_count _ _).
        specialize (IH m1 (S k)). cbv zeta in IH.
        destruct IH as (Hc & Ht & Hl).
        { subst m1. cbn [save_file_count set_save_file_count]. lia. }
        { lia. }
        { subst m1. cbn [save_files set_save_files set_save_file_count].
          rewrite length_insert. exact Hlen. }
        cbn [map length].
        replace (k + S (length (map (snprintf 256) (List.filter scan_accepts rest))))%nat
          with (S k + length (map (snprintf 256) (List.filter scan_accepts rest)))%nat
          by lia.
        split; [exact Hc | ]. split.
        -- rewrite Ht. subst m1.
           cbn [save_files set_save_files set_save_file_count].
           rewrite (take_S_r _ k (snprintf 256 d))
             by (apply list_lookup_insert_eq; lia).
           rewrite take_insert_ge by lia.
           replace (10 - k)%nat with (S (10 - S k)) by lia.
           cbn [take]. rewrite <- app_assoc. reflexivity.
        -- rewrite Hl. subst m1.
           cbn [save_files set_save_files set_save_file_count].
           apply length_insert.
      * assert (k = 10%nat) as -> by lia.
        specialize (IH m 10%nat Hk Hle Hlen). cbv zeta in IH.
        destruct IH as (Hc & Ht & Hl).
        cbn [map length].
        rewrite Nat.min_l in Hc, Ht |- * by lia.
        split; [exact Hc | ]. split; [ | exact Hl].
        rewrite Ht. reflexivity.
    + rewrite (scan_entry_rejected m d Hd). apply IH; assumption.
Qed.

(** X1: what [model_scan_saves] records, for any listing: the count is 0
    when the directory cannot be opened; otherwise the entries that are not
    hidden and have ".dat" somewhere in their name are recorded in arrival
    order, each cut to 255 characters, the first 10 of them only, and the
    count is their number capped at 10. *)
Theorem scan_saves_records_first_ten (fs : FileSystem) (m : GameModel) :
  (10 <= length (save_files m))%nat ->
  match fs_listing fs with
  | None =>
      save_file_count (model_scan_saves fs m) = 0 /\
      save_files (model_scan_saves fs m) = save_files m
  | Some entries =>
      let kept := map (snprintf 256) (List.filter scan_accepts entries) in
      save_file_count (model_scan_saves fs m) = Z.of_nat (Nat.min 10 (length kept)) /\
      take (Nat.min 10 (length kept)) (save_files (model_scan_saves fs m))
      = take 10 kept /\
      0 <= save_file_count (model_scan_saves fs m) <= MAX_SAVE_FILES
  end.
Proof.
  intros Hlen. unfold model_scan_saves.
  destruct (fs_listing fs) as [entries | ]; [ | split; reflexivity].
  cbv zeta.
  destruct (scan_fold_spec entries (set_save_file_count 0 m) 0%nat)
    as (Hc & Ht & _); try (cbn; lia); try exact Hlen.
  cbn [Nat.add] in Hc, Ht. rewrite Nat.sub_0_r in Ht.
  split; [exact Hc | ]. split; [exact Ht | ].
  rewrite Hc. unfold MAX_SAVE_FILES. lia.
Qed.

Lemma scan_saves_records_first_ten_witness :
  let fs :=
    Build_FileSystem ∅ (fun _ => true) (Some [".git"; "a.dat"; "b.txt"; "c.dat"]) in
  save_file_count (model_scan_saves fs model_init) = 2 /\
  take 2 (save_files (model_scan_saves fs model_init)) = ["a.dat"; "c.dat"].
Proof.
  intros fs.
  destruct (scan_saves_records_first_ten fs model_init) as (Hc & Ht & _).
  - change (10 <= 10)%nat. lia.
  - split; [exact Hc | exact Ht].
Defined.

(** ** Collision test *)

(** X2: the bounding-box test is symmetric, holds only between two active
    entities, and fails when the right edge of the first is exactly the left
    edge of the second: touching boxes do not collide. *)
Theorem check_collision_symmetric_strict :
  (forall a b : Entity.t, check_collision a b = check_collision b a) /\
  (forall a b : Entity.t,
     check_collision a b = true ->
     Entity.active a = true /\ Entity.active b = true) /\
  (forall a b : Entity.t,
     SFcompare (F32.add (Entity.x a) (F32.of_Z (Entity.width a))) (Entity.x b)
     = Some Eq ->
     check_collision a b = false).
Proof.
  split; [ | split].
  - intros a b. unfold check_collision, F32.gtb, F32.ltb.
    destruct (Entity.active a), (Entity.active b); cbn [negb orb]; try reflexivity.
    destruct (SFltb (Entity.x a) _), (SFltb (Entity.x b) _),
      (SFltb (Entity.y a) _), (SFltb (Entity.y b) _); reflexivity.
  - intros a b. unfold check_collision.
    destruct (Entity.active a), (Entity.active b); cbn [negb orb];
      intros H; try discriminate; auto.
  - intros a b Heq. unfold check_collision.
    destruct (negb (Entity.active a) || negb (Entity.active b)); [reflexivity | ].
    assert (Hgt : F32.gtb (F32.add (Entity.x a) (F32.of_Z (Entity.width a)))
                    (Entity.x b) = false).
    { unfold F32.gtb, SFltb.
      rewrite (SFcompare_antisym _ _ _ Heq). reflexivity. }
    rewrite Hgt, andb_false_r. reflexivity.
Qed.

Lemma check_collision_symmetric_strict_witness :
  let a :=
    Entity.set_height 3 (Entity.set_width 5 (Entity.set_active true zero_entity)) in
  let b := Entity.set_x (F32.of_Z 5) a in
  check_collision a b = false /\ check_collision a a = true.
Proof.
  intros a b. split.
  - apply (proj2 (proj2 check_collision_symmetric_strict) a b). reflexivity.
  - vm_compute. reflexivity.
Defined.

(** ** The bullet pool *)

Lemma spawn_in_pool_first_fit (x y dy : f32) (t : EntityType) (pool : list Entity.t) :
  forall (i : nat) (b : Entity.t),
    pool !! i = Some b ->
    Entity.active b = false ->
    (forall j c, (j < i)%nat -> pool !! j = Some c -> Entity.active c = true) ->
    spawn_in_pool x y dy t pool = <[i := fire_bullet x y dy t b]> pool /\
    length (List.filter Entity.active (spawn_in_pool x y dy t pool))
    = S (length (List.filter Entity.active pool)).
Proof.
  induction pool as [ | c rest IH]; intros i b Hb Hfree Hfirst; [discriminate | ].
  destruct i as [ | i].
  - injection Hb as ->. cbn [spawn_in_pool]. rewrite Hfree. cbn [negb].
    split; [reflexivity | ].
    cbn [List.filter]. rewrite Hfree.
    change (Entity.active (fire_bullet x y dy t b)) with true. reflexivity.
  - assert (Hc : Entity.active c = true) by (apply (Hfirst 0%nat c); [lia | reflexivity]).
    cbn [spawn_in_pool]. rewrite Hc. cbn [negb].
    destruct (IH i b Hb Hfree) as (Heq & Hcount).
    { intros j c0 Hj Hc0. apply (Hfirst (S j) c0); [lia | exact Hc0]. }
    split.
    + rewrite Heq. reflexivity.
    + cbn [List.filter]. rewrite Hc. cbn [length]. rewrite Hcount. reflexivity.
Qed.

(** X3: [spawn_bullet] is first-fit.  When slot [i] is the first free slot
    of the pool, the new bullet goes to slot [i] and nowhere else: it is
    active, at the given place, with no horizontal speed and the given
    vertical speed, of size 1 by 1 and of the given type; every other slot
    is as before, the pool keeps its size, and it holds exactly one more
    active bullet. *)
Theorem spawn_bullet_first_fit
  (m : GameModel) (x y dy : f32) (t : EntityType) (i : nat) (b : Entity.t) :
  bullets m !! i = Some b ->
  Entity.active b = false ->
  (forall j c, (j < i)%nat -> bullets m !! j = Some c -> Entity.active c = true) ->
  let m' := spawn_bullet m x y dy t in
  let nb := fire_bullet x y dy t b in
  bullets m' = <[i := nb]> (bullets m) /\
  Entity.active nb = true /\
  Entity.x nb = x /\ Entity.y nb = y /\
  Entity.dx nb = F32.of_Z 0 /\ Entity.dy nb = dy /\
  Entity.width nb = 1 /\ Entity.height nb = 1 /\ Entity.type nb = t /\
  length (bullets m') = length (bullets m) /\
  length (List.filter Entity.active (bullets m'))
  = S (length (List.filter Entity.active (bullets m))).
Proof.
  intros Hb Hfree Hfirst. cbv zeta.
  destruct (spawn_in_pool_first_fit x y dy t (bullets m) i b Hb Hfree Hfirst)
    as (Heq & Hcount).
  unfold spawn_bullet. cbn [bullets set_bullets].
  split; [exact Heq | ].
  do 8 (split; [reflexivity | ]).
  split; [rewrite Heq; apply length_insert | exact Hcount].
Qed.

Lemma spawn_bullet_first_fit_witness :
  let m := reset_game model_init in
  bullets (spawn_bullet m (F32.of_Z 3) (F32.of_Z 4) BULLET_SPEED ENTITY_BULLET_ENEMY)
  = <[0%nat := fire_bullet (F32.of_Z 3) (F32.of_Z 4) BULLET_SPEED
                 ENTITY_BULLET_ENEMY zero_entity]> (bullets m).
Proof.
  intros m.
  refine (proj1 (spawn_bullet_first_fit m (F32.of_Z 3) (F32.of_Z 4) BULLET_SPEED
                   ENTITY_BULLET_ENEMY 0%nat zero_entity _ _ _)).
  - reflexivity.
  - reflexivity.
  - intros j c Hj. lia.
Defined.

(** ** A player bullet against the enemies *)

(** X4: the scan of the enemies for a player bullet stops at the first live
    enemy the bullet collides with: that enemy alone starts exploding, with
    a timer of 0.2, and the points are 10 for type 1, 20 for type 2 and 30
    for any other type; no live enemy before it collides.  The scan finds
    nothing exactly when no live enemy collides. *)
Theorem hit_enemies_first_match (b : Entity.t) (es : list Entity.t) :
  match hit_enemies b es with
  | Some (es', pts) =>
      exists (j : nat) (e : Entity.t),
        es !! j = Some e /\
        is_live e = true /\ check_collision b e = true /\
        es' = <[j := Entity.set_explode_timer (F32.lit 2 1)
                        (Entity.set_exploding true e)]> es /\
        pts = (match Entity.type e with
               | ENTITY_ENEMY_TYPE_1 => 10
               | ENTITY_ENEMY_TYPE_2 => 20
               | _ => 30
               end) /\
        (forall i e0, (i < j)%nat -> es !! i = Some e0 ->
                      is_live e0 && check_collision b e0 = false)
  | None =>
      Forall (fun e => is_live e && check_collision b e = false) es
  end.
Proof.
  induction es as [ | e rest IH]; cbn [hit_enemies]; [constructor | ].
  destruct (is_live e && check_collision b e) eqn:E.
  - apply andb_true_iff in E. destruct E as (El & Ec).
    exists 0%nat, e. repeat split; auto.
    + destruct (Entity.type e); reflexivity.
    + intros i e0 Hi. lia.
  - destruct (hit_enemies b rest) as [[rest' pts] | ].
    + destruct IH as (j & e1 & Hj & Hl & Hc & -> & Hp & Hfirst).
      exists (S j), e1. repeat split; auto.
      intros [ | i] e0 Hi He0.
      * injection He0 as <-. exact E.
      * apply (Hfirst i); [lia | exact He0].
    + constructor; assumption.
Qed.

(** ** Enemy fire *)

Lemma enemy_fire_tries_one (k : nat) (m : GameModel) :
  forall g : RandGen,
    fst (enemy_fire_tries k m g) = m \/
    exists (idx : nat) (e : Entity.t),
      enemies m !! idx = Some e /\ is_live e = true /\
      fst (enemy_fire_tries k m g)
      = spawn_bullet m
          (F32.add (Entity.x e) (F32.div (F32.of_Z ENEMY_WIDTH) (F32.of_Z 2)))
          (F32.add (Entity.y e) (F32.of_Z ENEMY_HEIGHT))
          (F32.mul BULLET_SPEED (F32.lit 6 1)) ENTITY_BULLET_ENEMY.
Proof.
  induction k as [ | k IH]; intros g; [left; reflexivity | ].
  cbn [enemy_fire_tries]. unfold rand. cbv beta iota zeta.
  destruct (enemy_at m _) as [e | ] eqn:He; [ | apply IH].
  destruct (is_live e) eqn:Hl; [ | apply IH].
  right. unfold enemy_at in He.
  destruct (_ <? 0); [discriminate | ].
  eexists. exists e. split; [exact He | ]. split; [exact Hl | reflexivity].
Qed.

(** X5: the enemy fire of one step spawns at most one bullet.  Either the
    model is left as it is, or one bullet is spawned, first-fit, for a live
    enemy of the array: two units right of its left edge and three below
    its top, going down at 60 * 0.6f, which is 36 in binary32. *)
Theorem enemies_fire_at_most_one (m : GameModel) (g : RandGen) :
  (fst (enemies_fire m g) = m \/
   exists (idx : nat) (e : Entity.t),
     enemies m !! idx = Some e /\ is_live e = true /\
     fst (enemies_fire m g)
     = spawn_bullet m
         (F32.add (Entity.x e) (F32.of_Z 2))
         (F32.add (Entity.y e) (F32.of_Z 3))
         (F32.of_Z 36) ENTITY_BULLET_ENEMY) /\
  F32.div (F32.of_Z ENEMY_WIDTH) (F32.of_Z 2) = F32.of_Z 2 /\
  F32.mul BULLET_SPEED (F32.lit 6 1) = F32.of_Z 36.
Proof.
  assert (H2 : F32.div (F32.of_Z ENEMY_WIDTH) (F32.of_Z 2) = F32.of_Z 2)
    by (vm_compute; reflexivity).
  assert (H36 : F32.mul BULLET_SPEED (F32.lit 6 1) = F32.of_Z 36)
    by (vm_compute; reflexivity).
  split; [ | split; assumption].
  unfold enemies_fire, rand. cbv beta iota zeta.
  destruct (_ <? _); [ | left; reflexivity].
  destruct (enemy_fire_tries_one 10 m (fun n => g (S n))) as [H | (idx & e & He & Hl & H)].
  - left. exact H.
  - right. exists idx, e. rewrite H, H2, H36. auto.
Qed.

(** ** What input handling does to the save directory *)

Lemma generate_unique_filename_from_free (fs : FileSystem) (base_name : string)
  (fuel : nat) :
  forall (i : Z) (new_name : string),
    generate_unique_filename_from fuel fs base_name i = Some new_name ->
    save_file_exists fs new_name = false /\
    exists j, new_name = unique_candidate base_name j.
Proof.
  induction fuel as [ | fuel IH]; intros i new_name H; [discriminate | ].
  cbn [generate_unique_filename_from] in H.
  destruct (save_file_exists fs (unique_candidate base_name i)) eqn:E;
    cbn [negb] in H.
  - apply (IH _ _ H).
  - injection H as <-. split; [exact E | exists i; reflexivity].
Qed.

Lemma handle_menu_fs (fs : FileSystem) (m : GameModel) (cmd : GameCommand)
  (fs' : FileSystem) (m' : GameModel) :
  handle_menu fs m cmd = Continue (fs', m') -> fs' = fs.
Proof. unfold handle_menu. no_write_handler. Qed.

Lemma handle_load_menu_fs (fs : FileSystem) (m : GameModel) (cmd : GameCommand)
  (fs' : FileSystem) (m' : GameModel) :
  handle_load_menu fs m cmd = Continue (fs', m') -> fs' = fs.
Proof. unfold handle_load_menu. no_write_handler. Qed.

Lemma handle_tutorial_fs (fs : FileSystem) (m : GameModel) (cmd : GameCommand)
  (fs' : FileSystem) (m' : GameModel) :
  handle_tutorial fs m cmd = Continue (fs', m') -> fs' = fs.
Proof. unfold handle_tutorial. no_write_handler. Qed.

Lemma handle_playing_fs (fs : FileSystem) (m : GameModel) (cmd : GameCommand)
  (fs' : FileSystem) (m' : GameModel) :
  handle_playing fs m cmd = Continue (fs', m') -> fs' = fs.
Proof. unfold handle_playing. no_write_handler. Qed.

Lemma handle_paused_fs (fs : FileSystem) (m : GameModel) (cmd : GameCommand)
  (fs' : FileSystem) (m' : GameModel) :
  handle_paused fs m cmd = Continue (fs', m') -> fs' = fs.
Proof. unfold handle_paused. no_write_handler. Qed.

Lemma handle_game_over_fs (fs : FileSystem) (m : GameModel) (cmd : GameCommand)
  (fs' : FileSystem) (m' : GameModel) :
  handle_game_over fs m cmd = Continue (fs', m') -> fs' = fs.
Proof. unfold handle_game_over. no_write_handler. Qed.

Lemma handle_save_select_fs (fs : FileSystem) (m : GameModel) (cmd : GameCommand)
  (fs' : FileSystem) (m' : GameModel) :
  handle_save_select fs m cmd = Continue (fs', m') -> fs' = fs.
Proof. unfold handle_save_select. no_write_handler. Qed.

Lemma handle_confirm_quit_fs (fs : FileSystem) (m : GameModel) (cmd : GameCommand)
  (fs' : FileSystem) (m' : GameModel) :
  handle_confirm_quit fs m cmd = Continue (fs', m') -> fs' = fs.
Proof. unfold handle_confirm_quit. no_write_handler. Qed.

Lemma handle_save_input_fs (fs : FileSystem) (m : GameModel) (cmd : GameCommand)
  (fs' : FileSystem) (m' : GameModel) :
  handle_save_input fs m cmd = Continue (fs', m') ->
  saved_or_same fs fs' true /\
  (cmd_is cmd CMD_RETURN || cmd_is cmd CMD_SHOOT = false -> fs' = fs).
Proof.
  unfold handle_save_input, saved_or_same.
  destruct (cmd_is cmd CMD_PAUSE).
  { intros [= <- _]. auto. }
  destruct (cmd_is cmd CMD_RETURN || cmd_is cmd CMD_SHOOT).
  - destruct (strlen (input_buffer m) >? 0).
    + destruct (save_file_exists fs _) eqn:E.
      * intros [= <- _]. split; [auto | discriminate].
      * intros [= <- _]. split; [ | discriminate].
        right. eexists. eexists. split; [reflexivity | ]. intros _. exact E.
    + intros [= <- _]. auto.
  - intros [= <- _]. auto.
Qed.

Lemma handle_overwrite_confirm_fs (fuel : nat) (fs : FileSystem) (m : GameModel)
  (cmd : GameCommand) (fs' : FileSystem) (m' : GameModel) :
  handle_overwrite_confirm fuel fs m cmd = Continue (fs', m') ->
  saved_or_same fs fs' (negb (menu_selection m =? 0)) /\
  (cmd_is cmd CMD_RETURN || cmd_is cmd CMD_SHOOT = false -> fs' = fs).
Proof.
  unfold handle_overwrite_confirm, saved_or_same.
  destruct (cmd_is cmd CMD_LEFT || cmd_is cmd CMD_RIGHT || cmd_is cmd CMD_UP
            || cmd_is cmd CMD_DOWN).
  { intros [= <- _]. auto. }
  destruct (cmd_is cmd CMD_RETURN || cmd_is cmd CMD_SHOOT).
  - change (menu_selection (request_select_sound m)) with (menu_selection m).
    destruct (menu_selection m =? 0).
    + intros [= <- _]. split; [ | discriminate].
      right. eexists. eexists. split; [reflexivity | discriminate].
    + destruct (generate_unique_filename fuel fs _) as [new_name | ] eqn:E;
        [ | discriminate].
      intros [= <- _]. split; [ | discriminate].
      right. eexists. exists new_name. split; [reflexivity | ]. intros _.
      apply (generate_unique_filename_from_free _ _ _ _ _ E).
  - destruct (cmd_is cmd CMD_PAUSE); intros [= <- _]; auto.
Qed.

(** X6: input handling and the files.  A call of [model_handle_input]
    that returns leaves the directory as it was unless the state is the
    name input or the overwrite confirmation and the command is Confirm or
    Shoot; it then writes at most one file.  A file that exists keeps its
    content in every case but one: the overwrite confirmation with the
    cursor on "overwrite" (0); "keep both" in particular never replaces a
    file. *)
Theorem input_writes_only_confirmed_saves
  (fuel : nat) (fs : FileSystem) (m : GameModel) (cmd : GameCommand)
  (fs' : FileSystem) (m' : GameModel) :
  model_handle_input fuel fs m cmd = Continue (fs', m') ->
  ((state m <> STATE_SAVE_INPUT /\ state m <> STATE_OVERWRITE_CONFIRM) \/
   (cmd <> CMD_RETURN /\ cmd <> CMD_SHOOT) ->
   fs' = fs) /\
  (exists path, forall p, p <> path -> fs_files fs' !! p = fs_files fs !! p) /\
  (~ (state m = STATE_OVERWRITE_CONFIRM /\ menu_selection m = 0) ->
   forall p f, fs_files fs !! p = Some f -> fs_files fs' !! p = Some f).
Proof.
  intros H.
  assert (Hcmd : cmd <> CMD_RETURN /\ cmd <> CMD_SHOOT ->
                 cmd_is cmd CMD_RETURN || cmd_is cmd CMD_SHOOT = false).
  { intros (H1 & H2). destruct cmd; try reflexivity; congruence. }
  assert (Hsaved : saved_or_same fs fs'
                     (negb (match state m with
                            | STATE_OVERWRITE_CONFIRM => menu_selection m =? 0
                            | _ => false
                            end)) /\
                   ((state m <> STATE_SAVE_INPUT /\ state m <> STATE_OVERWRITE_CONFIRM) \/
                    (cmd <> CMD_RETURN /\ cmd <> CMD_SHOOT) -> fs' = fs)).
  { unfold model_handle_input in H.
    destruct (state m) eqn:Hs;
      try (split; [left | intros _];
           first [ apply (handle_menu_fs _ _ _ _ _ H)
                 | apply (handle_load_menu_fs _ _ _ _ _ H)
                 | apply (handle_tutorial_fs _ _ _ _ _ H)
                 | apply (handle_playing_fs _ _ _ _ _ H)
                 | apply (handle_paused_fs _ _ _ _ _ H)
                 | apply (handle_game_over_fs _ _ _ _ _ H)
                 | apply (handle_save_select_fs _ _ _ _ _ H)
                 | apply (handle_confirm_quit_fs _ _ _ _ _ H)
                 | (injection H as <- _; reflexivity) ]).
    - destruct (handle_save_input_fs _ _ _ _ _ H) as (Hs1 & Hs2).
      split; [exact Hs1 | ].
      intros [(Hne & _) | Hc]; [congruence | apply Hs2, Hcmd, Hc].
    - destruct (handle_overwrite_confirm_fs _ _ _ _ _ _ H) as (Hs1 & Hs2).
      split; [exact Hs1 | ].
      intros [(_ & Hne) | Hc]; [congruence | apply Hs2, Hcmd, Hc]. }
  destruct Hsaved as (Hsaved & Hsame).
  split; [exact Hsame | ]. split.
  - destruct Hsaved as [-> | (image & filename & -> & _)].
    + exists "". reflexivity.
    + exists (save_path filename). intros p Hp.
      apply save_keeps_other_files, Hp.
  - intros Hnot p f Hp.
    destruct Hsaved as [-> | (image & filename & -> & Hfree)]; [exact Hp | ].
    apply save_to_free_name_keeps_files; [ | exact Hp].
    apply Hfree. apply negb_true_iff.
    destruct (state m) eqn:Hs; try reflexivity.
    destruct (Z.eqb_spec (menu_selection m) 0); [ | reflexivity].
    exfalso. apply Hnot. auto.
Qed.

Lemma input_writes_only_confirmed_saves_witness :
  exists fs' m',
    model_handle_input 5 run_dir keep_both_model CMD_RETURN = Continue (fs', m') /\
    fs_files fs' !! "sauvegardes/Run.dat" = Some ShortFile /\
    fs_files fs' !! "sauvegardes/Run(1).dat" = Some ShortFile.
Proof.
  destruct (model_handle_input 5 run_dir keep_both_model CMD_RETURN)
    as [[fs' m'] | | ] eqn:E.
  - exists fs', m'. split; [reflexivity | ].
    assert (Hnot : ~ (state keep_both_model = STATE_OVERWRITE_CONFIRM /\
                      menu_selection keep_both_model = 0))
      by (intros (_ & Hsel); discriminate Hsel).
    pose proof (proj2 (proj2 (input_writes_only_confirmed_saves 5 run_dir
                                keep_both_model CMD_RETURN fs' m' E)) Hnot) as Hkeep.
    split; apply Hkeep; reflexivity.
  - vm_compute in E. discriminate E.
  - vm_compute in E. discriminate E.
Defined.

(** ** What the simulation never touches *)

Lemma early_phases_settings (m : GameModel) (dt : f64) :
  settings (update_player (update_beat (update_timers m dt) dt) dt) = settings m.
Proof.
  unfold update_player, update_beat, update_timers. split_ifs; reflexivity.
Qed.

Lemma update_ufo_settings (m : GameModel) (dt : f64) (g : RandGen) :
  settings (fst (update_ufo m dt g)) = settings m.
Proof.
  unfold update_ufo, spawn_ufo, rand. cbv beta iota zeta.
  split_ifs; reflexivity.
Qed.

Lemma enemies_turn_settings (m : GameModel) : settings (enemies_turn m) = settings m.
Proof. unfold enemies_turn. split_ifs; reflexivity. Qed.

Lemma enemy_fire_tries_settings (k : nat) (m : GameModel) (g : RandGen) :
  settings (fst (enemy_fire_tries k m g)) = settings m.
Proof.
  revert g. induction k as [ | k IH]; intros g; [reflexivity | ].
  cbn [enemy_fire_tries]. unfold rand. cbv beta iota zeta.
  destruct (enemy_at m _) as [e | ]; [ | apply IH].
  destruct (is_live e); [reflexivity | apply IH].
Qed.

Lemma enemies_fire_settings (m : GameModel) (g : RandGen) :
  settings (fst (enemies_fire m g)) = settings m.
Proof.
  unfold enemies_fire, rand. cbv beta iota zeta.
  destruct (_ <? _); [apply enemy_fire_tries_settings | reflexivity].
Qed.

Lemma update_bullet_settings (dt : f64) (m : GameModel) (i : nat) :
  settings (update_bullet dt m i) = settings m.
Proof.
  unfold update_bullet.
  destruct (bullets m !! i) as [b | ]; [ | reflexivity].
  destruct (negb (Entity.active b)); [reflexivity | ].
  destruct (out_of_field _); [reflexivity | ].
  destruct (hit_shields _ _); [reflexivity | ].
  destruct (type_is _ _).
  - unfold player_bullet_hits.
    destruct (_ && _); [reflexivity | ].
    destruct (hit_enemies _ _) as [[es pts] | ]; reflexivity.
  - unfold enemy_bullet_hits.
    destruct (_ && _); [ | reflexivity].
    destruct (_ <=? _); reflexivity.
Qed.

Lemma update_bullets_settings (m : GameModel) (dt : f64) :
  settings (update_bullets m dt) = settings m.
Proof.
  unfold update_bullets.
  apply (fold_left_preserves (fun a => settings a = settings m)).
  - intros a i Ha. rewrite update_bullet_settings. exact Ha.
  - reflexivity.
Qed.

Lemma update_playing_settings (m : GameModel) (dt : f64) (g : RandGen) :
  settings (fst (update_playing m dt g)) = settings m.
Proof.
  unfold update_playing, playing_prefix.
  pose proof (update_ufo_settings
                (update_player (update_beat (update_timers m dt) dt) dt) dt g) as Hu.
  rewrite early_phases_settings in Hu.
  destruct (update_ufo _ dt g) as [m1 g1]. cbn [fst] in Hu.
  destruct (scan_enemies _ _ _ _) as [es [n touch]].
  destruct (_ && _).
  - cbn [fst]. exact Hu.
  - set (m2 := if touch then enemies_turn (set_enemies es m1)
               else enemies_advance (set_enemies es m1) dt).
    assert (H2 : settings m2 = settings m).
    { subst m2. destruct touch; [rewrite enemies_turn_settings | ]; exact Hu. }
    pose proof (enemies_fire_settings m2 g1) as H3.
    destruct (enemies_fire m2 g1) as [m3 g3]. cbn [fst] in H3 |- *.
    rewrite update_bullets_settings. congruence.
Qed.

(** X7: whatever the state, a simulation step that returns has not
    changed the volume, the mute flag, the input buffer, the cached list of
    save files and its count, nor the remembered previous state. *)
Theorem simulation_keeps_settings
  (m : GameModel) (dt : f64) (g : RandGen) (m' : GameModel) (g' : RandGen) :
  model_update m dt g = Continue (m', g') ->
  volume m' = volume m /\ is_muted m' = is_muted m /\
  input_buffer m' = input_buffer m /\ save_files m' = save_files m /\
  save_file_count m' = save_file_count m /\ previous_state m' = previous_state m.
Proof.
  intros H.
  assert (Hs : settings m' = settings m).
  { unfold model_update in H.
    destruct (state m); try (injection H as <- _; reflexivity).
    - injection H as H.
      replace m' with (fst (update_playing m dt g)) by (rewrite H; reflexivity).
      apply update_playing_settings.
    - destruct (F32.leb _ _); [discriminate | ].
      injection H as <- _. reflexivity. }
  unfold settings in Hs. injection Hs as -> -> -> -> -> ->. repeat split.
Qed.

Lemma simulation_keeps_settings_witness :
  exists m' g',
    model_update run_right_model FIXED_DT g_ones = Continue (m', g') /\
    volume m' = 30.
Proof.
  destruct (model_update run_right_model FIXED_DT g_ones) as [[m' g'] | | ] eqn:E.
  - exists m', g'. split; [reflexivity | ].
    destruct (simulation_keeps_settings _ _ _ _ _ E) as (Hv & _).
    rewrite Hv. reflexivity.
  - vm_compute in E. discriminate E.
  - vm_compute in E. discriminate E.
Defined.

(** ** Pause *)

Lemma run_updates_frozen (dts : list f64) (m : GameModel) (g : RandGen) :
  is_simulated (state m) = false ->
  run_updates dts m g = Continue (m, g).
Proof.
  intros Hs. induction dts as [ | dt rest IH]; [reflexivity | ].
  cbn [run_updates]. unfold model_update.
  destruct (state m); try discriminate Hs; exact IH.
Qed.

(** X8: outside Playing, Game Over and the save banner the simulation is
    frozen: any run of steps returns the same model and has used no random
    number.  In particular Pause, then any number of steps, then Pause
    again gives back the game that was paused, with the menu cursor at 0. *)
Theorem pause_freezes_the_game :
  (forall (dts : list f64) (m : GameModel) (g : RandGen),
     is_simulated (state m) = false ->
     run_updates dts m g = Continue (m, g)) /\
  (forall (fuel : nat) (fs : FileSystem) (m : GameModel) (g : RandGen)
          (dts : list f64),
     state m = STATE_PLAYING ->
     exists paused,
       model_handle_input fuel fs m CMD_PAUSE = Continue (fs, paused) /\
       state paused = STATE_PAUSED /\
       run_updates dts paused g = Continue (paused, g) /\
       model_handle_input fuel fs paused CMD_PAUSE
       = Continue (fs, set_menu_selection 0 m)).
Proof.
  split; [exact run_updates_frozen | ].
  intros fuel fs m g dts Hs.
  exists (set_menu_selection 0 (set_state STATE_PAUSED m)).
  split.
  { unfold model_handle_input. rewrite Hs. reflexivity. }
  split; [reflexivity | ]. split.
  { apply run_updates_frozen. reflexivity. }
  unfold model_handle_input. cbn [state set_state set_menu_selection].
  unfold handle_paused. cbn [cmd_is GameCommand_code Z.eqb Pos.eqb].
  rewrite <- Hs. destruct m; reflexivity.
Qed.

Lemma pause_freezes_the_game_witness :
  exists paused,
    model_handle_input 0 empty_dir run_right_model CMD_PAUSE
    = Continue (empty_dir, paused) /\
    run_updates (replicate 5 FIXED_DT) paused g_ones = Continue (paused, g_ones) /\
    model_handle_input 0 empty_dir paused CMD_PAUSE
    = Continue (empty_dir, set_menu_selection 0 run_right_model).
Proof.
  destruct (proj2 pause_freezes_the_game 0%nat empty_dir run_right_model g_ones
              (replicate 5 FIXED_DT) eq_refl)
    as (paused & H1 & _ & H2 & H3).
  exists paused. exact (conj H1 (conj H2 H3)).
Defined.

(** ** Menus *)

Lemma cursor_up_mod (top : Z) (m : GameModel) :
  0 <= top < INT_MAX -> 0 <= menu_selection m <= top ->
  cursor_up top m = set_menu_selection ((menu_selection m - 1) mod (top + 1)) m.
Proof.
  unfold INT_MAX. intros Ht Hc. unfold cursor_up.
  rewrite wrap_int_id by (unfold is_int, INT_MIN, INT_MAX; lia).
  f_equal.
  destruct (Z.ltb_spec (menu_selection m - 1) 0).
  - replace (menu_selection m - 1) with (-1) by lia.
    apply Z.mod_unique with (q := -1); lia.
  - symmetry. apply Z.mod_small. lia.
Qed.

Lemma cursor_down_mod (top : Z) (m : GameModel) :
  0 <= top < INT_MAX -> 0 <= menu_selection m <= top ->
  cursor_down top m = set_menu_selection ((menu_selection m + 1) mod (top + 1)) m.
Proof.
  unfold INT_MAX. intros Ht Hc. unfold cursor_down.
  rewrite wrap_int_id by (unfold is_int, INT_MIN, INT_MAX; lia).
  f_equal.
  destruct (Z.gtb_spec (menu_selection m + 1) top).
  - replace (menu_selection m + 1) with (top + 1) by lia.
    rewrite Z.mod_same by lia. reflexivity.
  - symmetry. apply Z.mod_small. lia.
Qed.

(** X9: in the main menu, the pause menu, the Game Over screen, the quit
    confirmation and the slot selection, Up and Down move the cursor
    cyclically over the entries [0 .. top] of that menu, Up to
    [(c - 1) mod (top + 1)] and Down to [(c + 1) mod (top + 1)], and change
    nothing else, neither in the model nor on disk. *)
Theorem menu_cursor_cycles (fuel : nat) (fs : FileSystem) (m : GameModel) (top : Z) :
  menu_top m = Some top ->
  0 <= top < INT_MAX ->
  0 <= menu_selection m <= top ->
  model_handle_input fuel fs m CMD_UP
  = Continue (fs, set_menu_selection ((menu_selection m - 1) mod (top + 1)) m) /\
  model_handle_input fuel fs m CMD_DOWN
  = Continue (fs, set_menu_selection ((menu_selection m + 1) mod (top + 1)) m).
Proof.
  intros Htop Ht Hc.
  rewrite <- (cursor_up_mod top m Ht Hc), <- (cursor_down_mod top m Ht Hc).
  unfold menu_top in Htop. unfold model_handle_input.
  destruct (state m); try discriminate Htop; injection Htop as <-.
  - unfold handle_menu. cbn [cmd_is GameCommand_code Z.eqb Pos.eqb orb].
    split; destruct (menu_selection _ =? 3); reflexivity.
  - unfold handle_paused. cbn [cmd_is GameCommand_code Z.eqb Pos.eqb orb].
    split; destruct (menu_selection _ =? 1); reflexivity.
  - split; reflexivity.
  - split; reflexivity.
  - split; reflexivity.
Qed.

Lemma menu_cursor_cycles_witness :
  model_handle_input 0 empty_dir model_init CMD_UP
  = Continue (empty_dir, set_menu_selection 4 model_init) /\
  model_handle_input 0 empty_dir model_init CMD_DOWN
  = Continue (empty_dir, set_menu_selection 1 model_init).
Proof.
  refine (menu_cursor_cycles 0 empty_dir model_init 4 eq_refl _ _).
  - unfold INT_MAX. lia.
  - change (menu_selection model_init) with 0. lia.
Defined.

(** ** Volume *)

Lemma scan_keeps_field {A : Type} (f : GameModel -> A) :
  (forall v m, f (set_save_files v m) = f m) ->
  (forall v m, f (set_save_file_count v m) = f m) ->
  forall fs m, f (model_scan_saves fs m) = f m.
Proof.
  intros Hfiles Hcount fs m. unfold model_scan_saves.
  destruct (fs_listing fs) as [entries | ]; [ | apply Hcount].
  rewrite <- (Hcount 0 m). generalize (set_save_file_count 0 m).
  induction entries as [ | d rest IH]; intros a; [reflexivity | ].
  cbn [fold_left]. rewrite IH. unfold scan_entry.
  destruct (first_char_is _ _); [reflexivity | ].
  destruct (strstr _ _); [ | reflexivity].
  destruct (_ <? _); [ | reflexivity].
  rewrite Hcount, Hfiles. reflexivity.
Qed.

(** X10: the volume stays in [0, 100].  From a volume in that range, any
    command in any state other than the load menu, where a loaded file
    brings its own volume, leaves the volume in the range. *)
Theorem volume_stays_in_range (fuel : nat) (fs : FileSystem) (m : GameModel)
  (cmd : GameCommand) (fs' : FileSystem) (m' : GameModel) :
  state m <> STATE_LOAD_MENU ->
  0 <= volume m <= 100 ->
  model_handle_input fuel fs m cmd = Continue (fs', m') ->
  0 <= volume m' <= 100.
Proof.
  intros Hs Hv H. unfold model_handle_input in H.
  destruct (state m); try (exfalso; apply Hs; reflexivity);
    unfold handle_menu, handle_playing, handle_paused, handle_tutorial,
      handle_game_over, handle_confirm_quit, handle_save_input,
      handle_overwrite_confirm, handle_save_select in H;
    destruct cmd;
    cbn [cmd_is GameCommand_code Z.eqb Pos.eqb orb andb] in H;
    rewrite ?(wrap_int_id (volume _ - 10)), ?(wrap_int_id (volume _ + 10)) in H
      by (unfold is_int, INT_MIN, INT_MAX; lia);
    repeat match type of H with
           | context [if ?a <? ?b then _ else _] => destruct (Z.ltb_spec a b)
           | context [if ?a >? ?b then _ else _] => destruct (Z.gtb_spec a b)
           | context [if ?c then _ else _] => destruct c
           | context [match ?x with _ => _ end] => destruct x
           end;
    first [ discriminate H
          | injection H as _ <-;
            cbn [volume set_volume set_is_muted set_menu_selection set_state
                 set_sounds set_previous_state set_input_buffer
                 set_save_success_timer set_player set_bullets request_select_sound
                 cursor_up cursor_down spawn_bullet];
            rewrite ?(scan_keeps_field volume) by reflexivity;
            first [exact Hv | lia] ].
Qed.

Lemma volume_stays_in_range_witness :
  exists fs' m',
    model_handle_input 0 empty_dir (set_menu_selection 3 model_init) CMD_RIGHT
    = Continue (fs', m') /\
    0 <= volume m' <= 100.
Proof.
  destruct (model_handle_input 0 empty_dir (set_menu_selection 3 model_init) CMD_RIGHT)
    as [[fs' m'] | | ] eqn:E.
  - exists fs', m'. split; [reflexivity | ].
    apply (volume_stays_in_range 0 empty_dir (set_menu_selection 3 model_init)
             CMD_RIGHT fs' m'); [discriminate | | exact E].
    change (volume (set_menu_selection 3 model_init)) with 30. lia.
  - vm_compute in E. discriminate E.
  - vm_compute in E. discriminate E.
Defined.

(** ** Loading from the menu *)

(** X11: Confirm in the load menu.  With no cached file nothing happens.
    Otherwise the file under the cursor is loaded: a whole record replaces
    the game, which resumes in Playing with the sounds block cleared, the
    select sound just requested included; a missing or short file leaves
    the menu open and only the select sound requested.  The directory is
    never written. *)
Theorem load_menu_confirm (fuel : nat) (fs : FileSystem) (m : GameModel)
  (cmd : GameCommand) :
  state m = STATE_LOAD_MENU ->
  cmd = CMD_RETURN \/ cmd = CMD_SHOOT ->
  let path := save_path (save_file_at m (menu_selection m)) in
  model_handle_input fuel fs m cmd
  = Continue
      (fs,
       if save_file_count m >? 0 then
         match fs_files fs !! path with
         | Some (FullRecord temp) => loaded_from temp
         | _ => request_select_sound m
         end
       else m) /\
  (forall temp,
     state (loaded_from temp) = STATE_PLAYING /\
     play_select_sound (sounds (loaded_from temp)) = false) /\
  state (request_select_sound m) = STATE_LOAD_MENU.
Proof.
  intros Hs Hcmd. cbv zeta.
  split; [ | split; [intros temp; split; reflexivity | exact Hs]].
  unfold model_handle_input. rewrite Hs. unfold handle_load_menu.
  assert (H1 : cmd_is cmd CMD_EXIT || cmd_is cmd CMD_PAUSE = false)
    by (destruct Hcmd; subst cmd; reflexivity).
  assert (H2 : cmd_is cmd CMD_UP = false) by (destruct Hcmd; subst cmd; reflexivity).
  assert (H3 : cmd_is cmd CMD_DOWN = false) by (destruct Hcmd; subst cmd; reflexivity).
  assert (H4 : cmd_is cmd CMD_RETURN || cmd_is cmd CMD_SHOOT = true)
    by (destruct Hcmd; subst cmd; reflexivity).
  rewrite H1, H2, H3, H4.
  destruct (save_file_count m >? 0); [ | reflexivity].
  unfold model_load_named.
  change (save_file_at (request_select_sound m)
            (menu_selection (request_select_sound m)))
    with (save_file_at m (menu_selection m)).
  destruct (fs_files fs !! save_path (save_file_at m (menu_selection m)))
    as [[temp | ] | ]; reflexivity.
Qed.

Lemma load_menu_confirm_witness :
  let m := set_state STATE_LOAD_MENU (model_scan_saves one_save_dir model_init) in
  model_handle_input 0 one_save_dir m CMD_RETURN
  = Continue (one_save_dir, loaded_from run_right_model).
Proof.
  intros m.
  destruct (load_menu_confirm 0 one_save_dir m CMD_RETURN eq_refl (or_introl eq_refl))
    as (H & _).
  rewrite H. reflexivity.
Defined.

(** ** The Exit command of the driver *)

(** X12: the Exit rule of the main loop.  In the quit confirmation Exit
    ends the process; in any other state it opens the quit confirmation
    with the cursor on "No" and the state it came from remembered, without
    calling the model, so that a second Exit always ends the process.
    Confirming "No" goes back to Game Over when that was the remembered
    state and to the pause menu otherwise, cursor on 3. *)
Theorem exit_asks_then_quits (fuel : nat) (fs : FileSystem) (m : GameModel) :
  (state m = STATE_CONFIRM_QUIT -> driver_input fuel fs m CMD_EXIT = Exit) /\
  (state m <> STATE_CONFIRM_QUIT ->
   let asked :=
     set_menu_selection 1
       (set_state STATE_CONFIRM_QUIT (set_previous_state (state m) m)) in
   driver_input fuel fs m CMD_EXIT = Continue (fs, asked) /\
   driver_input fuel fs asked CMD_EXIT = Exit /\
   driver_input fuel fs asked CMD_RETURN
   = Continue
       (fs,
        set_menu_selection 3
          (set_state
             (match state m with
              | STATE_GAME_OVER => STATE_GAME_OVER
              | _ => STATE_PAUSED
              end)
             (request_select_sound asked)))).
Proof.
  split.
  - intros Hs. unfold driver_input. rewrite Hs. reflexivity.
  - intros Hs. cbv zeta. split; [ | split].
    + unfold driver_input. cbn [cmd_is GameCommand_code Z.eqb Pos.eqb].
      destruct (state m); try reflexivity. congruence.
    + reflexivity.
    + reflexivity.
Qed.

Lemma exit_asks_then_quits_witness :
  exists asked,
    driver_input 0 empty_dir run_right_model CMD_EXIT = Continue (empty_dir, asked) /\
    driver_input 0 empty_dir asked CMD_EXIT = Exit.
Proof.
  destruct (proj2 (exit_asks_then_quits 0 empty_dir run_right_model))
    as (H1 & H2 & _); [discriminate | ].
  eexists. split; [exact H1 | exact H2].
Defined.

(** ** Names typed and names chosen *)

Lemma string_length_append (s t : string) :
  String.length (s ++ t) = (String.length s + String.length t)%nat.
Proof.
  induction s as [ | c s IH]; [reflexivity | ].
  change (String c s ++ t)%string with (String c (s ++ t)%string).
  cbn [String.length Nat.add]. rewrite IH. reflexivity.
Qed.

Lemma substring_whole (n : nat) (s : string) :
  (String.length s <= n)%nat -> substring 0 n s = s.
Proof.
  revert n. induction s as [ | c s IH]; intros n Hn.
  - destruct n; reflexivity.
  - destruct n as [ | n]; [cbn in Hn; lia | ].
    cbn [substring]. rewrite IH by (cbn in Hn; lia). reflexivity.
Qed.

Lemma substring_prefix (s t : string) :
  substring 0 (String.length s) (s ++ t)%string = s.
Proof.
  induction s as [ | c s IH].
  - destruct t; reflexivity.
  - change (String c s ++ t)%string with (String c (s ++ t)%string).
    cbn [String.length substring]. rewrite IH. reflexivity.
Qed.

Lemma drop_last_char_append (s : string) (c : ascii) :
  drop_last_char (s ++ String c "")%string = s.
Proof.
  unfold drop_last_char. rewrite string_length_append.
  cbn [String.length]. replace (String.length s + 1 - 1)%nat with (String.length s) by lia.
  apply substring_prefix.
Qed.

Lemma snprintf_fits (size : nat) (s : string) :
  (String.length s < size)%nat -> snprintf size s = s.
Proof.
  intros H. unfold snprintf. apply substring_whole. lia.
Qed.

(** X13: Backspace in the name input.  On an empty buffer it changes
    nothing; on a buffer that ends with the character [c] it removes that
    character and nothing else; the directory is not touched. *)
Theorem backspace_removes_last_char (fuel : nat) (fs : FileSystem) (m : GameModel) :
  state m = STATE_SAVE_INPUT ->
  (input_buffer m = "" ->
   model_handle_input fuel fs m CMD_BACKSPACE = Continue (fs, m)) /\
  (forall (s : string) (c : ascii),
     input_buffer m = (s ++ String c "")%string ->
     model_handle_input fuel fs m CMD_BACKSPACE
     = Continue (fs, set_input_buffer s m)).
Proof.
  intros Hs. unfold model_handle_input. rewrite Hs. unfold handle_save_input.
  cbn [cmd_is GameCommand_code Z.eqb Pos.eqb orb].
  split.
  - intros He. rewrite He. reflexivity.
  - intros s c He. rewrite He, drop_last_char_append.
    unfold strlen. rewrite string_length_append. cbn [String.length].
    destruct (Z.gtb_spec (Z.of_nat (String.length s + 1)) 0); [reflexivity | lia].
Qed.

Lemma backspace_removes_last_char_witness :
  let m := set_input_buffer "Run" (set_state STATE_SAVE_INPUT model_init) in
  model_handle_input 0 empty_dir m CMD_BACKSPACE
  = Continue (empty_dir, set_input_buffer "Ru" m).
Proof.
  intros m.
  apply (proj2 (backspace_removes_last_char 0 empty_dir m eq_refl) "Ru" "n"%char).
  reflexivity.
Defined.

(** X14: overwriting a listed save.  In the slot selection, with the
    cursor on the listed file "<base>.dat" (a base of 1 to 31 characters,
    what the input buffer can hold), Confirm opens the overwrite
    confirmation with the buffer holding [base] and the cursor on
    "overwrite"; a second Confirm then saves the game under that very name,
    "<base>.dat", and shows the save banner for 2 seconds. *)
Theorem overwrite_listed_save (fuel : nat) (fs : FileSystem) (m : GameModel)
  (base : string) :
  state m = STATE_SAVE_SELECT ->
  1 <= menu_selection m <= INT_MAX ->
  save_files m !! Z.to_nat (menu_selection m - 1) = Some (base ++ ".dat")%string ->
  (1 <= String.length base <= 31)%nat ->
  exists chosen,
    model_handle_input fuel fs m CMD_RETURN = Continue (fs, chosen) /\
    state chosen = STATE_OVERWRITE_CONFIRM /\
    input_buffer chosen = base /\
    menu_selection chosen = 0 /\
    model_handle_input fuel fs chosen CMD_RETURN
    = Continue
        (model_save_named fs (request_select_sound chosen) (base ++ ".dat")%string,
         set_save_success_timer (F32.of_Z 2)
           (set_state STATE_SAVE_SUCCESS (request_select_sound chosen))).
Proof.
  unfold INT_MAX. intros Hs Hc Hf Hlen.
  assert (Hat : save_file_at m (wrap_int (menu_selection m - 1)) = (base ++ ".dat")%string).
  { rewrite wrap_int_id by (unfold is_int, INT_MIN, INT_MAX; lia).
    unfold save_file_at.
    destruct (Z.ltb_spec (menu_selection m - 1) 0); [lia | ].
    rewrite Hf. reflexivity. }
  assert (Hl : wrap_int (strlen (base ++ ".dat")%string - 4) = Z.of_nat (String.length base)).
  { unfold strlen. rewrite string_length_append. cbn [String.length].
    rewrite wrap_int_id by (unfold is_int, INT_MIN, INT_MAX; lia). lia. }
  exists (set_menu_selection 0
            (set_state STATE_OVERWRITE_CONFIRM
               (set_input_buffer base (request_select_sound m)))).
  split.
  { unfold model_handle_input. rewrite Hs. unfold handle_save_select.
    cbn [cmd_is GameCommand_code Z.eqb Pos.eqb orb].
    change (menu_selection (request_select_sound m)) with (menu_selection m).
    destruct (Z.eqb_spec (menu_selection m) 0); [lia | ].
    change (save_file_at (request_select_sound m)) with (save_file_at m).
    rewrite Hat, Hl, Nat2Z.id, substring_prefix.
    destruct (Z.gtb_spec (Z.of_nat (String.length base)) 0); [reflexivity | lia]. }
  split; [reflexivity | ]. split; [reflexivity | ]. split; [reflexivity | ].
  unfold model_handle_input.
  cbn [state set_state set_menu_selection].
  unfold handle_overwrite_confirm.
  cbn [cmd_is GameCommand_code Z.eqb Pos.eqb orb].
  cbn [menu_selection input_buffer request_select_sound set_sounds set_menu_selection
       set_state set_input_buffer Z.eqb].
  rewrite snprintf_fits; [reflexivity | ].
  rewrite string_length_append. cbn [String.length]. lia.
Qed.

Lemma overwrite_listed_save_witness :
  exists chosen saved,
    model_handle_input 0 one_save_dir slot_select_model CMD_RETURN
    = Continue (one_save_dir, chosen) /\
    input_buffer chosen = "run" /\
    model_handle_input 0 one_save_dir chosen CMD_RETURN
    = Continue (model_save_named one_save_dir (request_select_sound chosen) "run.dat",
                saved).
Proof.
  destruct (overwrite_listed_save 0 one_save_dir slot_select_model "run" eq_refl)
    as (chosen & H1 & _ & H2 & _ & H3).
  - change (menu_selection slot_select_model) with 1. unfold INT_MAX. lia.
  - reflexivity.
  - cbn. lia.
  - exists chosen. eexists. split; [exact H1 | ]. split; [exact H2 | exact H3].
Defined.

(** ** The wave, the flyer and the score over a step *)

Lemma early_phases_aux (m : GameModel) (dt : f64) :
  let m0 := update_player (update_beat (update_timers m dt) dt) dt in
  wave m0 = wave m /\ ufo m0 = ufo m /\ score m0 = score m /\
  enemies m0 = enemies m /\ level m0 = level m /\ state m0 = state m /\
  lives m0 = lives m.
Proof.
  cbv zeta. unfold update_player, update_beat, update_timers.
  split_ifs; repeat split.
Qed.

Lemma update_ufo_aux (m : GameModel) (dt : f64) (g : RandGen) :
  wave (fst (update_ufo m dt g)) = wave m /\
  score (fst (update_ufo m dt g)) = score m /\
  (Ufo.hasSpawnedThisLevel (ufo m) = true ->
   Ufo.hasSpawnedThisLevel (ufo (fst (update_ufo m dt g))) = true /\
   (Ufo.active (ufo (fst (update_ufo m dt g))) = true -> Ufo.active (ufo m) = true)) /\
  (Ufo.active (ufo m) = false ->
   Ufo.active (ufo (fst (update_ufo m dt g))) = true ->
   Ufo.hasSpawnedThisLevel (ufo m) = false /\
   Ufo.hasSpawnedThisLevel (ufo (fst (update_ufo m dt g))) = true /\
   Ufo.exploding (ufo (fst (update_ufo m dt g))) = false /\
   Ufo.y (ufo (fst (update_ufo m dt g))) = F32.of_Z 4).
Proof.
  unfold update_ufo, spawn_ufo, rand, set_ufo_loop, wave. cbv beta iota zeta.
  destruct (ufo m) as [ux uy uw uh udx uact usp uex utm uty] eqn:Hu.
  cbn [ufo set_sounds set_ufo Ufo.active Ufo.exploding Ufo.hasSpawnedThisLevel
       Ufo.explode_timer Ufo.x Ufo.dx Ufo.y Ufo.set_active Ufo.set_explode_timer
       Ufo.set_x Ufo.set_dx Ufo.set_y Ufo.set_exploding Ufo.set_hasSpawnedThisLevel
       Ufo.set_type Ufo.set_width Ufo.set_height enemies].
  rewrite Hu.
  cbn [Ufo.active Ufo.exploding Ufo.hasSpawnedThisLevel
       Ufo.explode_timer Ufo.x Ufo.dx Ufo.y Ufo.set_active Ufo.set_explode_timer
       Ufo.set_x Ufo.set_dx Ufo.set_y Ufo.set_exploding Ufo.set_hasSpawnedThisLevel
       Ufo.set_type Ufo.set_width Ufo.set_height].
  destruct uact, usp, uex; cbn [negb andb];
    split_ifs;
    cbn [fst ufo set_sounds set_ufo Ufo.active Ufo.exploding Ufo.hasSpawnedThisLevel
         Ufo.y score direction_enemies drop_direction drop_step_count
         Ufo.set_active Ufo.set_explode_timer Ufo.set_x];
    repeat split; intros;
    repeat match goal with
           | H : context [ufo m] |- _ =>
               lazymatch H with Hu => fail | _ => rewrite Hu in H end
           end;
    rewrite ?Hu;
    cbn [Ufo.active Ufo.exploding Ufo.hasSpawnedThisLevel Ufo.y] in *;
    congruence.
Qed.

Lemma enemies_turn_aux (m : GameModel) :
  ufo (enemies_turn m) = ufo m /\ score (enemies_turn m) = score m /\
  (wave_ok m -> wave_ok (enemies_turn m)).
Proof.
  unfold enemies_turn.
  split; [split_ifs; reflexivity | ]. split; [split_ifs; reflexivity | ].
  unfold wave_ok. intros (Hd & Hdrop). cbv zeta.
  cbn [direction_enemies set_direction_enemies drop_direction drop_step_count
       set_drop_step_count set_drop_direction set_enemies].
  assert (Hdir : wrap_int (direction_enemies m * -1) = 1 \/
                 wrap_int (direction_enemies m * -1) = -1).
  { destruct Hd as [-> | ->]; [right | left]; reflexivity. }
  destruct Hdrop as [(Hdd & Hc) | (Hdd & Hc)]; rewrite Hdd; cbn [Z.eqb Pos.eqb].
  - rewrite wrap_int_id by (unfold is_int, INT_MIN, INT_MAX; lia).
    cbn [drop_step_count set_drop_step_count].
    destruct (Z.geb_spec (drop_step_count m + 1) 3);
      cbn [direction_enemies drop_direction drop_step_count set_drop_direction
           set_drop_step_count set_direction_enemies set_enemies];
      (split; [exact Hdir | ]); [right | left]; lia.
  - rewrite wrap_int_id by (unfold is_int, INT_MIN, INT_MAX; lia).
    cbn [drop_step_count set_drop_step_count].
    destruct (Z.leb_spec (drop_step_count m - 1) 0);
      cbn [direction_enemies drop_direction drop_step_count set_drop_direction
           set_drop_step_count set_direction_enemies set_enemies];
      (split; [exact Hdir | ]); [left | right]; lia.
Qed.

Lemma enemy_fire_tries_aux (k : nat) (m : GameModel) (g : RandGen) :
  wave (fst (enemy_fire_tries k m g)) = wave m /\
  ufo (fst (enemy_fire_tries k m g)) = ufo m /\
  score (fst (enemy_fire_tries k m g)) = score m.
Proof.
  revert g. induction k as [ | k IH]; intros g; [repeat split | ].
  cbn [enemy_fire_tries]. unfold rand. cbv beta iota zeta.
  destruct (enemy_at m _) as [e | ]; [ | apply IH].
  destruct (is_live e); [repeat split | apply IH].
Qed.

Lemma enemies_fire_aux (m : GameModel) (g : RandGen) :
  wave (fst (enemies_fire m g)) = wave m /\
  ufo (fst (enemies_fire m g)) = ufo m /\
  score (fst (enemies_fire m g)) = score m.
Proof.
  unfold enemies_fire, rand. cbv beta iota zeta.
  destruct (_ <? _); [apply enemy_fire_tries_aux | repeat split].
Qed.

Lemma hit_enemies_points (b : Entity.t) (es es' : list Entity.t) (pts : Z) :
  hit_enemies b es = Some (es', pts) -> pts = 10 \/ pts = 20 \/ pts = 30.
Proof.
  revert es' pts.
  induction es as [ | e rest IH]; intros es' pts H; cbn [hit_enemies] in H;
    [discriminate | ].
  destruct (is_live e && check_collision b e).
  - injection H as _ <-. unfold enemy_points. destruct (Entity.type e); auto.
  - destruct (hit_enemies b rest) as [[rest' p] | ]; [ | discriminate].
    injection H as _ <-. apply (IH rest' p eq_refl).
Qed.

(** What the body of the bullet loop does to the wave, the flyer flags and
    the score: the score goes up by 0, 10, 20, 30 or 100. *)
Lemma update_bullet_aux (dt : f64) (m : GameModel) (i : nat) :
  wave (update_bullet dt m i) = wave m /\
  flyer_flags (update_bullet dt m i) = flyer_flags m /\
  exists pts, 0 <= pts <= 100 /\
              score (update_bullet dt m i) = score m \/
              score (update_bullet dt m i) = wrap_int (score m + pts) /\ 0 <= pts <= 100.
Proof.
  unfold update_bullet.
  assert (Hsame : wave m = wave m /\ flyer_flags m = flyer_flags m /\
                  exists pts, 0 <= pts <= 100 /\ score m = score m \/
                              score m = wrap_int (score m + pts) /\ 0 <= pts <= 100).
  { repeat split. exists 0. left. split; [lia | reflexivity]. }
  destruct (bullets m !! i) as [b | ]; [ | exact Hsame].
  destruct (negb (Entity.active b)); [exact Hsame | ].
  destruct (out_of_field _); [exact Hsame | ].
  destruct (hit_shields _ _); [exact Hsame | ].
  destruct (type_is _ _).
  - unfold player_bullet_hits.
    destruct (_ && _).
    + split; [reflexivity | ]. split; [reflexivity | ].
      exists 100. right. split; [reflexivity | lia].
    + destruct (hit_enemies _ _) as [[es pts] | ] eqn:E; [ | exact Hsame].
      split; [reflexivity | ]. split; [reflexivity | ].
      exists pts. right. split; [reflexivity | ].
      destruct (hit_enemies_points _ _ _ _ E) as [-> | [-> | ->]]; lia.
  - unfold enemy_bullet_hits.
    destruct (_ && _); [ | exact Hsame].
    destruct (_ <=? _); exact Hsame.
Qed.

Lemma fold_left_counted {A B : Type} (P : nat -> A -> Prop) (f : A -> B -> A)
  (l : list B) :
  (forall k a b, P k a -> P (S k) (f a b)) ->
  forall k a, P k a -> P (k + length l)%nat (fold_left f l a).
Proof.
  intros Hf. induction l as [ | b l IH]; intros k a Ha; cbn [fold_left length].
  - rewrite Nat.add_0_r. exact Ha.
  - replace (k + S (length l))%nat with (S k + length l)%nat by lia.
    apply IH, Hf, Ha.
Qed.

Lemma update_bullets_aux (m : GameModel) (dt : f64) :
  INT_MIN <= score m -> score m + 10000 <= INT_MAX ->
  wave (update_bullets m dt) = wave m /\
  flyer_flags (update_bullets m dt) = flyer_flags m /\
  score m <= score (update_bullets m dt) <= score m + 10000.
Proof.
  unfold INT_MIN, INT_MAX. intros Hlo Hhi. unfold update_bullets.
  pose proof (fold_left_counted
                (fun k a => wave a = wave m /\ flyer_flags a = flyer_flags m /\
                            ((k <= 100)%nat ->
                             score m <= score a <= score m + 100 * Z.of_nat k))
                (update_bullet dt) (seq 0 (Z.to_nat MAX_BULLETS))) as Hfold.
  cbv beta in Hfold.
  assert (Hstep : forall (k : nat) (a : GameModel) (b : nat),
             wave a = wave m /\ flyer_flags a = flyer_flags m /\
             ((k <= 100)%nat -> score m <= score a <= score m + 100 * Z.of_nat k) ->
             wave (update_bullet dt a b) = wave m /\
             flyer_flags (update_bullet dt a b) = flyer_flags m /\
             ((S k <= 100)%nat ->
              score m <= score (update_bullet dt a b)
              <= score m + 100 * Z.of_nat (S k))).
  { clear Hfold. intros k a i (Hw & Hf & Hs).
    destruct (update_bullet_aux dt a i) as (Hw' & Hf' & pts & Hp).
    split; [congruence | ]. split; [congruence | ].
    intros Hk. specialize (Hs ltac:(lia)).
    destruct Hp as [(_ & ->) | (-> & Hpts)]; [lia | ].
    rewrite wrap_int_id by (unfold is_int, INT_MIN, INT_MAX; lia). lia. }
  specialize (Hfold Hstep 0%nat m).
  rewrite length_seq in Hfold. change (Z.to_nat MAX_BULLETS) with 100%nat in Hfold.
  destruct Hfold as (Hw & Hf & Hs).
  - repeat split; try reflexivity; lia.
  - specialize (Hs ltac:(lia)).
    split; [exact Hw | ]. split; [exact Hf | ].
    change (Z.of_nat (0 + 100)) with 100 in Hs.
    destruct Hs as (Hs1 & Hs2). split; [exact Hs1 | ].
    eapply Z.le_trans; [exact Hs2 | ]. apply Z.le_refl.
Qed.

Lemma update_bullets_wave (m : GameModel) (dt : f64) :
  wave (update_bullets m dt) = wave m /\
  flyer_flags (update_bullets m dt) = flyer_flags m.
Proof.
  unfold update_bullets.
  apply (fold_left_preserves
           (fun a => wave a = wave m /\ flyer_flags a = flyer_flags m)).
  - intros a i (Hw & Hf).
    destruct (update_bullet_aux dt a i) as (Hw' & Hf' & _).
    split; congruence.
  - split; reflexivity.
Qed.

Lemma wave_ok_transfer (m1 m2 : GameModel) :
  wave m1 = wave m2 -> wave_ok m2 -> wave_ok m1.
Proof.
  unfold wave, wave_ok. intros H. injection H as -> -> ->. auto.
Qed.

Lemma flyer_flags_eq (m1 m2 : GameModel) :
  flyer_flags m1 = flyer_flags m2 ->
  Ufo.active (ufo m1) = Ufo.active (ufo m2) /\
  Ufo.hasSpawnedThisLevel (ufo m1) = Ufo.hasSpawnedThisLevel (ufo m2).
Proof.
  unfold flyer_flags. intros H. injection H as -> ->. auto.
Qed.

(** The two ways a Playing step ends: the level-up, or the move of the
    wave, the enemy fire and the bullet loop. *)
Lemma update_playing_unfold (m : GameModel) (dt : f64) (g : RandGen) :
  let mu := fst (update_ufo (update_player (update_beat (update_timers m dt) dt) dt)
                   dt g) in
  exists (es : list Entity.t) (n : Z) (touch : bool) (gf : RandGen),
    (n = 0 /\ Ufo.active (ufo mu) = false /\
     fst (update_playing m dt g) = level_up (set_enemies es mu)) \/
    (~ (n = 0 /\ Ufo.active (ufo mu) = false) /\
     fst (update_playing m dt g)
     = update_bullets
         (fst (enemies_fire
                 (if touch then enemies_turn (set_enemies es mu)
                  else enemies_advance (set_enemies es mu) dt) gf)) dt).
Proof.
  cbv zeta. unfold update_playing, playing_prefix.
  destruct (update_ufo _ dt g) as [mu gu]. cbn [fst].
  destruct (scan_enemies _ _ _ _) as [es [n touch]].
  exists es, n, touch, gu.
  change (ufo (set_enemies es mu)) with (ufo mu).
  destruct (Z.eqb_spec n 0) as [-> | Hn]; cbn [andb].
  - destruct (Ufo.active (ufo mu)); cbn [negb].
    + right. split; [intros (_ & H); discriminate | ].
      destruct (enemies_fire _ gu). reflexivity.
    + left. auto.
  - right. split; [intros (H & _); contradiction | ].
    destruct (enemies_fire _ gu). reflexivity.
Qed.

(** X15: the wave parameters stay on their cycle.  A game whose sweep
    direction is 1 or -1 and whose drop oscillator is on one of its six
    positions, as every new level sets them, keeps both properties through
    any simulation step. *)
Theorem wave_stays_on_cycle
  (m : GameModel) (dt : f64) (g : RandGen) (m' : GameModel) (g' : RandGen) :
  wave_ok m ->
  model_update m dt g = Continue (m', g') ->
  wave_ok m' /\ wave_ok (level_up m) /\ wave_ok (reset_game m).
Proof.
  intros Hok H.
  assert (Hinit : forall a, wave_ok (init_enemies a)).
  { intros a. unfold wave_ok.
    change (direction_enemies (init_enemies a)) with 1.
    change (drop_direction (init_enemies a)) with 1.
    change (drop_step_count (init_enemies a)) with 0.
    split; [left; reflexivity | left; lia]. }
  split; [ | split; [apply Hinit | ]].
  2: { unfold wave_ok.
       change (direction_enemies (reset_game m)) with 1.
       change (drop_direction (reset_game m)) with 1.
       change (drop_step_count (reset_game m)) with 0.
       split; [left; reflexivity | left; lia]. }
  unfold model_update in H.
  destruct (state m); try (injection H as <- _; exact Hok).
  - injection H as H.
    replace m' with (fst (update_playing m dt g)) by (rewrite H; reflexivity).
    destruct (update_playing_unfold m dt g) as (es & n & touch & gf & Hcase).
    destruct (early_phases_aux m dt) as (Hw0 & _).
    destruct (update_ufo_aux (update_player (update_beat (update_timers m dt) dt) dt)
                dt g) as (Hwu & _).
    set (mu := fst (update_ufo _ dt g)) in *.
    assert (Hmu : wave_ok (set_enemies es mu)).
    { apply (wave_ok_transfer _ mu); [reflexivity | ].
      apply (wave_ok_transfer _ _ Hwu).
      apply (wave_ok_transfer _ _ Hw0). exact Hok. }
    destruct Hcase as [(_ & _ & ->) | (_ & ->)]; [apply Hinit | ].
    destruct (update_bullets_wave
                (fst (enemies_fire
                        (if touch then enemies_turn (set_enemies es mu)
                         else enemies_advance (set_enemies es mu) dt) gf)) dt)
      as (Hwb & _).
    destruct (enemies_fire_aux
                (if touch then enemies_turn (set_enemies es mu)
                 else enemies_advance (set_enemies es mu) dt) gf) as (Hwf & _).
    assert (Hturn : wave_ok (if touch then enemies_turn (set_enemies es mu)
                             else enemies_advance (set_enemies es mu) dt)).
    { destruct touch; [apply enemies_turn_aux, Hmu | exact Hmu]. }
    apply (wave_ok_transfer _ _ Hwb).
    apply (wave_ok_transfer _ _ Hwf). exact Hturn.
  - destruct (F32.leb _ _); [discriminate | ].
    injection H as <- _. exact Hok.
Qed.

Lemma wave_stays_on_cycle_witness :
  exists m' g',
    model_update run_right_model FIXED_DT g_ones = Continue (m', g') /\ wave_ok m'.
Proof.
  assert (Hok : wave_ok run_right_model).
  { unfold wave_ok.
    change (direction_enemies run_right_model) with 1.
    change (drop_direction run_right_model) with 1.
    change (drop_step_count run_right_model) with 0.
    split; [left; reflexivity | left; lia]. }
  destruct (model_update run_right_model FIXED_DT g_ones) as [[m' g'] | | ] eqn:E.
  - exists m', g'. split; [reflexivity | ].
    exact (proj1 (wave_stays_on_cycle _ _ _ _ _ Hok E)).
  - vm_compute in E. discriminate E.
  - vm_compute in E. discriminate E.
Defined.

(** X16: one flyer per level.  In a Playing step a flyer that was inactive
    becomes active only if none had spawned this level, and the spawn is
    then recorded; once recorded, it stays recorded and no flyer appears
    for as long as the level does not change. *)
Theorem flyer_spawns_once_per_level
  (m : GameModel) (dt : f64) (g : RandGen) (m' : GameModel) (g' : RandGen) :
  state m = STATE_PLAYING ->
  model_update m dt g = Continue (m', g') ->
  (Ufo.active (ufo m) = false -> Ufo.active (ufo m') = true ->
   Ufo.hasSpawnedThisLevel (ufo m) = false /\
   Ufo.hasSpawnedThisLevel (ufo m') = true) /\
  (Ufo.hasSpawnedThisLevel (ufo m) = true -> level m' = level m ->
   Ufo.hasSpawnedThisLevel (ufo m') = true /\
   (Ufo.active (ufo m') = true -> Ufo.active (ufo m) = true)).
Proof.
  intros Hs H. unfold model_update in H. rewrite Hs in H. injection H as H.
  replace m' with (fst (update_playing m dt g)) by (rewrite H; reflexivity).
  clear H.
  destruct (update_playing_unfold m dt g) as (es & n & touch & gf & Hcase).
  destruct (early_phases_aux m dt) as (_ & Hu0 & _ & _ & Hl0 & _).
  destruct (update_ufo_aux (update_player (update_beat (update_timers m dt) dt) dt)
              dt g) as (_ & _ & Hkeep & Hspawn).
  destruct (update_ufo_core (update_player (update_beat (update_timers m dt) dt) dt)
              dt g) as (_ & _ & _ & Hlu & _).
  rewrite Hu0 in Hkeep, Hspawn. rewrite Hl0 in Hlu.
  set (mu := fst (update_ufo _ dt g)) in *.
  destruct Hcase as [(_ & _ & ->) | (_ & ->)].
  - split.
    + intros _ Ha. discriminate Ha.
    + intros _ Hl. exfalso.
      change (level (level_up (set_enemies es mu))) with (wrap_int (level mu + 1)) in Hl.
      rewrite Hlu in Hl. exact (wrap_int_succ_neq _ Hl).
  - set (mt := if touch then enemies_turn (set_enemies es mu)
               else enemies_advance (set_enemies es mu) dt).
    assert (Ht : ufo mt = ufo mu).
    { subst mt. destruct touch; [ | reflexivity].
      exact (proj1 (enemies_turn_aux (set_enemies es mu))). }
    destruct (enemies_fire_aux mt gf) as (_ & Hf & _).
    destruct (update_bullets_wave (fst (enemies_fire mt gf)) dt) as (_ & Hb).
    apply flyer_flags_eq in Hb. destruct Hb as (E1 & E2).
    rewrite Hf, Ht in E1, E2. rewrite E1, E2.
    split.
    + intros Ha Ha'. destruct (Hspawn Ha Ha') as (H1 & H2 & _). auto.
    + intros Hsp _. apply Hkeep, Hsp.
Qed.

Lemma flyer_spawns_once_per_level_witness :
  let g : RandGen := fun _ => 0 in
  exists m' g',
    model_update run_right_model FIXED_DT g = Continue (m', g') /\
    Ufo.active (ufo m') = true /\
    Ufo.hasSpawnedThisLevel (ufo m') = true.
Proof.
  intros g.
  destruct (model_update run_right_model FIXED_DT g) as [[m' g'] | | ] eqn:E.
  - exists m', g'. split; [reflexivity | ].
    assert (Ha : Ufo.active (ufo m') = true).
    { vm_compute in E. injection E as <- _. reflexivity. }
    split; [exact Ha | ].
    exact (proj2 (proj1 (flyer_spawns_once_per_level run_right_model FIXED_DT g
                           m' g' eq_refl E)
                    eq_refl Ha)).
  - vm_compute in E. discriminate E.
  - vm_compute in E. discriminate E.
Defined.

(** X17: the score never goes down.  Whatever the state, a step from a
    score that leaves room for 10000 more points below [INT_MAX] ends with
    a score at least as high and at most 10000 higher: each of the 100
    bullets earns 0, 10, 20, 30 or 100. *)
Theorem score_never_decreases
  (m : GameModel) (dt : f64) (g : RandGen) (m' : GameModel) (g' : RandGen) :
  INT_MIN <= score m ->
  score m + 10000 <= INT_MAX ->
  model_update m dt g = Continue (m', g') ->
  score m <= score m' <= score m + 10000.
Proof.
  intros Hlo Hhi H. unfold model_update in H.
  destruct (state m); try (injection H as <- _; cbn [score set_game_over_timer]; lia).
  - injection H as H.
    replace m' with (fst (update_playing m dt g)) by (rewrite H; reflexivity).
    clear H.
    destruct (update_playing_unfold m dt g) as (es & n & touch & gf & Hcase).
    destruct (early_phases_aux m dt) as (_ & _ & Hs0 & _).
    destruct (update_ufo_aux (update_player (update_beat (update_timers m dt) dt) dt)
                dt g) as (_ & Hsu & _).
    rewrite Hs0 in Hsu.
    set (mu := fst (update_ufo _ dt g)) in *.
    destruct Hcase as [(_ & _ & ->) | (_ & ->)].
    + change (score (level_up (set_enemies es mu))) with (score mu). lia.
    + set (mt := if touch then enemies_turn (set_enemies es mu)
                 else enemies_advance (set_enemies es mu) dt).
      assert (Ht : score mt = score mu).
      { subst mt. destruct touch; [ | reflexivity].
        exact (proj1 (proj2 (enemies_turn_aux (set_enemies es mu)))). }
      destruct (enemies_fire_aux mt gf) as (_ & _ & Hf).
      assert (E : score (fst (enemies_fire mt gf)) = score m) by congruence.
      destruct (update_bullets_aux (fst (enemies_fire mt gf)) dt) as (_ & _ & Hb).
      * rewrite E. exact Hlo.
      * rewrite E. exact Hhi.
      * rewrite E in Hb. exact Hb.
  - destruct (F32.leb _ _); [discriminate | ].
    injection H as <- _. cbn [score set_save_success_timer]. lia.
Qed.

Lemma score_never_decreases_witness :
  exists m' g',
    model_update run_right_model FIXED_DT g_ones = Continue (m', g') /\
    0 <= score m' <= 10000.
Proof.
  destruct (model_update run_right_model FIXED_DT g_ones) as [[m' g'] | | ] eqn:E.
  - exists m', g'. split; [reflexivity | ].
    refine (score_never_decreases run_right_model _ _ _ _ _ _ E).
    + change (score run_right_model) with 0. unfold INT_MIN. lia.
    + change (score run_right_model) with 0. unfold INT_MAX. lia.
  - vm_compute in E. discriminate E.
  - vm_compute in E. discriminate E.
Defined.

(** ** Game over *)

Lemma update_bullet_game_over (l0 : Z) (h0 : f32) (dt : f64) (a : GameModel) (i : nat) :
  INT_MIN < l0 < INT_MAX ->
  loop_lives l0 h0 a ->
  state (update_bullet dt a i) = state a \/
  state (update_bullet dt a i) = STATE_GAME_OVER /\
  l0 <= 1 /\ F32.leb h0 (F32.of_Z 0) = true.
Proof.
  unfold INT_MIN, INT_MAX. intros Hl0 (u & h & Hu & Hh & Hl).
  unfold update_bullet.
  destruct (bullets a !! i) as [b | ]; [ | left; reflexivity].
  destruct (negb (Entity.active b)); [left; reflexivity | ].
  destruct (out_of_field _); [left; reflexivity | ].
  destruct (hit_shields _ _); [left; reflexivity | ].
  destruct (type_is _ _).
  - left. unfold player_bullet_hits.
    destruct (_ && _); [reflexivity | ].
    destruct (hit_enemies _ _) as [[es pts] | ]; reflexivity.
  - unfold enemy_bullet_hits.
    destruct (Entity.active (player a) && F32.leb (hit_timer a) (F32.of_Z 0)
              && check_collision _ (player a)) eqn:E; [ | left; reflexivity].
    apply andb_true_iff in E. destruct E as (E & _).
    apply andb_true_iff in E. destruct E as (_ & E).
    destruct Hh as [(-> & Hh) | (_ & Hh & _)];
      [ | rewrite Hh in E; vm_compute in E; discriminate].
    rewrite Hh in E.
    cbn [lives set_lives set_hit_timer set_sounds store_bullet set_bullets].
    rewrite Hl. replace (l0 + u - 0 - 1) with (l0 + u - 1) by lia.
    rewrite wrap_int_id
      by (unfold is_int, INT_MIN, INT_MAX; destruct Hu as [-> | (-> & _)]; lia).
    destruct (Z.leb_spec (l0 + u - 1) 0); [ | left; reflexivity].
    right. split; [reflexivity | ]. split; [ | exact E].
    destruct Hu as [-> | (-> & _)]; lia.
Qed.

Lemma update_bullets_game_over (m : GameModel) (dt : f64) :
  INT_MIN < lives m < INT_MAX ->
  state (update_bullets m dt) = state m \/
  state (update_bullets m dt) = STATE_GAME_OVER /\
  lives m <= 1 /\ F32.leb (hit_timer m) (F32.of_Z 0) = true.
Proof.
  intros Hl. unfold update_bullets.
  assert (H : loop_lives (lives m) (hit_timer m)
                (fold_left (update_bullet dt) (seq 0 (Z.to_nat MAX_BULLETS)) m) /\
              (state (fold_left (update_bullet dt) (seq 0 (Z.to_nat MAX_BULLETS)) m)
               = state m \/
               state (fold_left (update_bullet dt) (seq 0 (Z.to_nat MAX_BULLETS)) m)
               = STATE_GAME_OVER /\
               lives m <= 1 /\ F32.leb (hit_timer m) (F32.of_Z 0) = true)).
  { apply (fold_left_preserves
             (fun a => loop_lives (lives m) (hit_timer m) a /\
                       (state a = state m \/
                        state a = STATE_GAME_OVER /\
                        lives m <= 1 /\ F32.leb (hit_timer m) (F32.of_Z 0) = true))).
    - intros a i (Hloop & Hst). split.
      + apply update_bullet_loop_lives; assumption.
      + destruct (update_bullet_game_over _ _ dt a i Hl Hloop) as [Hs | Hs].
        * rewrite Hs. exact Hst.
        * right. exact Hs.
    - split; [ | left; reflexivity].
      exists 0, 0. split; [left; reflexivity | ].
      split; [left; split; reflexivity | lia]. }
  exact (proj2 H).
Qed.

(** X18: the way out of Playing.  A Playing step returns, in Playing or in
    Game Over; it ends in Game Over only when at most one life was left at
    its start and the invulnerability timer, after its update, was not
    above 0. *)
Theorem game_over_needs_last_life (m : GameModel) (dt : f64) (g : RandGen) :
  state m = STATE_PLAYING ->
  INT_MIN < lives m < INT_MAX ->
  exists m' g',
    model_update m dt g = Continue (m', g') /\
    (state m' = STATE_PLAYING \/ state m' = STATE_GAME_OVER) /\
    (state m' = STATE_GAME_OVER ->
     lives m <= 1 /\
     F32.leb (hit_timer (update_timers m dt)) (F32.of_Z 0) = true).
Proof.
  intros Hs Hrange. unfold model_update. rewrite Hs.
  destruct (update_playing m dt g) as [m' g'] eqn:E.
  exists m', g'. split; [reflexivity | ].
  replace m' with (fst (update_playing m dt g)) by (rewrite E; reflexivity).
  clear E.
  destruct (update_playing_player m dt g) as (_ & Hst).
  split; [rewrite Hs in Hst; exact Hst | ].
  destruct (update_playing_unfold m dt g) as (es & n & touch & gf & Hcase).
  destruct (early_phases_aux m dt) as (_ & _ & _ & _ & _ & Hs0 & Hl0).
  pose proof (update_ufo_core (update_player (update_beat (update_timers m dt) dt) dt)
                dt g) as (Hsu & _ & _ & _ & Hlu & Hhu).
  rewrite Hs0 in Hsu. rewrite Hl0 in Hlu.
  assert (Hh0 : hit_timer (update_player (update_beat (update_timers m dt) dt) dt)
                = hit_timer (update_timers m dt)).
  { unfold update_player, update_beat. split_ifs; reflexivity. }
  rewrite Hh0 in Hhu.
  set (mu := fst (update_ufo _ dt g)) in *.
  destruct Hcase as [(_ & _ & ->) | (_ & ->)].
  - change (state (level_up (set_enemies es mu))) with (state mu).
    rewrite Hsu, Hs. discriminate.
  - set (mt := if touch then enemies_turn (set_enemies es mu)
               else enemies_advance (set_enemies es mu) dt).
    assert (Ht : same_core (set_enemies es mu) mt).
    { subst mt. destruct touch; [apply enemies_turn_core | apply enemies_advance_core]. }
    pose proof (enemies_fire_core mt gf) as Hf.
    destruct Ht as (Hst1 & _ & _ & _ & Hlt & Hht).
    destruct Hf as (Hsf & _ & _ & _ & Hlf & Hhf).
    cbn [state lives hit_timer set_enemies] in Hst1, Hlt, Hht.
    assert (El : lives (fst (enemies_fire mt gf)) = lives m) by congruence.
    assert (Eh : hit_timer (fst (enemies_fire mt gf)) = hit_timer (update_timers m dt))
      by congruence.
    assert (Es : state (fst (enemies_fire mt gf)) = STATE_PLAYING) by congruence.
    destruct (update_bullets_game_over (fst (enemies_fire mt gf)) dt) as [Hb | Hb].
    + rewrite El. exact Hrange.
    + rewrite Hb, Es. discriminate.
    + rewrite El, Eh in Hb. intros _. exact (proj2 Hb).
Qed.

Lemma game_over_needs_last_life_witness :
  exists m' g',
    model_update run_right_model FIXED_DT g_ones = Continue (m', g') /\
    (state m' = STATE_PLAYING \/ state m' = STATE_GAME_OVER).
Proof.
  destruct (game_over_needs_last_life run_right_model FIXED_DT g_ones eq_refl)
    as (m' & g' & H1 & H2 & _).
  - change (lives run_right_model) with 3. unfold INT_MIN, INT_MAX. lia.
  - exists m', g'. split; assumption.
Defined.

(** ** A new game *)

Lemma GameModel_ext (a b : GameModel) :
  state a = state b ->
  previous_state a = previous_state b ->
  player a = player b ->
  enemies a = enemies b ->
  bullets a = bullets b ->
  ufo a = ufo b ->
  shields a = shields b ->
  score a = score b ->
  lives a = lives b ->
  level a = level b ->
  normal_max_lives a = normal_max_lives b ->
  enemy_speed_mult a = enemy_speed_mult b ->
  direction_enemies a = direction_enemies b ->
  drop_direction a = drop_direction b ->
  drop_step_count a = drop_step_count b ->
  animation_frame a = animation_frame b ->
  animation_timer a = animation_timer b ->
  game_over_timer a = game_over_timer b ->
  hit_timer a = hit_timer b ->
  save_success_timer a = save_success_timer b ->
  menu_selection a = menu_selection b ->
  input_buffer a = input_buffer b ->
  save_files a = save_files b ->
  save_file_count a = save_file_count b ->
  current_filename a = current_filename b ->
  pending_quit a = pending_quit b ->
  sounds a = sounds b ->
  volume a = volume b ->
  is_muted a = is_muted b ->
  a = b.
Proof.
  destruct a, b. cbn. intros. subst. reflexivity.
Qed.

Lemma init_shields_full (m : GameModel) :
  length (shields m) = Z.to_nat MAX_SHIELDS ->
  shields (init_shields m) = map init_shield (Z_range 4).
Proof.
  intros Hlen. unfold init_shields. cbn [shields set_shields].
  destruct (shields m) as [ | s0 [ | s1 [ | s2 [ | s3 [ | s4 rest]]]]];
    try discriminate Hlen.
  reflexivity.
Qed.

Lemma reset_game_enemies (m : GameModel) :
  length (enemies m) = Z.to_nat MAX_ENEMIES ->
  enemies (reset_game m) = formation ++ drop 55 (enemies m).
Proof.
  intros He.
  change (enemies (reset_game m)) with (init_enemies_grid (enemies m)).
  apply init_enemies_grid_formation, He.
Qed.

Lemma reset_game_shields (m : GameModel) :
  length (shields m) = Z.to_nat MAX_SHIELDS ->
  shields (reset_game m) = map init_shield (Z_range 4).
Proof.
  intros Hs.
  change (shields (reset_game m)) with (shields (init_shields m)).
  apply init_shields_full, Hs.
Qed.

(** X19: a new game.  [reset_game], on a model with its 60 enemy slots and
    4 barriers, gives a game in Playing with score 0, 3 lives, level 1, no
    invulnerability, an empty pool of 100 bullets, the formation of 55
    enemies in the first slots, four barriers at full health, the flyer
    inactive and not yet spawned, and the player centred at 47.5 without
    speed; volume, mute, input buffer and save list are kept.  Resetting
    again changes nothing. *)
Theorem reset_game_starts_afresh (m : GameModel) :
  length (enemies m) = Z.to_nat MAX_ENEMIES ->
  length (shields m) = Z.to_nat MAX_SHIELDS ->
  let r := reset_game m in
  state r = STATE_PLAYING /\ score r = 0 /\ lives r = 3 /\ level r = 1 /\
  hit_timer r = F32.of_Z 0 /\
  bullets r = replicate 100 zero_entity /\
  Forall (fun b => Entity.active b = false) (bullets r) /\
  enemies r = formation ++ drop 55 (enemies m) /\
  shields r = map init_shield (Z_range 4) /\
  Forall (fun s => Shield.health s = 10 /\ Shield.active s = true) (shields r) /\
  Ufo.active (ufo r) = false /\ Ufo.hasSpawnedThisLevel (ufo r) = false /\
  Entity.x (player r) = F32.lit 475 1 /\ Entity.dx (player r) = F32.of_Z 0 /\
  settings r = settings m /\
  reset_game r = r.
Proof.
  intros He Hs. cbv zeta.
  pose proof (reset_game_enemies m He) as Hen.
  pose proof (reset_game_shields m Hs) as Hsh.
  split; [reflexivity | ]. split; [reflexivity | ]. split; [reflexivity | ].
  split; [reflexivity | ]. split; [reflexivity | ]. split; [reflexivity | ].
  split.
  { change (bullets (reset_game m)) with (replicate 100 zero_entity).
    apply Forall_forall. intros b Hb.
    apply (proj1 (elem_of_replicate _ _ _)) in Hb. destruct Hb as [-> _]. reflexivity. }
  split; [exact Hen | ]. split; [exact Hsh | ].
  split.
  { rewrite Hsh. repeat constructor. }
  split; [reflexivity | ]. split; [reflexivity | ].
  split; [vm_compute; reflexivity | ]. split; [reflexivity | ].
  split; [reflexivity | ].
  assert (Hen2 : enemies (reset_game (reset_game m)) = enemies (reset_game m)).
  { rewrite (reset_game_enemies (reset_game m)).
    - rewrite Hen. rewrite drop_app_length' by (vm_compute; reflexivity). reflexivity.
    - rewrite Hen, length_app, length_drop, He.
      destruct formation_all_live as (-> & _). reflexivity. }
  assert (Hsh2 : shields (reset_game (reset_game m)) = shields (reset_game m)).
  { rewrite (reset_game_shields (reset_game m)); [symmetry; exact Hsh | ].
    rewrite Hsh. reflexivity. }
  apply GameModel_ext;
    first [exact Hen2 | exact Hsh2 | lazy; reflexivity].
Qed.

Lemma reset_game_starts_afresh_witness :
  reset_game (reset_game model_init) = reset_game model_init /\
  lives (reset_game model_init) = 3.
Proof.
  destruct (reset_game_starts_afresh model_init eq_refl eq_refl)
    as (_ & _ & Hl & _ & _ & _ & _ & _ & _ & _ & _ & _ & _ & _ & _ & Hid).
  split; [exact Hid | exact Hl].
Defined.
